(** * tizianophoto: the request router and the data access layer

    A shallow embedding of [routes.ts] ([registerRoutes]) and of
    [storage.ts] ([DatabaseStorage]).  The relational store is an
    in-memory collection of tables; handlers are written in a small monad
    that threads the store, records every store operation that runs and
    propagates rejected promises to the [try]/[catch] of the route. *)

From Stdlib Require Import ZArith String Ascii List Lia.
From stdpp Require Import base option list gmap strings sorting.

Local Open Scope string_scope.
Local Open Scope Z_scope.

(** ** JavaScript numbers and [parseInt] *)

(** The numbers the routes handle are path ids run through [parseInt]:
    a double whose value is an integer, or NaN. *)
Inductive JsNumber : Type :=
  | NaN
  | Int (z : Z).

#[global] Instance JsNumber_eq_dec : EqDecision JsNumber.
Proof. solve_decision. Defined.

Module Js.

(** A string is the UTF-8 encoding of the JavaScript string it stands
    for.  The white space that [parseInt] skips (WhiteSpace and
    LineTerminator) is made of the code points below: the one-byte ones,
    U+00A0 in two bytes, and U+1680, U+2000 to U+200A, U+2028, U+2029,
    U+202F, U+205F, U+3000 and U+FEFF in three. *)
Definition isWhiteSpace (c : ascii) : bool :=
  match N_of_ascii c with
  | 9%N | 10%N | 11%N | 12%N | 13%N | 32%N => true
  | _ => false
  end.

Definition isWhiteSpace2 (c1 c2 : ascii) : bool :=
  match N_of_ascii c1, N_of_ascii c2 with
  | 194%N, 160%N => true
  | _, _ => false
  end.

Definition isWhiteSpace3 (c1 c2 c3 : ascii) : bool :=
  match N_of_ascii c1, N_of_ascii c2, N_of_ascii c3 with
  | 225%N, 154%N, 128%N => true
  | 226%N, 128%N, n => (128 <=? n)%N && (n <=? 138)%N || (n =? 168)%N || (n =? 169)%N || (n =? 175)%N
  | 226%N, 129%N, 159%N => true
  | 227%N, 128%N, 128%N => true
  | 239%N, 187%N, 191%N => true
  | _, _, _ => false
  end.

Fixpoint trimStart (s : string) : string :=
  match s with
  | String c1 r1 =>
      if isWhiteSpace c1 then trimStart r1
      else
        match r1 with
        | String c2 r2 =>
            if isWhiteSpace2 c1 c2 then trimStart r2
            else
              match r2 with
              | String c3 r3 => if isWhiteSpace3 c1 c2 c3 then trimStart r3 else s
              | EmptyString => s
              end
        | EmptyString => s
        end
  | EmptyString => EmptyString
  end.

(** Value of a character read as a digit of some radix up to 36. *)
Definition digitValue (c : ascii) : option Z :=
  let n := Z.of_N (N_of_ascii c) in
  if (48 <=? n) && (n <=? 57) then Some (n - 48)
  else if (97 <=? n) && (n <=? 122) then Some (n - 87)
  else if (65 <=? n) && (n <=? 90) then Some (n - 55)
  else None.

(** The longest prefix of radix-[R] digits, as a number; [acc] is [None]
    until a first digit has been read. *)
Fixpoint digitsPrefix (R : Z) (s : string) (acc : option Z) : option Z :=
  match s with
  | String c rest =>
      match digitValue c with
      | Some d =>
          if d <? R then digitsPrefix R rest (Some (default 0 acc * R + d))
          else acc
      | None => acc
      end
  | EmptyString => acc
  end.

(** The double nearest to a natural number, ties to the even mantissa:
    up to [2^53] every integer is a double, beyond that 53 bits are kept. *)
Definition roundToDouble (n : Z) : Z :=
  if n <? 2 ^ 53 then n
  else
    let e := Z.log2 n - 52 in
    let q := Z.shiftr n e in
    let r := n - Z.shiftl q e in
    let half := Z.shiftl 1 (e - 1) in
    let q' :=
      if r <? half then q
      else if half <? r then q + 1
      else if Z.even q then q else q + 1 in
    Z.shiftl q' e.

(** The Number value of an integer.  A magnitude that rounds to [2^1024]
    is an infinity in JavaScript; [JsNumber] has none and gives it as NaN:
    as the parameter of a query the store refuses either. *)
Definition toNumber (n : Z) : JsNumber :=
  let m := roundToDouble (Z.abs n) in
  if m <? 2 ^ 1024 then Int (Z.sgn n * m) else NaN.

(** [parseInt(string)] with the radix left out: leading white space and
    a sign are skipped, a [0x] prefix selects radix 16, the digits up to
    the first character that is not one are read, and no digit at all
    gives NaN. *)
Definition parseInt (s : string) : JsNumber :=
  let s1 := trimStart s in
  let '(sign, s2) :=
    match s1 with
    | String "-"%char rest => (-1, rest)
    | String "+"%char rest => (1, rest)
    | _ => (1, s1)
    end in
  let '(R, s3) :=
    match s2 with
    | String "0"%char (String "x"%char rest) => (16, rest)
    | String "0"%char (String "X"%char rest) => (16, rest)
    | _ => (10, s2)
    end in
  match digitsPrefix R s3 None with
  | None => NaN
  | Some n => toNumber (sign * n)
  end.

(** *** Dates

    A [Date] is its time value, the milliseconds since the epoch; the
    calendar functions are those of the language definition, read in
    UTC. *)
Definition msPerDay : Z := 86400000.

Definition Day (t : Z) : Z := t / msPerDay.
Definition TimeWithinDay (t : Z) : Z := t mod msPerDay.

(** Day number of the civil date year [y], month [m] (1..12), day [d]. *)
Definition daysFromCivil (y m d : Z) : Z :=
  let y' := if m <=? 2 then y - 1 else y in
  let era := y' / 400 in
  let yoe := y' - era * 400 in
  let mp := if 2 <? m then m - 3 else m + 9 in
  let doy := (153 * mp + 2) / 5 + d - 1 in
  let doe := yoe * 365 + yoe / 4 - yoe / 100 + doy in
  era * 146097 + doe - 719468.

(** Civil date (year, month 1..12, day) of a day number. *)
Definition civilFromDays (z : Z) : Z * Z * Z :=
  let z' := z + 719468 in
  let era := z' / 146097 in
  let doe := z' - era * 146097 in
  let yoe := (doe - doe / 1460 + doe / 36524 - doe / 146096) / 365 in
  let doy := doe - (365 * yoe + yoe / 4 - yoe / 100) in
  let mp := (5 * doy + 2) / 153 in
  let d := doy - (153 * mp + 2) / 5 + 1 in
  let m := if mp <? 10 then mp + 3 else mp - 9 in
  (if m <=? 2 then yoe + era * 400 + 1 else yoe + era * 400, m, d).

Definition YearFromTime (t : Z) : Z := (civilFromDays (Day t)).1.1.
(** Months count from 0, as [getMonth] returns them. *)
Definition getMonth (t : Z) : Z := (civilFromDays (Day t)).1.2 - 1.
Definition DateFromTime (t : Z) : Z := (civilFromDays (Day t)).2.

(** [MakeDay]: the month may lie outside 0..11 and the day outside the
    month; both carry over. *)
Definition MakeDay (year month date : Z) : Z :=
  daysFromCivil (year + month / 12) (month mod 12 + 1) 1 + date - 1.

Definition MakeDate (day time : Z) : Z := day * msPerDay + time.

(** [d.setMonth(month)]: the time value [d] has afterwards. *)
Definition setMonth (t month : Z) : Z :=
  MakeDate (MakeDay (YearFromTime t) month (DateFromTime t)) (TimeWithinDay t).

End Js.

(** ** The data model ([@shared/schema]) *)

(** Modelled from the spec: the [users] table of the schema module, which
    [storage.ts] imports and which is not at hand; a user serves admin
    authentication only. *)
Record User := {
  u_id : Z;
  u_username : string;
  u_password : string;
}.

(** Modelled from the spec: the [faqs] table of the schema module. *)
Record Faq := {
  f_id : Z;
  f_categoryId : Z;
  f_question : string;
  f_answer : string;
  f_order : Z;
}.

(** Modelled from the spec: the [reviews] table of the schema module, with
    the columns [updateReview] sets.  Times are time values in
    milliseconds. *)
Record Review := {
  r_id : Z;
  r_author : string;
  r_content : string;
  r_modifiedContent : option string;
  r_status : string;
  r_createdAt : Z;
  r_updatedAt : Z;
}.

(** Modelled from the spec: the [galleries] table of the schema module,
    with the columns [getGalleryByAccessCode] selects. *)
Record Gallery := {
  g_id : Z;
  g_accessCode : string;
}.

(** Modelled from the spec: the [photos] table of the schema module, with
    the columns [getPhotosByGalleryId] selects. *)
Record Photo := {
  p_id : Z;
  p_url : string;
  p_galleryId : Z;
}.

(** Modelled from the spec: the [availability_dates] table of the schema
    module, with the columns [updateAvailabilityDate] sets. *)
Record AvailabilityDate := {
  d_id : Z;
  d_date : Z;
  d_isAvailable : bool;
  d_createdAt : Z;
  d_updatedAt : Z;
}.

(** Modelled from the spec: the [availability_time_slots] table of the
    schema module, with the columns [updateAvailabilityTimeSlot] sets and
    the router fills in. *)
Record AvailabilityTimeSlot := {
  s_id : Z;
  s_dateId : Z;
  s_startTime : string;
  s_endTime : string;
  s_isAvailable : bool;
  s_createdAt : Z;
  s_updatedAt : Z;
}.

#[global] Instance Review_eq_dec : EqDecision Review.
Proof. solve_decision. Defined.
#[global] Instance AvailabilityDate_eq_dec : EqDecision AvailabilityDate.
Proof. solve_decision. Defined.
#[global] Instance AvailabilityTimeSlot_eq_dec : EqDecision AvailabilityTimeSlot.
Proof. solve_decision. Defined.

(** A table: its rows in storage order and the next value of the sequence
    behind its [id] column. *)
Record Table (R : Type) := {
  rows : list R;
  serial : Z;
}.
Arguments rows {R} _.
Arguments serial {R} _.

Inductive TableName : Type :=
  | users_t | faqs_t | reviews_t | galleries_t | photos_t
  | availabilityDates_t | availabilityTimeSlots_t.

(** The relational store, with the session table the authorization gate
    reads: a session id maps to the id of the user it authenticates. *)
Record Store := {
  sessions : gmap string Z;
  users : Table User;
  faqs : Table Faq;
  reviews : Table Review;
  galleries : Table Gallery;
  photos : Table Photo;
  availabilityDates : Table AvailabilityDate;
  availabilityTimeSlots : Table AvailabilityTimeSlot;
}.

(** The store with one table replaced. *)
Definition set_reviews (t : Table Review) (st : Store) : Store :=
  {| sessions := sessions st; users := users st; faqs := faqs st;
     reviews := t; galleries := galleries st; photos := photos st;
     availabilityDates := availabilityDates st;
     availabilityTimeSlots := availabilityTimeSlots st |}.

Definition set_availabilityDates (t : Table AvailabilityDate) (st : Store) : Store :=
  {| sessions := sessions st; users := users st; faqs := faqs st;
     reviews := reviews st; galleries := galleries st; photos := photos st;
     availabilityDates := t;
     availabilityTimeSlots := availabilityTimeSlots st |}.

Definition set_availabilityTimeSlots (t : Table AvailabilityTimeSlot) (st : Store) : Store :=
  {| sessions := sessions st; users := users st; faqs := faqs st;
     reviews := reviews st; galleries := galleries st; photos := photos st;
     availabilityDates := availabilityDates st;
     availabilityTimeSlots := t |}.

(** ** Promises over the store *)

(** What a request meets when it is served: the reading of the system
    clock, one for the whole request, and whether the store can be
    reached. *)
Record Env := {
  now : Z;
  online : bool;
}.

(** The operations of the data access layer on the store. *)
Inductive DbOp : Type :=
  | Select (t : TableName)
  | Insert (t : TableName)
  | Update (t : TableName).

(** A settled promise. *)
Inductive Outcome (A : Type) : Type :=
  | Resolved (a : A)
  | Rejected (e : string).
Arguments Resolved {A} _.
Arguments Rejected {A} _.

(** An awaited computation: the outcome, the store it leaves and the store
    operations that ran, oldest first. *)
Definition Async (A : Type) : Type := Env -> Store -> Outcome A * Store * list DbOp.

Definition resolve {A} (a : A) : Async A := fun _ st => (Resolved a, st, []).

Definition await {A B} (m : Async A) (k : A -> Async B) : Async B :=
  fun env st =>
    match m env st with
    | (Resolved a, st1, ops1) =>
        let '(o, st2, ops2) := k a env st1 in (o, st2, (ops1 ++ ops2)%list)
    | (Rejected e, st1, ops1) => (Rejected e, st1, ops1)
    end.

Notation "'let*' x ':=' m 'in' k" := (await m (fun x => k))
  (at level 10, x pattern, m at level 100, k at level 200).

(** [new Date()] *)
Definition newDate : Async Z := fun env st => (Resolved (now env), st, []).

(** *** Query primitives *)

(** The parameters of a query on integer columns are sent to the store
    with it; the store takes an integer and rejects the query when one of
    them is NaN. *)
Definition isInteger (v : JsNumber) : bool :=
  match v with
  | Int _ => true
  | NaN => false
  end.

Definition accepted (params : list JsNumber) : bool := forallb isInteger params.

(** The integers PostgreSQL's [integer] type holds.  The id columns are
    in the schema module, which is not at hand; whatever integer type they
    have, it holds these. *)
Definition int4 (z : Z) : Prop := -2147483648 <= z <= 2147483647.

(** [db.select().from(t)] followed by the clauses [q]; a store that cannot
    be reached rejects and runs nothing.  A condition [eq(column, v)]
    selects the rows whose column is [v]. *)
Definition db_select {R B} (t : TableName) (from : Store -> Table R)
    (q : list R -> B) : Async B :=
  fun env st =>
    if online env then (Resolved (q (rows (from st))), st, [Select t])
    else (Rejected "store unreachable", st, []).

(** What [update .. set .. where ..] makes of one row. *)
Definition updateRow {R} (wh : R -> Prop) `{!forall r, Decision (wh r)} (set : R -> R)
    (r : R) : R :=
  if decide (wh r) then set r else r.

(** [db.update(t).set(..).where(..).returning()] with the parameters
    [params] of its condition: every row the condition selects is replaced
    by its update and the updated rows are returned; a parameter the store
    does not accept rejects the query, which then changes nothing.  Where
    the store keeps an updated row among the others is not specified; the
    model keeps it in its place. *)
Definition db_update {R} (t : TableName) (from : Store -> Table R)
    (into : Table R -> Store -> Store) (params : list JsNumber)
    (wh : R -> Prop) `{!forall r, Decision (wh r)} (set : R -> R) : Async (list R) :=
  fun env st =>
    if online env then
      if accepted params then
        let tb := from st in
        (Resolved (set <$> filter wh (rows tb)),
         into {| rows := updateRow wh set <$> rows tb; serial := serial tb |} st,
         [Update t])
      else (Rejected "invalid input syntax for type integer", st, [])
    else (Rejected "store unreachable", st, []).

(** [db.insert(t).values(v).returning()]: [values] builds the row from the
    store's own clock and the next value of the sequence, or finds that the
    store rejects it; the sequence advances when its value was used
    ([fromSerial]).  The keys of the tables are declared in the schema
    module, which is not at hand: a row is appended whatever ids the table
    holds. *)
Definition db_insert {R} (t : TableName) (from : Store -> Table R)
    (into : Table R -> Store -> Store)
    (values : Z -> Z -> option R) (fromSerial : bool) : Async (list R) :=
  fun env st =>
    if online env then
      let tb := from st in
      match values (now env) (serial tb) with
      | Some r =>
          (Resolved [r],
           into {| rows := (rows tb ++ [r])%list;
                   serial := if fromSerial then serial tb + 1 else serial tb |} st,
           [Insert t])
      | None => (Rejected "rejected by the store", st, [])
      end
    else (Rejected "store unreachable", st, []).

(** [Promise.all] over the promises of a list: the results in the order of
    the list, or the first rejection. *)
Fixpoint promiseAll {A} (ps : list (Async A)) : Async (list A) :=
  match ps with
  | [] => resolve []
  | p :: rest =>
      let* a := p in
      let* others := promiseAll rest in
      resolve (a :: others)
  end.

(** ** The data access layer ([DatabaseStorage]) *)

(** The object [createReview] receives.  Its static type is [InsertReview],
    but the router casts the request body to it without a check, so every
    column a JSON body can name may be present or [undefined]. *)
Record InsertReview := {
  ir_id : option Z;
  ir_author : option string;
  ir_content : option string;
  ir_modifiedContent : option string;
  ir_status : option string;
}.

Record ReviewUpdate := {
  ru_status : option string;
  ru_modifiedContent : option string;
}.

(** [date] is a [Date] object, [None] when it is an Invalid Date. *)
Record InsertAvailabilityDate := {
  iad_date : option Z;
  iad_isAvailable : bool;
}.

Record InsertAvailabilityTimeSlot := {
  ias_dateId : JsNumber;
  ias_startTime : option string;
  ias_endTime : option string;
  ias_isAvailable : bool;
}.

Record PhotoRef := {
  pr_id : Z;
  pr_url : string;
}.

Record GalleryWithPhotos := {
  gw_id : Z;
  gw_accessCode : string;
  gw_photos : list PhotoRef;
}.

Record DateWithSlots := {
  dw_date : AvailabilityDate;
  timeSlots : list AvailabilityTimeSlot;
}.

Record AdminStats := {
  faqCount : Z;
  galleryCount : Z;
  pendingReviewsCount : Z;
}.

Module Storage.

Definition getGalleryByAccessCode (code : string) : Async (option GalleryWithPhotos) :=
  let* found := db_select galleries_t galleries
                  (filter (fun g => g_accessCode g = code)) in
  match head found with
  | None => resolve None
  | Some gallery =>
      let* galleryPhotos :=
        db_select photos_t photos
          (fun l => (fun p => {| pr_id := p_id p; pr_url := p_url p |})
                      <$> filter (fun p => p_galleryId p = g_id gallery) l) in
      resolve (Some {| gw_id := g_id gallery;
                       gw_accessCode := g_accessCode gallery;
                       gw_photos := galleryPhotos |})
  end.

Definition getPhotosByGalleryId (galleryId : Z) : Async (list Photo) :=
  db_select photos_t photos (filter (fun p => p_galleryId p = galleryId)).

(** Modelled from the spec: the defaults and constraints of the [reviews]
    table of the schema module.  The store assigns [id] and the
    timestamps, [author] and [content] are required, [modifiedContent] is
    optional and a review submitted without a status is [pending]. *)
Definition reviewValues (v : InsertReview) (at_ : Z) (next : Z) : option Review :=
  author ← ir_author v;
  content ← ir_content v;
  Some {| r_id := default next (ir_id v);
          r_author := author;
          r_content := content;
          r_modifiedContent := ir_modifiedContent v;
          r_status := default "pending" (ir_status v);
          r_createdAt := at_;
          r_updatedAt := at_ |}.

Definition createReview (review : InsertReview) : Async (option Review) :=
  let* inserted := db_insert reviews_t reviews set_reviews
                     (reviewValues review) (bool_decide (ir_id review = None)) in
  resolve (head inserted).

Definition getApprovedReviews : Async (list Review) :=
  db_select reviews_t reviews (filter (fun r => r_status r = "approved")).

Definition getPendingReviews : Async (list Review) :=
  db_select reviews_t reviews (filter (fun r => r_status r = "pending")).

(** [.set({...})]: a key whose value is [undefined] leaves its column as
    it is. *)
Definition setReview (update : ReviewUpdate) (at_ : Z) (r : Review) : Review :=
  {| r_id := r_id r;
     r_author := r_author r;
     r_content := r_content r;
     r_modifiedContent :=
       match ru_modifiedContent update with
       | Some m => Some m
       | None => r_modifiedContent r
       end;
     r_status := default (r_status r) (ru_status update);
     r_createdAt := r_createdAt r;
     r_updatedAt := at_ |}.

Definition updateReview (id : JsNumber) (update : ReviewUpdate) : Async (option Review) :=
  let* at_ := newDate in
  let* updated := db_update reviews_t reviews set_reviews [id]
                    (fun r => Int (r_id r) = id) (setReview update at_) in
  resolve (head updated).

(** Modelled from the spec: the defaults and constraints of the
    [availability_dates] table of the schema module; the store assigns
    [id] and the timestamps, and rejects a date that is no date. *)
Definition availabilityDateValues (v : InsertAvailabilityDate) (at_ : Z) (next : Z)
    : option AvailabilityDate :=
  date ← iad_date v;
  Some {| d_id := next;
          d_date := date;
          d_isAvailable := iad_isAvailable v;
          d_createdAt := at_;
          d_updatedAt := at_ |}.

Definition createAvailabilityDate (date : InsertAvailabilityDate)
    : Async (option AvailabilityDate) :=
  let* inserted := db_insert availabilityDates_t availabilityDates set_availabilityDates
                     (availabilityDateValues date) true in
  resolve (head inserted).

Definition setAvailabilityDate (isAvailable : option bool) (at_ : Z)
    (d : AvailabilityDate) : AvailabilityDate :=
  {| d_id := d_id d;
     d_date := d_date d;
     d_isAvailable := default (d_isAvailable d) isAvailable;
     d_createdAt := d_createdAt d;
     d_updatedAt := at_ |}.

Definition updateAvailabilityDate (id : JsNumber) (isAvailable : option bool)
    : Async (option AvailabilityDate) :=
  let* at_ := newDate in
  let* updated := db_update availabilityDates_t availabilityDates set_availabilityDates
                    [id]
                    (fun d => Int (d_id d) = id) (setAvailabilityDate isAvailable at_) in
  resolve (head updated).

(** [.orderBy(availabilityTimeSlots.startTime)]: start times compare as
    text. *)
Definition byStartTime (a b : AvailabilityTimeSlot) : Prop :=
  String.leb (s_startTime a) (s_startTime b) = true.

#[global] Instance byStartTime_dec : RelDecision byStartTime.
Proof. intros a b. unfold byStartTime. apply _. Defined.

Definition byDate (a b : AvailabilityDate) : Prop := d_date a <= d_date b.

#[global] Instance byDate_dec : RelDecision byDate.
Proof. intros a b. unfold byDate. apply _. Defined.

Definition getAvailabilityTimeSlots (dateId : Z) : Async (list AvailabilityTimeSlot) :=
  db_select availabilityTimeSlots_t availabilityTimeSlots
    (fun l => merge_sort byStartTime (filter (fun s => s_dateId s = dateId) l)).

Definition getAvailabilityDates (startDate endDate : Z) : Async (list DateWithSlots) :=
  let* dates :=
    db_select availabilityDates_t availabilityDates
      (fun l => merge_sort byDate
                  (filter (fun d => startDate <= d_date d /\ d_date d <= endDate) l)) in
  let* datesWithSlots :=
    promiseAll
      ((fun date =>
          let* slots := getAvailabilityTimeSlots (d_id date) in
          resolve {| dw_date := date; timeSlots := slots |}) <$> dates) in
  resolve datesWithSlots.

(** Modelled from the spec: the defaults and constraints of the
    [availability_time_slots] table of the schema module; the store
    assigns [id] and the timestamps, requires the two times and rejects a
    [dateId] that is no integer. *)
Definition availabilityTimeSlotValues (v : InsertAvailabilityTimeSlot) (at_ : Z)
    (next : Z) : option AvailabilityTimeSlot :=
  match ias_dateId v with
  | NaN => None
  | Int dateId =>
      startTime ← ias_startTime v;
      endTime ← ias_endTime v;
      Some {| s_id := next;
              s_dateId := dateId;
              s_startTime := startTime;
              s_endTime := endTime;
              s_isAvailable := ias_isAvailable v;
              s_createdAt := at_;
              s_updatedAt := at_ |}
  end.

Definition createAvailabilityTimeSlot (slot : InsertAvailabilityTimeSlot)
    : Async (option AvailabilityTimeSlot) :=
  let* inserted := db_insert availabilityTimeSlots_t availabilityTimeSlots
                     set_availabilityTimeSlots
                     (availabilityTimeSlotValues slot) true in
  resolve (head inserted).

Definition setAvailabilityTimeSlot (isAvailable : option bool) (at_ : Z)
    (s : AvailabilityTimeSlot) : AvailabilityTimeSlot :=
  {| s_id := s_id s;
     s_dateId := s_dateId s;
     s_startTime := s_startTime s;
     s_endTime := s_endTime s;
     s_isAvailable := default (s_isAvailable s) isAvailable;
     s_createdAt := s_createdAt s;
     s_updatedAt := at_ |}.

Definition updateAvailabilityTimeSlot (id : JsNumber) (isAvailable : option bool)
    : Async (option AvailabilityTimeSlot) :=
  let* at_ := newDate in
  let* updated := db_update availabilityTimeSlots_t availabilityTimeSlots
                    set_availabilityTimeSlots [id]
                    (fun s => Int (s_id s) = id) (setAvailabilityTimeSlot isAvailable at_) in
  resolve (head updated).

(** Each [count()] query returns one row holding the count. *)
Definition getAdminStats : Async AdminStats :=
  let* nFaqs := db_select faqs_t faqs (fun l => Z.of_nat (length l)) in
  let* nGalleries := db_select galleries_t galleries (fun l => Z.of_nat (length l)) in
  let* nPending :=
    db_select reviews_t reviews
      (fun l => Z.of_nat (length (filter (fun r => r_status r = "pending") l))) in
  resolve {| faqCount := nFaqs;
             galleryCount := nGalleries;
             pendingReviewsCount := nPending |}.

End Storage.

(** ** The request router ([registerRoutes]) *)

(** What [res.json] is given. [JUndefined] is [res.json(undefined)]: a
    response without a body. *)
Inductive Json : Type :=
  | JUndefined
  | JError (error : string)
  | JReview (r : Review)
  | JReviews (l : list Review)
  | JStats (s : AdminStats)
  | JDates (l : list DateWithSlots)
  | JDate (d : AvailabilityDate)
  | JSlot (s : AvailabilityTimeSlot)
  | JGallery (id : Z) (accessCode : string) (photos : list Photo).

Record Response := {
  status : Z;
  body : Json;
}.

(** [res.json(v)] answers 200 unless [res.status] was called first. *)
Definition res_json (v : Json) : Response := {| status := 200; body := v |}.
Definition res_status_json (code : Z) (v : Json) : Response :=
  {| status := code; body := v |}.

Definition orUndefined {A} (f : A -> Json) (v : option A) : Json :=
  from_option f JUndefined v.

(** A served request: the response, the store afterwards and the store
    operations that ran. *)
Definition Handler : Type := Env -> Store -> Response * Store * list DbOp.

(** [try { ... } catch (error) { res.status(500).json(...) }] *)
Definition tryCatch (body : Async Response) (onError : Response) : Handler :=
  fun env st =>
    match body env st with
    | (Resolved r, st1, ops) => (r, st1, ops)
    | (Rejected _, st1, ops) => (onError, st1, ops)
    end.

(** The argument of [new Date(req.body.date)] as JSON can carry it. *)
Inductive DateInit : Type :=
  | DateString (s : string)
  | DateNumber (ms : Z).

Record ReviewPatchBody := {
  rp_status : option string;
  rp_modifiedContent : option string;
}.

Record AvailabilityPostBody := {
  ap_date : option DateInit;
  ap_isAvailable : option bool;
}.

Record AvailabilityPatchBody := {
  av_isAvailable : option bool;
}.

Record TimeSlotPostBody := {
  tp_startTime : option string;
  tp_endTime : option string;
  tp_isAvailable : option bool;
}.

(** The routes [registerRoutes] declares, with the path parameter and the
    parsed body of each. *)
Inductive Route : Type :=
  | GET_reviews
  | POST_reviews (body : InsertReview)
  | GET_admin_stats
  | GET_reviews_pending
  | PATCH_reviews (id : string) (body : ReviewPatchBody)
  | GET_availability
  | POST_availability (body : AvailabilityPostBody)
  | PATCH_availability (id : string) (body : AvailabilityPatchBody)
  | POST_availability_timeslots (id : string) (body : TimeSlotPostBody)
  | PATCH_availability_timeslots (id : string) (body : AvailabilityPatchBody)
  | GET_galleries_access (code : string).

(** A request: the session id of its cookie, if it has one, and the route
    it matches. *)
Record Request := {
  cookie : option string;
  route : Route;
}.

(** Modelled from the spec: [requireAdmin], which [setupAuth] of the
    authentication module returns and which is not at hand.  The session of the request must
    identify an authenticated admin user, the session state being kept in
    the store; otherwise the request is answered as unauthorized and the
    handler behind the gate does not run. *)
Definition isAdminSession (r : Request) (st : Store) : bool :=
  match cookie r with
  | Some sid =>
      match sessions st !! sid with
      | Some uid => bool_decide (uid ∈ u_id <$> rows (users st))
      | None => false
      end
  | None => false
  end.

Definition requireAdmin (r : Request) (next : Handler) : Handler :=
  fun env st =>
    if isAdminSession r st then next env st
    else (res_status_json 401 (JError "Unauthorized"), st, []).

Section Router.

(** [Date.parse] of the runtime; which strings it reads beyond the ISO
    format is left to the implementation.  [None] is NaN. *)
Context (Date_parse : string -> option Z).

(** [new Date(v)]: [None] is an Invalid Date. *)
Definition newDateOf (v : option DateInit) : option Z :=
  match v with
  | None => None
  | Some (DateString s) => Date_parse s
  | Some (DateNumber ms) =>
      if (-8640000000000000 <=? ms) && (ms <=? 8640000000000000) then Some ms else None
  end.

Definition get_reviews : Handler :=
  tryCatch
    (let* reviews := Storage.getApprovedReviews in
     resolve (res_json (JReviews reviews)))
    (res_status_json 500 (JError "Errore nel recupero delle recensioni")).

Definition post_reviews (body : InsertReview) : Handler :=
  tryCatch
    (let reviewData := body in
     let* review := Storage.createReview reviewData in
     resolve (res_status_json 201 (orUndefined JReview review)))
    (res_status_json 500 (JError "Errore nella creazione della recensione")).

Definition get_admin_stats : Handler :=
  tryCatch
    (let* stats := Storage.getAdminStats in
     resolve (res_json (JStats stats)))
    (res_status_json 500 (JError "Errore nel recupero delle statistiche")).

Definition get_reviews_pending : Handler :=
  tryCatch
    (let* reviews := Storage.getPendingReviews in
     resolve (res_json (JReviews reviews)))
    (res_status_json 500 (JError "Errore nel recupero delle recensioni in attesa")).

Definition patch_reviews (id : string) (body : ReviewPatchBody) : Handler :=
  tryCatch
    (let* review :=
       Storage.updateReview (Js.parseInt id)
         {| ru_status := rp_status body;
            ru_modifiedContent := rp_modifiedContent body |} in
     match review with
     | None => resolve (res_status_json 404 (JError "Recensione non trovata"))
     | Some r => resolve (res_json (JReview r))
     end)
    (res_status_json 500 (JError "Errore nell'aggiornamento della recensione")).

Definition get_availability : Handler :=
  tryCatch
    (let* startDate := newDate in
     let* endDate0 := newDate in
     let endDate := Js.setMonth endDate0 (Js.getMonth endDate0 + 3) in
     let* dates := Storage.getAvailabilityDates startDate endDate in
     resolve (res_json (JDates dates)))
    (res_status_json 500 (JError "Errore nel recupero delle disponibilità")).

Definition post_availability (body : AvailabilityPostBody) : Handler :=
  tryCatch
    (let dateData := {| iad_date := newDateOf (ap_date body);
                        iad_isAvailable := true |} in
     let* createdDate := Storage.createAvailabilityDate dateData in
     resolve (res_status_json 201 (orUndefined JDate createdDate)))
    (res_status_json 500 (JError "Errore nella creazione della disponibilità")).

Definition patch_availability (id : string) (body : AvailabilityPatchBody) : Handler :=
  tryCatch
    (let isAvailable := av_isAvailable body in
     let* date := Storage.updateAvailabilityDate (Js.parseInt id) isAvailable in
     resolve (res_json (orUndefined JDate date)))
    (res_status_json 500 (JError "Errore nell'aggiornamento della disponibilità")).

Definition post_availability_timeslots (id : string) (body : TimeSlotPostBody) : Handler :=
  tryCatch
    (let slotData := {| ias_dateId := Js.parseInt id;
                        ias_startTime := tp_startTime body;
                        ias_endTime := tp_endTime body;
                        ias_isAvailable := default true (tp_isAvailable body) |} in
     let* slot := Storage.createAvailabilityTimeSlot slotData in
     resolve (res_status_json 201 (orUndefined JSlot slot)))
    (res_status_json 500 (JError "Errore nella creazione dello slot orario")).

Definition patch_availability_timeslots (id : string) (body : AvailabilityPatchBody)
    : Handler :=
  tryCatch
    (let isAvailable := av_isAvailable body in
     let* slot := Storage.updateAvailabilityTimeSlot (Js.parseInt id) isAvailable in
     resolve (res_json (orUndefined JSlot slot)))
    (res_status_json 500 (JError "Errore nell'aggiornamento dello slot orario")).

Definition get_galleries_access (code : string) : Handler :=
  tryCatch
    (let* gallery := Storage.getGalleryByAccessCode code in
     match gallery with
     | None => resolve (res_status_json 404 (JError "Galleria non trovata"))
     | Some g =>
         let* photos := Storage.getPhotosByGalleryId (gw_id g) in
         resolve (res_json (JGallery (gw_id g) (gw_accessCode g) photos))
     end)
    (res_status_json 500 (JError "Errore del server")).

(** The routing table: the middleware and the handler each route is
    registered with. *)
Definition registerRoutes (r : Request) : Handler :=
  match route r with
  | GET_reviews => get_reviews
  | POST_reviews body => post_reviews body
  | GET_admin_stats => requireAdmin r get_admin_stats
  | GET_reviews_pending => requireAdmin r get_reviews_pending
  | PATCH_reviews id body => requireAdmin r (patch_reviews id body)
  | GET_availability => get_availability
  | POST_availability body => requireAdmin r (post_availability body)
  | PATCH_availability id body => requireAdmin r (patch_availability id body)
  | POST_availability_timeslots id body =>
      requireAdmin r (post_availability_timeslots id body)
  | PATCH_availability_timeslots id body =>
      requireAdmin r (patch_availability_timeslots id body)
  | GET_galleries_access code => get_galleries_access code
  end.

(** Serving a sequence of requests, each with the clock reading and the
    reachability of the store it meets. *)
Fixpoint serve (rs : list (Env * Request)) (st : Store) : Store :=
  match rs with
  | [] => st
  | (env, r) :: rest => serve rest (registerRoutes r env st).1.2
  end.

End Router.

(** ** A store and requests to run the routes on *)

(** A [Date.parse] that reads the date string of the examples. *)
Definition isoDate (s : string) : option Z :=
  if decide (s = "2025-06-01") then Some 1748736000000 else None.

Definition june1 : Z := 1748736000000.
Definition day : Z := 86400000.

Definition demoStore : Store :=
  {| sessions := {[ "sid-admin" := 1 ]};
     users := {| rows := [ {| u_id := 1; u_username := "tiziano"; u_password := "hash" |} ];
                 serial := 2 |};
     faqs := {| rows := [ {| f_id := 1; f_categoryId := 1; f_question := "q";
                             f_answer := "a"; f_order := 1 |} ];
                serial := 2 |};
     reviews :=
       {| rows := [ {| r_id := 1; r_author := "Anna"; r_content := "Bellissimo";
                       r_modifiedContent := None; r_status := "approved";
                       r_createdAt := 10; r_updatedAt := 20 |};
                    {| r_id := 2; r_author := "Bruno"; r_content := "Ok";
                       r_modifiedContent := None; r_status := "pending";
                       r_createdAt := 30; r_updatedAt := 30 |};
                    {| r_id := 3; r_author := "Carla"; r_content := "No";
                       r_modifiedContent := None; r_status := "rejected";
                       r_createdAt := 40; r_updatedAt := 50 |} ];
          serial := 4 |};
     galleries := {| rows := [ {| g_id := 1; g_accessCode := "nozze" |};
                               {| g_id := 2; g_accessCode := "battesimo" |} ];
                     serial := 3 |};
     photos := {| rows := [ {| p_id := 1; p_url := "/a.jpg"; p_galleryId := 1 |};
                            {| p_id := 2; p_url := "/b.jpg"; p_galleryId := 2 |};
                            {| p_id := 3; p_url := "/c.jpg"; p_galleryId := 1 |} ];
                  serial := 4 |};
     availabilityDates :=
       {| rows := [ {| d_id := 1; d_date := june1 + 40 * day; d_isAvailable := true;
                       d_createdAt := 0; d_updatedAt := 0 |};
                    {| d_id := 2; d_date := june1 - day; d_isAvailable := true;
                       d_createdAt := 0; d_updatedAt := 0 |};
                    {| d_id := 3; d_date := june1 + 2 * day; d_isAvailable := false;
                       d_createdAt := 0; d_updatedAt := 0 |};
                    {| d_id := 4; d_date := june1 + 200 * day; d_isAvailable := true;
                       d_createdAt := 0; d_updatedAt := 0 |} ];
          serial := 5 |};
     availabilityTimeSlots :=
       {| rows := [ {| s_id := 1; s_dateId := 3; s_startTime := "15:00";
                       s_endTime := "16:00"; s_isAvailable := true;
                       s_createdAt := 0; s_updatedAt := 0 |};
                    {| s_id := 2; s_dateId := 1; s_startTime := "10:00";
                       s_endTime := "11:00"; s_isAvailable := true;
                       s_createdAt := 0; s_updatedAt := 0 |};
                    {| s_id := 3; s_dateId := 3; s_startTime := "09:00";
                       s_endTime := "10:00"; s_isAvailable := false;
                       s_createdAt := 0; s_updatedAt := 0 |} ];
          serial := 4 |} |}.

(** A store with an admin and nothing else. *)
Definition emptyStore : Store :=
  {| sessions := {[ "sid-admin" := 1 ]};
     users := {| rows := [ {| u_id := 1; u_username := "tiziano"; u_password := "hash" |} ];
                 serial := 2 |};
     faqs := {| rows := []; serial := 1 |};
     reviews := {| rows := []; serial := 1 |};
     galleries := {| rows := []; serial := 1 |};
     photos := {| rows := []; serial := 1 |};
     availabilityDates := {| rows := []; serial := 1 |};
     availabilityTimeSlots := {| rows := []; serial := 1 |} |}.

Definition at_ (t : Z) : Env := {| now := t; online := true |}.

Definition asAdmin (r : Route) : Request := {| cookie := Some "sid-admin"; route := r |}.
Definition anonymous (r : Route) : Request := {| cookie := None; route := r |}.

Definition reviewOf (author content : string) (st : option string) : InsertReview :=
  {| ir_id := None; ir_author := Some author; ir_content := Some content;
     ir_modifiedContent := None; ir_status := st |}.

Definition setAvailable (b : bool) : AvailabilityPatchBody := {| av_isAvailable := Some b |}.

Definition approve : ReviewPatchBody :=
  {| rp_status := Some "approved"; rp_modifiedContent := None |}.

Ltac by_evaluation := apply (bool_decide_unpack _); vm_compute; exact I.

(** The routes the interface lists as admin-only. *)
Definition adminOnly (r : Route) : bool :=
  match r with
  | GET_admin_stats
  | GET_reviews_pending
  | PATCH_reviews _ _
  | POST_availability _
  | PATCH_availability _ _
  | POST_availability_timeslots _ _
  | PATCH_availability_timeslots _ _ => true
  | GET_reviews | POST_reviews _ | GET_availability | GET_galleries_access _ => false
  end.

(** The end of the availability window that opens at [D]. *)
Definition threeMonthsAfter (D : Z) : Z := Js.setMonth D (Js.getMonth D + 3).

(** The rows a request added to a table. *)
Definition createdRows {R} (before after : Table R) : list R :=
  drop (length (rows before)) (rows after).

(** A date with its time slots in the order of their start times, as the
    availability query puts them together. *)
Definition withSlots (st : Store) (date : AvailabilityDate) : DateWithSlots :=
  {| dw_date := date;
     timeSlots := merge_sort Storage.byStartTime
                    (filter (fun s => s_dateId s = d_id date)
                       (rows (availabilityTimeSlots st))) |}.

(** A request by which an admin gives the reviews with id [i] a status:
    a [PATCH /api/reviews/:id] on that id, with an admin session, whose
    body names a status. *)
Definition setsStatusOf (i : Z) (st : Store) (q : Request) : bool :=
  match route q with
  | PATCH_reviews id body =>
      isAdminSession q st
      && bool_decide (Js.parseInt id = Int i)
      && bool_decide (is_Some (rp_status body))
  | _ => false
  end.

(** The statement that every review [POST /api/reviews] creates is
    pending. *)
Definition submittedReviewsArePending : Prop :=
  forall Date_parse (r : Request) body env st review st' ops,
    route r = POST_reviews body ->
    registerRoutes Date_parse r env st
    = ({| status := 201; body := JReview review |}, st', ops) ->
    r_status review = "pending".

(** The statement that a time slot update issued twice in succession
    leaves the store the first one left. *)
Definition patchTimeslotTwiceSameStore : Prop :=
  forall Date_parse (r : Request) id b e1 e2 st,
    route r = PATCH_availability_timeslots id {| av_isAvailable := Some b |} ->
    isAdminSession r st = true ->
    online e1 = true ->
    online e2 = true ->
    now e1 <= now e2 ->
    (exists s, s ∈ rows (availabilityTimeSlots st) /\ Int (s_id s) = Js.parseInt id) ->
    let once := registerRoutes Date_parse r e1 st in
    let twice := registerRoutes Date_parse r e2 once.1.2 in
    status twice.1.1 = 200 /\ twice.1.2 = once.1.2.

(** The statement that a review update whose id is no number is answered
    like one whose id no review has: 404, not 500, with the store left as
    it was. *)
Definition nanIdIsNotFound : Prop :=
  forall Date_parse (r : Request) id body env st,
    route r = PATCH_reviews id body ->
    isAdminSession r st = true ->
    online env = true ->
    Js.parseInt id = NaN ->
    let '(res, st', _) := registerRoutes Date_parse r env st in
    status res = 404 /\ st' = st.

(** What one request can do to the store: nothing; add a review; update
    the reviews an admin's [PATCH /api/reviews/:id] selects; or replace one
    of the two availability tables. *)
Inductive storeStep (q : Request) (env : Env) (st st' : Store) : Prop :=
  | step_same :
      st' = st -> storeStep q env st st'
  | step_review_added body rv n :
      route q = POST_reviews body ->
      st' = set_reviews {| rows := (rows (reviews st) ++ [rv])%list; serial := n |} st ->
      storeStep q env st st'
  | step_reviews_updated id body :
      route q = PATCH_reviews id body ->
      isAdminSession q st = true ->
      st' = set_reviews
              {| rows := updateRow (fun r => Int (r_id r) = Js.parseInt id)
                           (Storage.setReview
                              {| ru_status := rp_status body;
                                 ru_modifiedContent := rp_modifiedContent body |}
                              (now env))
                           <$> rows (reviews st);
                 serial := serial (reviews st) |} st ->
      storeStep q env st st'
  | step_dates t :
      st' = set_availabilityDates t st -> storeStep q env st st'
  | step_slots t :
      st' = set_availabilityTimeSlots t st -> storeStep q env st st'.

(** The review stored at position [k] has id [i] and is pending. *)
Definition pendingAt (i : Z) (k : nat) (st : Store) : Prop :=
  exists x, rows (reviews st) !! k = Some x /\ r_id x = i /\ r_status x = "pending".

(** The verb each route is registered under ([app.get], [app.post],
    [app.patch]). *)
Inductive Method : Type := GET | POST | PATCH.

Definition method (r : Route) : Method :=
  match r with
  | GET_reviews | GET_admin_stats | GET_reviews_pending | GET_availability
  | GET_galleries_access _ => GET
  | POST_reviews _ | POST_availability _ | POST_availability_timeslots _ _ => POST
  | PATCH_reviews _ _ | PATCH_availability _ _ | PATCH_availability_timeslots _ _ => PATCH
  end.

#[global] Instance Method_eq_dec : EqDecision Method.
Proof. solve_decision. Defined.

(** The request reaches its handler: the route has no gate, or the session
    is an admin's. *)
Definition reachesHandler (r : Request) (st : Store) : bool :=
  negb (adminOnly (route r)) || isAdminSession r st.

(** ** The rest of the data access layer: users, FAQs and the admin log

    These methods of [DatabaseStorage] serve the routers registered beside
    [registerRoutes]. *)

(** Modelled from the spec: the [faq_categories] table of the schema
    module. *)
Record FaqCategory := {
  c_id : Z;
  c_name : string;
  c_order : Z;
}.

(** Modelled from the spec: the [admin_logs] table of the schema module. *)
Record AdminLog := {
  l_id : Z;
  l_adminId : Z;
  l_action : string;
  l_createdAt : Z;
}.

#[global] Instance Faq_eq_dec : EqDecision Faq.
Proof. solve_decision. Defined.
#[global] Instance User_eq_dec : EqDecision User.
Proof. solve_decision. Defined.

(** The store with the two tables only these methods use. *)
Record Database := {
  core : Store;
  faqCategories : Table FaqCategory;
  adminLogs : Table AdminLog;
}.

Definition set_users (t : Table User) (st : Store) : Store :=
  {| sessions := sessions st; users := t; faqs := faqs st;
     reviews := reviews st; galleries := galleries st; photos := photos st;
     availabilityDates := availabilityDates st;
     availabilityTimeSlots := availabilityTimeSlots st |}.

Definition set_faqs (t : Table Faq) (st : Store) : Store :=
  {| sessions := sessions st; users := users st; faqs := t;
     reviews := reviews st; galleries := galleries st; photos := photos st;
     availabilityDates := availabilityDates st;
     availabilityTimeSlots := availabilityTimeSlots st |}.

Definition set_core (st : Store) (db : Database) : Database :=
  {| core := st; faqCategories := faqCategories db; adminLogs := adminLogs db |}.

Definition set_faqCategories (t : Table FaqCategory) (db : Database) : Database :=
  {| core := core db; faqCategories := t; adminLogs := adminLogs db |}.

Definition set_adminLogs (t : Table AdminLog) (db : Database) : Database :=
  {| core := core db; faqCategories := faqCategories db; adminLogs := t |}.

(** An awaited query on the whole database: the outcome and the database
    it leaves. *)
Definition Query (A : Type) : Type := Env -> Database -> Outcome A * Database.

Definition q_resolve {A} (a : A) : Query A := fun _ db => (Resolved a, db).

Definition q_await {A B} (m : Query A) (k : A -> Query B) : Query B :=
  fun env db =>
    match m env db with
    | (Resolved a, db1) => k a env db1
    | (Rejected e, db1) => (Rejected e, db1)
    end.

Notation "'let+' x ':=' m 'in' k" := (q_await m (fun x => k))
  (at level 10, x pattern, m at level 100, k at level 200).

(** [db.select().from(t)] with the clauses [q], whose parameters are
    [params]. *)
Definition q_select {R B} (from : Database -> Table R) (params : list JsNumber)
    (q : list R -> B) : Query B :=
  fun env db =>
    if online env then
      if accepted params then (Resolved (q (rows (from db))), db)
      else (Rejected "invalid input syntax for type integer", db)
    else (Rejected "store unreachable", db).

(** [db.insert(t).values(v).returning()]; the values are those of the
    static insert type, and the store adds the id and the time. *)
Definition q_insert {R} (from : Database -> Table R)
    (into : Table R -> Database -> Database) (values : Z -> Z -> R) : Query (list R) :=
  fun env db =>
    if online env then
      let tb := from db in
      let r := values (now env) (serial tb) in
      (Resolved [r],
       into {| rows := (rows tb ++ [r])%list; serial := serial tb + 1 |} db)
    else (Rejected "store unreachable", db).

(** [db.update(t).set(v).where(..).returning()]; [set] is [None] for an
    object that names no column, which the query builder refuses with
    [No values to set]. *)
Definition q_update {R} (from : Database -> Table R)
    (into : Table R -> Database -> Database) (params : list JsNumber)
    (wh : R -> Prop) `{!forall r, Decision (wh r)} (set : option (R -> R))
    : Query (list R) :=
  fun env db =>
    match set with
    | None => (Rejected "No values to set", db)
    | Some f =>
        if online env then
          if accepted params then
            let tb := from db in
            (Resolved (f <$> filter wh (rows tb)),
             into {| rows := updateRow wh f <$> rows tb; serial := serial tb |} db)
          else (Rejected "invalid input syntax for type integer", db)
        else (Rejected "store unreachable", db)
    end.

(** [db.delete(t).where(..)] *)
Definition q_delete {R} (from : Database -> Table R)
    (into : Table R -> Database -> Database) (params : list JsNumber)
    (wh : R -> Prop) `{!forall r, Decision (wh r)} : Query unit :=
  fun env db =>
    if online env then
      if accepted params then
        let tb := from db in
        (Resolved tt,
         into {| rows := filter (fun r => ~ wh r) (rows tb); serial := serial tb |} db)
      else (Rejected "invalid input syntax for type integer", db)
    else (Rejected "store unreachable", db).

(** [if (n)] on an optional number: [undefined], [0] and NaN are falsy. *)
Definition truthy (n : option JsNumber) : bool :=
  match n with
  | Some (Int z) => negb (z =? 0)
  | Some NaN | None => false
  end.

(** The parameter of the [where] clause that a truthy number adds. *)
Definition whereParam (n : option JsNumber) : list JsNumber :=
  if truthy n then option_list n else [].

Record InsertUser := {
  iu_username : string;
  iu_password : string;
}.

Record InsertFaqCategory := {
  ic_name : string;
  ic_order : Z;
}.

Record InsertFaq := {
  if_categoryId : Z;
  if_question : string;
  if_answer : string;
  if_order : Z;
}.

Record InsertAdminLog := {
  il_adminId : Z;
  il_action : string;
}.

(** [Partial<FaqCategory>] *)
Record PartialFaqCategory := {
  pc_id : option Z;
  pc_name : option string;
  pc_order : option Z;
}.

(** [Partial<Faq>] *)
Record PartialFaq := {
  pf_id : option Z;
  pf_categoryId : option Z;
  pf_question : option string;
  pf_answer : option string;
  pf_order : option Z;
}.

Module Content.

Definition usersOf (db : Database) : Table User := users (core db).
Definition intoUsers (t : Table User) (db : Database) : Database :=
  set_core (set_users t (core db)) db.

Definition faqsOf (db : Database) : Table Faq := faqs (core db).
Definition intoFaqs (t : Table Faq) (db : Database) : Database :=
  set_core (set_faqs t (core db)) db.

Definition getUser (id : JsNumber) : Query (option User) :=
  let+ found := q_select usersOf [id] (filter (fun u => Int (u_id u) = id)) in
  q_resolve (head found).

Definition getUserByUsername (username : string) : Query (option User) :=
  let+ found := q_select usersOf [] (filter (fun u => u_username u = username)) in
  q_resolve (head found).

Definition createUser (insertUser : InsertUser) : Query (option User) :=
  let+ inserted :=
    q_insert usersOf intoUsers
      (fun _ next => {| u_id := next; u_username := iu_username insertUser;
                        u_password := iu_password insertUser |}) in
  q_resolve (head inserted).

Definition createFaqCategory (category : InsertFaqCategory) : Query (option FaqCategory) :=
  let+ inserted :=
    q_insert faqCategories set_faqCategories
      (fun _ next => {| c_id := next; c_name := ic_name category;
                        c_order := ic_order category |}) in
  q_resolve (head inserted).

Definition setFaqCategory (category : PartialFaqCategory)
    : option (FaqCategory -> FaqCategory) :=
  match pc_id category, pc_name category, pc_order category with
  | None, None, None => None
  | _, _, _ =>
      Some (fun c => {| c_id := default (c_id c) (pc_id category);
                        c_name := default (c_name c) (pc_name category);
                        c_order := default (c_order c) (pc_order category) |})
  end.

Definition updateFaqCategory (id : JsNumber) (category : PartialFaqCategory)
    : Query (option FaqCategory) :=
  let+ updated :=
    q_update faqCategories set_faqCategories [id] (fun c => Int (c_id c) = id)
      (setFaqCategory category) in
  q_resolve (head updated).

Definition deleteFaqCategory (id : JsNumber) : Query unit :=
  let+ _ := q_delete faqCategories set_faqCategories [id] (fun c => Int (c_id c) = id) in
  q_resolve tt.

Definition byCategoryOrder (a b : FaqCategory) : Prop := c_order a <= c_order b.

#[global] Instance byCategoryOrder_dec : RelDecision byCategoryOrder.
Proof. intros a b. unfold byCategoryOrder. apply _. Defined.

Definition getFaqCategories : Query (list FaqCategory) :=
  q_select faqCategories [] (merge_sort byCategoryOrder).

Definition createFaq (faq : InsertFaq) : Query (option Faq) :=
  let+ inserted :=
    q_insert faqsOf intoFaqs
      (fun _ next => {| f_id := next; f_categoryId := if_categoryId faq;
                        f_question := if_question faq; f_answer := if_answer faq;
                        f_order := if_order faq |}) in
  q_resolve (head inserted).

Definition setFaq (faq : PartialFaq) : option (Faq -> Faq) :=
  match pf_id faq, pf_categoryId faq, pf_question faq, pf_answer faq, pf_order faq with
  | None, None, None, None, None => None
  | _, _, _, _, _ =>
      Some (fun f => {| f_id := default (f_id f) (pf_id faq);
                        f_categoryId := default (f_categoryId f) (pf_categoryId faq);
                        f_question := default (f_question f) (pf_question faq);
                        f_answer := default (f_answer f) (pf_answer faq);
                        f_order := default (f_order f) (pf_order faq) |})
  end.

Definition updateFaq (id : JsNumber) (faq : PartialFaq) : Query (option Faq) :=
  let+ updated :=
    q_update faqsOf intoFaqs [id] (fun f => Int (f_id f) = id) (setFaq faq) in
  q_resolve (head updated).

Definition deleteFaq (id : JsNumber) : Query unit :=
  let+ _ := q_delete faqsOf intoFaqs [id] (fun f => Int (f_id f) = id) in
  q_resolve tt.

Definition byFaqOrder (a b : Faq) : Prop := f_order a <= f_order b.

#[global] Instance byFaqOrder_dec : RelDecision byFaqOrder.
Proof. intros a b. unfold byFaqOrder. apply _. Defined.

(** The [where] clause is added to the query only for a truthy
    [categoryId]. *)
Definition getFaqs (categoryId : option JsNumber) : Query (list Faq) :=
  q_select faqsOf (whereParam categoryId)
    (fun l => merge_sort byFaqOrder
                (if truthy categoryId
                 then filter (fun f => Some (Int (f_categoryId f)) = categoryId) l
                 else l)).

Definition createAdminLog (log : InsertAdminLog) : Query (option AdminLog) :=
  let+ inserted :=
    q_insert adminLogs set_adminLogs
      (fun at_ next => {| l_id := next; l_adminId := il_adminId log;
                          l_action := il_action log; l_createdAt := at_ |}) in
  q_resolve (head inserted).

Definition byCreatedAt (a b : AdminLog) : Prop := l_createdAt a <= l_createdAt b.

#[global] Instance byCreatedAt_dec : RelDecision byCreatedAt.
Proof. intros a b. unfold byCreatedAt. apply _. Defined.

Definition getAdminLogs (adminId : option JsNumber) : Query (list AdminLog) :=
  q_select adminLogs (whereParam adminId)
    (fun l => merge_sort byCreatedAt
                (if truthy adminId
                 then filter (fun a => Some (Int (l_adminId a)) = adminId) l
                 else l)).

End Content.

(** ** Path ids

    What a path segment that starts with a decimal number looks like. *)

Definition isDecimalDigit (c : ascii) : bool :=
  let n := Z.of_N (N_of_ascii c) in (48 <=? n) && (n <=? 57).

Fixpoint allDecimal (s : string) : bool :=
  match s with
  | EmptyString => true
  | String c rest => isDecimalDigit c && allDecimal rest
  end.

Fixpoint decimalValue (acc : Z) (s : string) : Z :=
  match s with
  | EmptyString => acc
  | String c rest => decimalValue (acc * 10 + (Z.of_N (N_of_ascii c) - 48)) rest
  end.

(** The rest of a path segment after its number: nothing, or something
    that starts with no decimal digit. *)
Definition endsNumber (t : string) : bool :=
  match t with
  | EmptyString => true
  | String c _ => negb (isDecimalDigit c)
  end.

Definition startsWithX (t : string) : bool :=
  match t with
  | String c _ => bool_decide (c = "x"%char \/ c = "X"%char)
  | EmptyString => false
  end.

(** The routes that take an id from the path. *)
Inductive idRoute : (string -> Route) -> Prop :=
  | id_patch_reviews body : idRoute (fun id => PATCH_reviews id body)
  | id_patch_availability body : idRoute (fun id => PATCH_availability id body)
  | id_post_timeslots body : idRoute (fun id => POST_availability_timeslots id body)
  | id_patch_timeslots body : idRoute (fun id => PATCH_availability_timeslots id body).

(** An example database around the example store. *)
Definition demoDb : Database :=
  {| core :=
       set_faqs
         {| rows := [ {| f_id := 1; f_categoryId := 1; f_question := "Quanto costa?";
                         f_answer := "Dipende"; f_order := 2 |};
                      {| f_id := 2; f_categoryId := 2; f_question := "Dove?";
                         f_answer := "In studio"; f_order := 1 |};
                      {| f_id := 3; f_categoryId := 1; f_question := "Quando?";
                         f_answer := "Su appuntamento"; f_order := 1 |} ];
            serial := 4 |} demoStore;
     faqCategories :=
       {| rows := [ {| c_id := 1; c_name := "Matrimoni"; c_order := 2 |};
                    {| c_id := 2; c_name := "Ritratti"; c_order := 1 |} ];
          serial := 3 |};
     adminLogs :=
       {| rows := [ {| l_id := 1; l_adminId := 1; l_action := "login"; l_createdAt := 50 |};
                    {| l_id := 2; l_adminId := 2; l_action := "approve";
                       l_createdAt := 30 |} ];
          serial := 3 |} |}.

Definition morning : TimeSlotPostBody :=
  {| tp_startTime := Some "08:00"; tp_endTime := Some "09:00"; tp_isAvailable := None |}.

(** ** Properties *)

Example parseInt_42 : Js.parseInt "42" = Int 42.
Proof. reflexivity. Qed.
Example parseInt_prefix : Js.parseInt "  -12abc" = Int (-12).
Proof. reflexivity. Qed.
Example parseInt_hex : Js.parseInt "0x1f" = Int 31.
Proof. reflexivity. Qed.
Example parseInt_word : Js.parseInt "pending" = NaN.
Proof. reflexivity. Qed.
(** A no-break space, U+00A0, is white space as a blank is; a zero width
    space, U+200B, is not. *)
Example parseInt_nbsp :
  Js.parseInt (String (ascii_of_N 194) (String (ascii_of_N 160) " 2")) = Int 2
  /\ Js.parseInt (String (ascii_of_N 226) (String (ascii_of_N 128)
                    (String (ascii_of_N 139) "2"))) = NaN.
Proof. by split. Qed.
(** Beyond [2^53] the nearest double is read, ties going to the even
    mantissa. *)
Example parseInt_rounds :
  Js.parseInt "9007199254740993" = Int 9007199254740992
  /\ Js.parseInt "9007199254740995" = Int 9007199254740996
  /\ Js.parseInt "-18446744073709551615" = Int (-18446744073709551616).
Proof. by repeat split. Qed.

(** 2025-06-01T00:00:00Z, and three months on 2025-09-01T00:00:00Z. *)
Example threeMonthsAfter_june : threeMonthsAfter june1 = 1756684800000.
Proof. reflexivity. Qed.

(** 2025-11-30 has no counterpart in February: the day carries over to
    2026-03-02. *)
Example threeMonthsAfter_carry : threeMonthsAfter 1764460800000 = 1772409600000.
Proof. reflexivity. Qed.

(** *** The store record and the query primitives *)

Lemma table_eta {R} (t : Table R) : {| rows := rows t; serial := serial t |} = t.
Proof. by destruct t. Qed.

Lemma set_reviews_same st : set_reviews (reviews st) st = st.
Proof. by destruct st. Qed.

Lemma set_availabilityDates_same st :
  set_availabilityDates (availabilityDates st) st = st.
Proof. by destruct st. Qed.

Lemma set_availabilityTimeSlots_same st :
  set_availabilityTimeSlots (availabilityTimeSlots st) st = st.
Proof. by destruct st. Qed.

Lemma db_select_online {R B} t (from : Store -> Table R) (q : list R -> B) env st :
  online env = true ->
  db_select t from q env st = (Resolved (q (rows (from st))), st, [Select t]).
Proof. intros Hon. unfold db_select. by rewrite Hon. Qed.

Section Update.
Context {R : Type} (wh : R -> Prop) `{!forall r, Decision (wh r)} (set : R -> R).

Lemma updateRow_none (l : list R) :
  (forall r, r ∈ l -> ~ wh r) -> updateRow wh set <$> l = l /\ filter wh l = [].
Proof.
  induction l as [|x l IH]; intros Hno; [done|].
  destruct IH as [IH1 IH2].
  { intros r Hr. apply Hno. by right. }
  assert (~ wh x) as Hx by (apply Hno; by left).
  split.
  - rewrite fmap_cons, IH1. unfold updateRow. by rewrite decide_False.
  - by rewrite filter_cons_False.
Qed.

Lemma db_update_online t (from : Store -> Table R) into params env st :
  online env = true ->
  accepted params = true ->
  db_update t from into params wh set env st
  = (Resolved (set <$> filter wh (rows (from st))),
     into {| rows := updateRow wh set <$> rows (from st); serial := serial (from st) |} st,
     [Update t]).
Proof. intros Hon Hok. unfold db_update. by rewrite Hon, Hok. Qed.

(** An update with a parameter the store does not accept is rejected,
    whether the store is in reach or not. *)
Lemma db_update_refused t (from : Store -> Table R) into params env st :
  accepted params = false ->
  exists e, db_update t from into params wh set env st = (Rejected e, st, []).
Proof. intros Hno. unfold db_update. rewrite Hno. destruct (online env); eauto. Qed.

End Update.

Lemma db_insert_online {R} t (from : Store -> Table R) into values fromSerial env st r :
  online env = true ->
  values (now env) (serial (from st)) = Some r ->
  db_insert t from into values fromSerial env st
  = (Resolved [r],
     into {| rows := (rows (from st) ++ [r])%list;
             serial := if fromSerial then serial (from st) + 1 else serial (from st) |} st,
     [Insert t]).
Proof. intros Hon Hv. unfold db_insert. by rewrite Hon, Hv. Qed.

(** *** The data access layer, with the store in reach *)

Lemma accepted_Int z : accepted [Int z] = true.
Proof. done. Qed.

Lemma updateReview_online id update env st :
  online env = true ->
  isInteger id = true ->
  Storage.updateReview id update env st
  = (Resolved (head (Storage.setReview update (now env)
                       <$> filter (fun r => Int (r_id r) = id) (rows (reviews st)))),
     set_reviews
       {| rows := updateRow (fun r => Int (r_id r) = id)
                    (Storage.setReview update (now env)) <$> rows (reviews st);
          serial := serial (reviews st) |} st,
     [Update reviews_t]).
Proof.
  intros Hon Hid. unfold Storage.updateReview, await, newDate, resolve.
  rewrite db_update_online; [done..|]. unfold accepted. simpl. by rewrite Hid.
Qed.

Lemma updateAvailabilityDate_online id isAvailable env st :
  online env = true ->
  isInteger id = true ->
  Storage.updateAvailabilityDate id isAvailable env st
  = (Resolved (head (Storage.setAvailabilityDate isAvailable (now env)
                       <$> filter (fun d => Int (d_id d) = id)
                             (rows (availabilityDates st)))),
     set_availabilityDates
       {| rows := updateRow (fun d => Int (d_id d) = id)
                    (Storage.setAvailabilityDate isAvailable (now env))
                    <$> rows (availabilityDates st);
          serial := serial (availabilityDates st) |} st,
     [Update availabilityDates_t]).
Proof.
  intros Hon Hid. unfold Storage.updateAvailabilityDate, await, newDate, resolve.
  rewrite db_update_online; [done..|]. unfold accepted. simpl. by rewrite Hid.
Qed.

Lemma updateAvailabilityTimeSlot_online id isAvailable env st :
  online env = true ->
  isInteger id = true ->
  Storage.updateAvailabilityTimeSlot id isAvailable env st
  = (Resolved (head (Storage.setAvailabilityTimeSlot isAvailable (now env)
                       <$> filter (fun s => Int (s_id s) = id)
                             (rows (availabilityTimeSlots st)))),
     set_availabilityTimeSlots
       {| rows := updateRow (fun s => Int (s_id s) = id)
                    (Storage.setAvailabilityTimeSlot isAvailable (now env))
                    <$> rows (availabilityTimeSlots st);
          serial := serial (availabilityTimeSlots st) |} st,
     [Update availabilityTimeSlots_t]).
Proof.
  intros Hon Hid. unfold Storage.updateAvailabilityTimeSlot, await, newDate, resolve.
  rewrite db_update_online; [done..|]. unfold accepted. simpl. by rewrite Hid.
Qed.

(** An id that is NaN: the store rejects the update and nothing changes. *)
Lemma updateReview_NaN update env st :
  exists e, Storage.updateReview NaN update env st = (Rejected e, st, []).
Proof.
  unfold Storage.updateReview, await, newDate, resolve.
  destruct (db_update_refused (fun r => Int (r_id r) = NaN)
              (Storage.setReview update (now env)) reviews_t reviews set_reviews
              [NaN] env st eq_refl) as [e ->].
  by exists e.
Qed.

Lemma updateAvailabilityDate_NaN isAvailable env st :
  exists e, Storage.updateAvailabilityDate NaN isAvailable env st = (Rejected e, st, []).
Proof.
  unfold Storage.updateAvailabilityDate, await, newDate, resolve.
  destruct (db_update_refused (fun d => Int (d_id d) = NaN)
              (Storage.setAvailabilityDate isAvailable (now env))
              availabilityDates_t availabilityDates set_availabilityDates
              [NaN] env st eq_refl) as [e ->].
  by exists e.
Qed.

Lemma updateAvailabilityTimeSlot_NaN isAvailable env st :
  exists e, Storage.updateAvailabilityTimeSlot NaN isAvailable env st = (Rejected e, st, []).
Proof.
  unfold Storage.updateAvailabilityTimeSlot, await, newDate, resolve.
  destruct (db_update_refused (fun s => Int (s_id s) = NaN)
              (Storage.setAvailabilityTimeSlot isAvailable (now env))
              availabilityTimeSlots_t availabilityTimeSlots set_availabilityTimeSlots
              [NaN] env st eq_refl) as [e ->].
  by exists e.
Qed.

(** An update whose condition selects no row returns nothing and leaves
    the table as it was. *)
Lemma update_misses {R} (wh : R -> Prop) `{!forall r, Decision (wh r)} (set : R -> R)
    (t : Table R) :
  (forall r, r ∈ rows t -> ~ wh r) ->
  head (set <$> filter wh (rows t)) = None
  /\ {| rows := updateRow wh set <$> rows t; serial := serial t |} = t.
Proof.
  intros Hno. destruct (updateRow_none wh set _ Hno) as [-> ->].
  split; [done | apply table_eta].
Qed.

(** The review route answers 404 when the update returned no row. *)
Lemma patch_reviews_misses id body env st :
  online env = true ->
  isInteger (Js.parseInt id) = true ->
  (forall r, r ∈ rows (reviews st) -> Int (r_id r) <> Js.parseInt id) ->
  patch_reviews id body env st
  = (res_status_json 404 (JError "Recensione non trovata"), st, [Update reviews_t]).
Proof.
  intros Hon Hint Hno. unfold patch_reviews, tryCatch, await.
  rewrite updateReview_online by done.
  destruct (update_misses (fun r => Int (r_id r) = Js.parseInt id)
              (Storage.setReview
                 {| ru_status := rp_status body;
                    ru_modifiedContent := rp_modifiedContent body |} (now env))
              (reviews st) Hno) as [-> ->].
  by rewrite set_reviews_same.
Qed.

(** *** The routes, with the store in reach *)

Lemma get_galleries_access_online code env st :
  online env = true ->
  get_galleries_access code env st
  = match head (filter (fun g => g_accessCode g = code) (rows (galleries st))) with
    | None =>
        (res_status_json 404 (JError "Galleria non trovata"), st, [Select galleries_t])
    | Some g =>
        (res_json (JGallery (g_id g) (g_accessCode g)
                     (filter (fun p => p_galleryId p = g_id g) (rows (photos st)))),
         st, [Select galleries_t; Select photos_t; Select photos_t])
    end.
Proof.
  intros Hon.
  unfold get_galleries_access, tryCatch, await, Storage.getGalleryByAccessCode, await.
  rewrite db_select_online by done.
  destruct (head _) as [g|]; [|reflexivity].
  rewrite db_select_online by done. unfold resolve, Storage.getPhotosByGalleryId. simpl.
  rewrite db_select_online by done. reflexivity.
Qed.

Lemma get_reviews_online env st :
  online env = true ->
  get_reviews env st
  = (res_json (JReviews (filter (fun r => r_status r = "approved") (rows (reviews st)))),
     st, [Select reviews_t]).
Proof.
  intros Hon. unfold get_reviews, tryCatch, await, Storage.getApprovedReviews.
  by rewrite db_select_online.
Qed.

Lemma post_reviews_online body env st :
  online env = true ->
  post_reviews body env st
  = match Storage.reviewValues body (now env) (serial (reviews st)) with
    | Some rv =>
        (res_status_json 201 (JReview rv),
         set_reviews
           {| rows := (rows (reviews st) ++ [rv])%list;
              serial := if bool_decide (ir_id body = None)
                        then serial (reviews st) + 1 else serial (reviews st) |} st,
         [Insert reviews_t])
    | None =>
        (res_status_json 500 (JError "Errore nella creazione della recensione"), st, [])
    end.
Proof.
  intros Hon. unfold post_reviews, tryCatch, await, Storage.createReview, await, db_insert.
  rewrite Hon. by destruct (Storage.reviewValues _ _ _).
Qed.

Lemma post_availability_online Date_parse body env st :
  online env = true ->
  post_availability Date_parse body env st
  = match newDateOf Date_parse (ap_date body) with
    | Some t =>
        let d := {| d_id := serial (availabilityDates st); d_date := t;
                    d_isAvailable := true;
                    d_createdAt := now env; d_updatedAt := now env |} in
        (res_status_json 201 (JDate d),
         set_availabilityDates
           {| rows := (rows (availabilityDates st) ++ [d])%list;
              serial := serial (availabilityDates st) + 1 |} st,
         [Insert availabilityDates_t])
    | None =>
        (res_status_json 500 (JError "Errore nella creazione della disponibilità"),
         st, [])
    end.
Proof.
  intros Hon.
  unfold post_availability, tryCatch, await, Storage.createAvailabilityDate, await,
    db_insert, Storage.availabilityDateValues.
  rewrite Hon. simpl. by destruct (newDateOf _ _).
Qed.

Lemma post_availability_timeslots_online id body env st :
  online env = true ->
  post_availability_timeslots id body env st
  = match Js.parseInt id, tp_startTime body, tp_endTime body with
    | Int dateId, Some startTime, Some endTime =>
        let s := {| s_id := serial (availabilityTimeSlots st); s_dateId := dateId;
                    s_startTime := startTime; s_endTime := endTime;
                    s_isAvailable := default true (tp_isAvailable body);
                    s_createdAt := now env; s_updatedAt := now env |} in
        (res_status_json 201 (JSlot s),
         set_availabilityTimeSlots
           {| rows := (rows (availabilityTimeSlots st) ++ [s])%list;
              serial := serial (availabilityTimeSlots st) + 1 |} st,
         [Insert availabilityTimeSlots_t])
    | _, _, _ =>
        (res_status_json 500 (JError "Errore nella creazione dello slot orario"), st, [])
    end.
Proof.
  intros Hon.
  unfold post_availability_timeslots, tryCatch, await,
    Storage.createAvailabilityTimeSlot, await, db_insert,
    Storage.availabilityTimeSlotValues.
  rewrite Hon. simpl.
  by destruct (Js.parseInt id), (tp_startTime body), (tp_endTime body).
Qed.

Lemma createdRows_same {R} (t : Table R) : createdRows t t = [].
Proof. unfold createdRows. by rewrite drop_all. Qed.

Lemma createdRows_app {R} (t : Table R) (l : list R) (n : Z) :
  createdRows t {| rows := (rows t ++ l)%list; serial := n |} = l.
Proof. unfold createdRows. simpl. by rewrite drop_app_length. Qed.

(** *** The orders of the availability queries *)

Lemma String_leb_trans (s1 s2 s3 : string) :
  String.leb s1 s2 = true -> String.leb s2 s3 = true -> String.leb s1 s3 = true.
Proof.
  unfold String.leb. revert s2 s3.
  induction s1 as [|a s1 IH]; intros [|b s2] [|c s3]; simpl; try done.
  unfold Ascii.compare.
  destruct (N.compare_spec (N_of_ascii a) (N_of_ascii b)) as [Hab|Hab|Hab];
    destruct (N.compare_spec (N_of_ascii b) (N_of_ascii c)) as [Hbc|Hbc|Hbc];
    destruct (N.compare_spec (N_of_ascii a) (N_of_ascii c)) as [Hac|Hac|Hac];
    try done; try lia.
  apply IH.
Qed.

#[global] Instance byStartTime_total : Total Storage.byStartTime.
Proof. intros a b. apply String.leb_total. Qed.

#[global] Instance byStartTime_trans : Transitive Storage.byStartTime.
Proof. intros a b c. apply String_leb_trans. Qed.

#[global] Instance byDate_total : Total Storage.byDate.
Proof. intros a b. unfold Storage.byDate. lia. Qed.

#[global] Instance byDate_trans : Transitive Storage.byDate.
Proof. intros a b c. unfold Storage.byDate. lia. Qed.

(** The time slots of a date, as [getAvailabilityTimeSlots] returns them. *)
Lemma getAvailabilityTimeSlots_online dateId env st :
  online env = true ->
  Storage.getAvailabilityTimeSlots dateId env st
  = (Resolved (merge_sort Storage.byStartTime
                 (filter (fun s => s_dateId s = dateId) (rows (availabilityTimeSlots st)))),
     st, [Select availabilityTimeSlots_t]).
Proof. intros Hon. unfold Storage.getAvailabilityTimeSlots. by rewrite db_select_online. Qed.

Lemma promiseAll_slots (dates : list AvailabilityDate) env st :
  online env = true ->
  promiseAll
    ((fun date =>
        let* slots := Storage.getAvailabilityTimeSlots (d_id date) in
        resolve {| dw_date := date; timeSlots := slots |}) <$> dates) env st
  = (Resolved (withSlots st <$> dates), st,
     (fun _ => Select availabilityTimeSlots_t) <$> dates).
Proof.
  intros Hon. induction dates as [|date dates IH]; [done|].
  rewrite !fmap_cons. simpl. unfold await at 1 2.
  rewrite getAvailabilityTimeSlots_online by done.
  unfold resolve at 1. unfold await at 1. rewrite IH.
  unfold resolve. simpl. by rewrite app_nil_r.
Qed.

Lemma get_availability_online env st :
  online env = true ->
  get_availability env st
  = (res_json
       (JDates
          (withSlots st
             <$> merge_sort Storage.byDate
                   (filter (fun d => now env <= d_date d
                                     /\ d_date d <= threeMonthsAfter (now env))
                      (rows (availabilityDates st))))),
     st,
     Select availabilityDates_t
       :: ((fun _ => Select availabilityTimeSlots_t)
             <$> merge_sort Storage.byDate
                   (filter (fun d => now env <= d_date d
                                     /\ d_date d <= threeMonthsAfter (now env))
                      (rows (availabilityDates st))))).
Proof.
  intros Hon.
  unfold get_availability, tryCatch, await, newDate, Storage.getAvailabilityDates, await.
  rewrite db_select_online by done. rewrite promiseAll_slots by done.
  unfold resolve, threeMonthsAfter. simpl. by rewrite !app_nil_r.
Qed.

Lemma patch_availability_timeslots_online id body env st :
  online env = true ->
  isInteger (Js.parseInt id) = true ->
  patch_availability_timeslots id body env st
  = (res_json
       (orUndefined JSlot
          (head (Storage.setAvailabilityTimeSlot (av_isAvailable body) (now env)
                   <$> filter (fun s => Int (s_id s) = Js.parseInt id)
                         (rows (availabilityTimeSlots st))))),
     set_availabilityTimeSlots
       {| rows := updateRow (fun s => Int (s_id s) = Js.parseInt id)
                    (Storage.setAvailabilityTimeSlot (av_isAvailable body) (now env))
                    <$> rows (availabilityTimeSlots st);
          serial := serial (availabilityTimeSlots st) |} st,
     [Update availabilityTimeSlots_t]).
Proof.
  intros Hon Hint. unfold patch_availability_timeslots, tryCatch, await.
  by rewrite updateAvailabilityTimeSlot_online.
Qed.

(** *** Ids that are no number

    The store rejects the NaN that [parseInt] made of the id, and the
    [catch] of the route answers 500; no operation ran. *)

Lemma patch_reviews_NaN id body env st :
  Js.parseInt id = NaN ->
  patch_reviews id body env st
  = (res_status_json 500 (JError "Errore nell'aggiornamento della recensione"), st, []).
Proof.
  intros Hid. unfold patch_reviews, tryCatch, await. rewrite Hid.
  by destruct (updateReview_NaN
                 {| ru_status := rp_status body;
                    ru_modifiedContent := rp_modifiedContent body |} env st) as [e ->].
Qed.

Lemma patch_availability_NaN id body env st :
  Js.parseInt id = NaN ->
  patch_availability id body env st
  = (res_status_json 500 (JError "Errore nell'aggiornamento della disponibilità"), st, []).
Proof.
  intros Hid. unfold patch_availability, tryCatch, await. rewrite Hid.
  by destruct (updateAvailabilityDate_NaN (av_isAvailable body) env st) as [e ->].
Qed.

Lemma patch_availability_timeslots_NaN id body env st :
  Js.parseInt id = NaN ->
  patch_availability_timeslots id body env st
  = (res_status_json 500 (JError "Errore nell'aggiornamento dello slot orario"), st, []).
Proof.
  intros Hid. unfold patch_availability_timeslots, tryCatch, await. rewrite Hid.
  by destruct (updateAvailabilityTimeSlot_NaN (av_isAvailable body) env st) as [e ->].
Qed.

Lemma isInteger_Int v z : v = Int z -> isInteger v = true.
Proof. by intros ->. Qed.

(** Two updates under one condition that the first keeps true amount to
    one. *)
Lemma updateRow_twice {R} (wh : R -> Prop) `{!forall r, Decision (wh r)}
    (set1 set2 set12 : R -> R) (l : list R) :
  (forall r, wh r -> wh (set1 r)) ->
  (forall r, wh r -> set2 (set1 r) = set12 r) ->
  updateRow wh set2 <$> (updateRow wh set1 <$> l) = updateRow wh set12 <$> l.
Proof.
  intros Hkeep Hset. rewrite <- list_fmap_compose. apply list_fmap_ext.
  intros _ r _. unfold updateRow. simpl.
  destruct (decide (wh r)) as [Hr|Hr].
  - rewrite decide_True by auto. auto.
  - by rewrite decide_False.
Qed.

(** *** The length of the availability window *)

(** The day of the year, counted from the first of March, that the
    conversion from a day number works with. *)
Lemma doy_bounds (doe : Z) :
  0 <= doe < 146097 ->
  let yoe := (doe - doe / 1460 + doe / 36524 - doe / 146096) / 365 in
  0 <= yoe <= 399 /\ 0 <= doe - (365 * yoe + yoe / 4 - yoe / 100) <= 365.
Proof.
  intros Hdoe. cbv zeta.
  assert (0 <= doe / 36524 <= 4) as Hb by (Z.div_mod_to_equations; lia).
  assert (0 <= doe / 146096 <= 1) as Hc by (Z.div_mod_to_equations; lia).
  Z.div_mod_to_equations; lia.
Qed.

(** The civil date of a day number is a date of that day number. *)
Lemma civilFromDays_inverse (n : Z) :
  let c := Js.civilFromDays n in
  1 <= c.1.2 <= 12 /\ Js.daysFromCivil c.1.1 c.1.2 1 + c.2 - 1 = n.
Proof.
  cbv zeta. unfold Js.civilFromDays. cbv zeta.
  set (era := (n + 719468) / 146097).
  set (doe := n + 719468 - era * 146097).
  assert (0 <= doe < 146097) as Hdoe by (subst doe era; Z.div_mod_to_equations; lia).
  assert (n = doe + era * 146097 - 719468) as Hn by (subst doe; lia).
  destruct (doy_bounds doe Hdoe) as [Hyoe Hdoy]. cbv zeta in Hyoe, Hdoy.
  set (yoe := (doe - doe / 1460 + doe / 36524 - doe / 146096) / 365) in *.
  set (doy := doe - (365 * yoe + yoe / 4 - yoe / 100)) in *.
  assert (0 <= (5 * doy + 2) / 153 <= 11) as Hmp by (Z.div_mod_to_equations; lia).
  set (mp := (5 * doy + 2) / 153) in *.
  cbn [fst snd]. unfold Js.daysFromCivil. cbv zeta.
  assert (forall k, 0 <= k <= 399 -> (k + era * 400) / 400 = era) as Hera.
  { intros k Hk. rewrite Z.div_add by lia. rewrite Z.div_small by lia. lia. }
  destruct (Z.ltb_spec mp 10) as [Hlt|Hge].
  - rewrite (proj2 (Z.leb_gt (mp + 3) 2)) by lia.
    rewrite (proj2 (Z.ltb_lt 2 (mp + 3))) by lia.
    rewrite Hera by lia. split; [lia|].
    replace (mp + 3 - 3) with mp by lia.
    replace (yoe + era * 400 - era * 400) with yoe by lia.
    clearbody mp yoe era. subst doy. lia.
  - rewrite (proj2 (Z.leb_le (mp - 9) 2)) by lia.
    rewrite (proj2 (Z.ltb_ge 2 (mp - 9))) by lia.
    replace (yoe + era * 400 + 1 - 1) with (yoe + era * 400) by lia.
    rewrite Hera by lia. split; [lia|].
    replace (mp - 9 + 9) with mp by lia.
    replace (yoe + era * 400 - era * 400) with yoe by lia.
    clearbody mp yoe era. subst doy. lia.
Qed.

(** The days from the first of a month to the first of the month three
    months on. *)
Lemma three_months (y m : Z) :
  1 <= m <= 12 ->
  89 <= Js.daysFromCivil (y + (m - 1 + 3) / 12) ((m - 1 + 3) mod 12 + 1) 1
        - Js.daysFromCivil y m 1 <= 92.
Proof.
  intros Hm.
  assert (m = 1 \/ m = 2 \/ m = 3 \/ m = 4 \/ m = 5 \/ m = 6 \/ m = 7 \/ m = 8
          \/ m = 9 \/ m = 10 \/ m = 11 \/ m = 12) as Hcases by lia.
  repeat (destruct Hcases as [->|Hcases]); try subst m;
    match goal with
    | |- context [Js.daysFromCivil (y + ?a) ?b 1] =>
        let a' := eval vm_compute in a in
        let b' := eval vm_compute in b in
        change a with a'; change b with b'
    end;
    unfold Js.daysFromCivil; cbv zeta;
    repeat match goal with
      | |- context [?a <=? 2] =>
          let v := eval vm_compute in (a <=? 2) in change (a <=? 2) with v
      | |- context [2 <? ?a] =>
          let v := eval vm_compute in (2 <? a) in change (2 <? a) with v
      end;
    cbv iota; Z.div_mod_to_equations; lia.
Qed.

Lemma window_length (D : Z) :
  89 * Js.msPerDay <= threeMonthsAfter D - D <= 92 * Js.msPerDay.
Proof.
  unfold threeMonthsAfter, Js.setMonth, Js.MakeDate, Js.MakeDay, Js.YearFromTime,
    Js.getMonth, Js.DateFromTime, Js.TimeWithinDay.
  destruct (civilFromDays_inverse (Js.Day D)) as [Hm Hday]. cbv zeta in Hm, Hday.
  pose proof (three_months (Js.civilFromDays (Js.Day D)).1.1
                (Js.civilFromDays (Js.Day D)).1.2 Hm) as Hspan.
  set (c := Js.civilFromDays (Js.Day D)) in *. clearbody c.
  set (target := Js.daysFromCivil (c.1.1 + _) _ 1) in *. clearbody target.
  set (start := Js.daysFromCivil c.1.1 c.1.2 1) in *. clearbody start.
  unfold Js.Day, Js.msPerDay in *. Z.div_mod_to_equations. lia.
Qed.

(** *** The authorization gate *)

Section Properties.
Context (Date_parse : string -> option Z).

(** C1. A request to an admin-only route whose session does not identify
    an admin is answered 401; the handler behind the gate does not run: no
    store operation is executed and the store is left as it was. *)
Theorem admin_routes_gated (r : Request) (env : Env) (st : Store) :
  adminOnly (route r) = true ->
  isAdminSession r st = false ->
  registerRoutes Date_parse r env st
  = (res_status_json 401 (JError "Unauthorized"), st, []).
Proof.
  intros Hadm Hsess. unfold registerRoutes.
  destruct (route r); try discriminate Hadm; unfold requireAdmin; by rewrite Hsess.
Qed.

(** *** Updates that find no row *)

(** C4. An admin [PATCH /api/reviews/:id] whose id is a number of the
    store's integer range and the id of no review is answered 404 with an
    error body, and the store after the request is the store before it. *)
Theorem patch_review_not_found (r : Request) (id : string) (z : Z)
    (body : ReviewPatchBody) (env : Env) (st : Store) :
  route r = PATCH_reviews id body ->
  isAdminSession r st = true ->
  online env = true ->
  Js.parseInt id = Int z ->
  int4 z ->
  (forall rv, rv ∈ rows (reviews st) -> r_id rv <> z) ->
  registerRoutes Date_parse r env st
  = (res_status_json 404 (JError "Recensione non trovata"), st, [Update reviews_t]).
Proof.
  intros Hroute Hadm Hon Hid _ Hno. unfold registerRoutes, requireAdmin.
  rewrite Hroute, Hadm. apply patch_reviews_misses; [done|by rewrite Hid|].
  rewrite Hid. intros rv Hin [= Heq]. by apply (Hno rv).
Qed.

(** C10, as amended. An admin [PATCH /api/reviews/:id] whose id [parseInt]
    reads as NaN is answered 500 with the error body of the route, whether
    the store is in reach or not: the store rejects the NaN, no operation
    runs and the store is left as it was.  It is not the answer an id that
    no review has gets, which is 404. *)
Theorem patch_review_nan_id (r : Request) (id : string) (body : ReviewPatchBody)
    (env : Env) (st : Store) :
  route r = PATCH_reviews id body ->
  isAdminSession r st = true ->
  Js.parseInt id = NaN ->
  registerRoutes Date_parse r env st
  = (res_status_json 500 (JError "Errore nell'aggiornamento della recensione"), st, [])
  /\ forall id' z,
       Js.parseInt id' = Int z ->
       int4 z ->
       (forall rv, rv ∈ rows (reviews st) -> r_id rv <> z) ->
       online env = true ->
       status (registerRoutes Date_parse
                 {| cookie := cookie r; route := PATCH_reviews id' body |} env st).1.1
       = 404.
Proof.
  intros Hroute Hadm Hnan. split.
  - unfold registerRoutes, requireAdmin. rewrite Hroute, Hadm.
    by apply patch_reviews_NaN.
  - intros id' z Hid _ Hno Hon. unfold registerRoutes, requireAdmin. simpl.
    change (isAdminSession {| cookie := cookie r; route := PATCH_reviews id' body |} st)
      with (isAdminSession r st).
    rewrite Hadm, patch_reviews_misses; [done..| |].
    + by rewrite Hid.
    + rewrite Hid. intros rv Hin [= Heq]. by apply (Hno rv).
Qed.

(** C5. An admin [PATCH /api/availability/:id] or
    [PATCH /api/availability/timeslots/:id] whose id is a number of the
    store's integer range and the id of no row is answered 200 with no
    body: the empty result of the update is handed to [res.json] as it is,
    and no 404 is sent. *)
Theorem patch_availability_not_found (r : Request) (id : string) (z : Z)
    (body : AvailabilityPatchBody) (env : Env) (st : Store) :
  isAdminSession r st = true ->
  online env = true ->
  Js.parseInt id = Int z ->
  int4 z ->
  (route r = PATCH_availability id body
   /\ forall d, d ∈ rows (availabilityDates st) -> d_id d <> z)
  \/ (route r = PATCH_availability_timeslots id body
      /\ forall s, s ∈ rows (availabilityTimeSlots st) -> s_id s <> z) ->
  exists ops,
    registerRoutes Date_parse r env st
    = ({| status := 200; body := JUndefined |}, st, ops).
Proof.
  intros Hadm Hon Hid _ [[Hroute Hno] | [Hroute Hno]];
    unfold registerRoutes, requireAdmin; rewrite Hroute, Hadm.
  - exists [Update availabilityDates_t].
    unfold patch_availability, tryCatch, await.
    rewrite updateAvailabilityDate_online; [|done|by rewrite Hid].
    destruct (update_misses (fun d => Int (d_id d) = Js.parseInt id)
                (Storage.setAvailabilityDate (av_isAvailable body) (now env))
                (availabilityDates st)) as [-> ->].
    { rewrite Hid. intros d Hin [= Heq]. by apply (Hno d). }
    by rewrite set_availabilityDates_same.
  - exists [Update availabilityTimeSlots_t].
    unfold patch_availability_timeslots, tryCatch, await.
    rewrite updateAvailabilityTimeSlot_online; [|done|by rewrite Hid].
    destruct (update_misses (fun s => Int (s_id s) = Js.parseInt id)
                (Storage.setAvailabilityTimeSlot (av_isAvailable body) (now env))
                (availabilityTimeSlots st)) as [-> ->].
    { rewrite Hid. intros x Hin [= Heq]. by apply (Hno x). }
    by rewrite set_availabilityTimeSlots_same.
Qed.

(** *** Lookups and inserts *)

(** C6. [GET /api/galleries/access/:code] is answered 404 when no gallery
    has the access code; otherwise it is answered 200 with the id and the
    access code of a gallery that has it and exactly the photos whose
    [galleryId] is that id. *)
Theorem gallery_by_access_code (r : Request) (code : string) (env : Env) (st : Store) :
  route r = GET_galleries_access code ->
  online env = true ->
  ((forall g, g ∈ rows (galleries st) -> g_accessCode g <> code) ->
   exists ops,
     registerRoutes Date_parse r env st
     = ({| status := 404; body := JError "Galleria non trovata" |}, st, ops))
  /\ ((exists g, g ∈ rows (galleries st) /\ g_accessCode g = code) ->
      exists g ops,
        g ∈ rows (galleries st) /\ g_accessCode g = code
        /\ registerRoutes Date_parse r env st
           = ({| status := 200;
                 body := JGallery (g_id g) code
                           (filter (fun p => p_galleryId p = g_id g) (rows (photos st))) |},
              st, ops)).
Proof.
  intros Hroute Hon. unfold registerRoutes. rewrite Hroute.
  rewrite get_galleries_access_online by done.
  destruct (head (filter (fun g => g_accessCode g = code) (rows (galleries st))))
    as [g|] eqn:Hhead.
  - apply head_Some_elem_of, list_elem_of_filter in Hhead as [Hcode Hin].
    split.
    + intros Hno. by destruct (Hno g Hin).
    + intros _. exists g. eexists. rewrite Hcode. by repeat split.
  - apply head_None in Hhead. split.
    + intros _. by eexists.
    + intros (g & Hin & Hcode).
      by destruct (filter_nil_not_elem_of _ _ g Hhead Hcode).
Qed.

(** C7. The date an admin [POST /api/availability] creates has
    [isAvailable] true whatever the body says, and the time slot an admin
    [POST /api/availability/:id/timeslots] creates has the [isAvailable] of
    the body when the body has one and true when it has none.  A request
    with a readable date (an integer id and both times) does create its
    row and is answered 201 with it. *)
Theorem created_rows_availability (r : Request) (env : Env) (st : Store) :
  isAdminSession r st = true ->
  online env = true ->
  (forall body, route r = POST_availability body ->
     let '(res, st', _) := registerRoutes Date_parse r env st in
     let created := createdRows (availabilityDates st) (availabilityDates st') in
     Forall (fun d => d_isAvailable d = true) created
     /\ forall t, newDateOf Date_parse (ap_date body) = Some t ->
          exists d, created = [d] /\ d_date d = t
                    /\ res = {| status := 201; body := JDate d |})
  /\ (forall id body, route r = POST_availability_timeslots id body ->
        let '(res, st', _) := registerRoutes Date_parse r env st in
        let created := createdRows (availabilityTimeSlots st) (availabilityTimeSlots st') in
        Forall (fun s => s_isAvailable s = match tp_isAvailable body with
                                           | Some b => b
                                           | None => true
                                           end) created
        /\ forall dateId startTime endTime,
             Js.parseInt id = Int dateId ->
             tp_startTime body = Some startTime ->
             tp_endTime body = Some endTime ->
             exists s, created = [s] /\ s_dateId s = dateId
                       /\ s_startTime s = startTime /\ s_endTime s = endTime
                       /\ res = {| status := 201; body := JSlot s |}).
Proof.
  intros Hadm Hon. split.
  - intros body Hroute. unfold registerRoutes, requireAdmin. rewrite Hroute, Hadm.
    rewrite post_availability_online by done.
    destruct (newDateOf Date_parse (ap_date body)) as [t|]; simpl.
    + rewrite createdRows_app. split; [by apply Forall_singleton|].
      intros t' [= <-]. eexists. split; [reflexivity|]. by split.
    + rewrite createdRows_same. by split.
  - intros id body Hroute. unfold registerRoutes, requireAdmin. rewrite Hroute, Hadm.
    rewrite post_availability_timeslots_online by done.
    destruct (Js.parseInt id) as [|dateId], (tp_startTime body) as [startTime|],
      (tp_endTime body) as [endTime|]; simpl;
      rewrite ?createdRows_app, ?createdRows_same; (split; [|try done]);
      try by constructor.
    intros ??? [= <-] [= <-] [= <-]. eexists. split; [reflexivity|]. by repeat split.
Qed.

(** C9. [POST /api/reviews] hands the whole body to [createReview]: a body
    that names a status gets a review with that status, and one that
    names [approved] is listed by [GET /api/reviews] right away, without
    any admin having acted. *)
Theorem submitted_status_is_kept (r q : Request) (body : InsertReview)
    (author content s : string) (env env' : Env) (st : Store) :
  route r = POST_reviews body ->
  ir_author body = Some author ->
  ir_content body = Some content ->
  ir_status body = Some s ->
  online env = true ->
  route q = GET_reviews ->
  online env' = true ->
  exists review st' ops,
    registerRoutes Date_parse r env st
    = ({| status := 201; body := JReview review |}, st', ops)
    /\ r_status review = s
    /\ (s = "approved" ->
        exists listed ops',
          registerRoutes Date_parse q env' st'
          = ({| status := 200; body := JReviews listed |}, st', ops')
          /\ review ∈ listed).
Proof.
  intros Hroute Hauthor Hcontent Hstatus Hon Hq Hon'.
  unfold registerRoutes. rewrite Hroute, Hq.
  rewrite post_reviews_online by done.
  unfold Storage.reviewValues. rewrite Hauthor, Hcontent, Hstatus. simpl.
  eexists _, _, _. split; [reflexivity|]. split; [done|].
  intros ->. rewrite get_reviews_online by done.
  eexists _, _. split; [reflexivity|].
  simpl. rewrite filter_app. apply elem_of_app. right.
  rewrite filter_cons_True by done. by left.
Qed.

(** *** The availability window *)

(** C2. With the clock at [D], [GET /api/availability] returns exactly
    the availability dates whose date lies in [D, D + 3 months], both ends
    included, in ascending order of date, each with exactly the time slots
    whose [dateId] is its id, in ascending order of start time.  The end
    of the window, three months after [D], lies between 89 and 92 days
    after it. *)
Theorem availability_window (r : Request) (env : Env) (st : Store) :
  route r = GET_availability ->
  online env = true ->
  exists dates ops,
    registerRoutes Date_parse r env st
    = ({| status := 200; body := JDates dates |}, st, ops)
    /\ dw_date <$> dates
       ≡ₚ filter (fun d => now env <= d_date d <= threeMonthsAfter (now env))
            (rows (availabilityDates st))
    /\ StronglySorted Storage.byDate (dw_date <$> dates)
    /\ Forall (fun dw =>
                 timeSlots dw
                 ≡ₚ filter (fun s => s_dateId s = d_id (dw_date dw))
                      (rows (availabilityTimeSlots st))
                 /\ StronglySorted Storage.byStartTime (timeSlots dw)) dates
    /\ now env + 89 * Js.msPerDay <= threeMonthsAfter (now env)
       <= now env + 92 * Js.msPerDay.
Proof.
  intros Hroute Hon. unfold registerRoutes. rewrite Hroute.
  rewrite get_availability_online by done.
  eexists _, _. split; [reflexivity|].
  rewrite <- list_fmap_compose.
  rewrite (list_fmap_ext (dw_date ∘ withSlots st) id) by done.
  rewrite list_fmap_id.
  split; [apply merge_sort_Permutation|].
  split; [apply StronglySorted_merge_sort; apply _|].
  split.
  - apply Forall_fmap, Forall_forall. intros d _. simpl. split.
    + apply merge_sort_Permutation.
    + apply StronglySorted_merge_sort; apply _.
  - pose proof (window_length (now env)). lia.
Qed.

(** *** Repeating a time slot update *)

Lemma patch_timeslots_as_admin (r : Request) id body env st :
  route r = PATCH_availability_timeslots id body ->
  isAdminSession r st = true ->
  online env = true ->
  isInteger (Js.parseInt id) = true ->
  registerRoutes Date_parse r env st
  = (res_json
       (orUndefined JSlot
          (head (Storage.setAvailabilityTimeSlot (av_isAvailable body) (now env)
                   <$> filter (fun s => Int (s_id s) = Js.parseInt id)
                         (rows (availabilityTimeSlots st))))),
     set_availabilityTimeSlots
       {| rows := updateRow (fun s => Int (s_id s) = Js.parseInt id)
                    (Storage.setAvailabilityTimeSlot (av_isAvailable body) (now env))
                    <$> rows (availabilityTimeSlots st);
          serial := serial (availabilityTimeSlots st) |} st,
     [Update availabilityTimeSlots_t]).
Proof.
  intros Hroute Hadm Hon Hint. unfold registerRoutes, requireAdmin.
  rewrite Hroute, Hadm. by apply patch_availability_timeslots_online.
Qed.

(** C8, as amended. Issuing an admin
    [PATCH /api/availability/timeslots/:id] with [isAvailable = b] for an
    existing slot twice: the second request is answered 200 with the slot,
    [isAvailable] being [b]; the store it leaves is the store the same
    request leaves when issued once at the time of the second, and it is
    the store after the first request with nothing but [updatedAt] of the
    slot refreshed. *)
Theorem patch_timeslot_twice (r : Request) (id : string) (b : bool)
    (e1 e2 : Env) (st : Store) :
  route r = PATCH_availability_timeslots id {| av_isAvailable := Some b |} ->
  isAdminSession r st = true ->
  online e1 = true ->
  online e2 = true ->
  (exists s, s ∈ rows (availabilityTimeSlots st) /\ Int (s_id s) = Js.parseInt id) ->
  let once := registerRoutes Date_parse r e1 st in
  let twice := registerRoutes Date_parse r e2 once.1.2 in
  (exists s, twice.1.1 = {| status := 200; body := JSlot s |} /\ s_isAvailable s = b)
  /\ twice.1.2 = (registerRoutes Date_parse r e2 st).1.2
  /\ twice.1.2
     = set_availabilityTimeSlots
         {| rows := updateRow (fun s => Int (s_id s) = Js.parseInt id)
                      (Storage.setAvailabilityTimeSlot None (now e2))
                      <$> rows (availabilityTimeSlots once.1.2);
            serial := serial (availabilityTimeSlots once.1.2) |} once.1.2.
Proof.
  intros Hroute Hadm Hon1 Hon2 (s0 & Hin & Hid). cbv zeta.
  assert (isInteger (Js.parseInt id) = true) as Hint by (by rewrite <- Hid).
  rewrite (patch_timeslots_as_admin r id _ e1 st) by done. cbn [fst snd].
  rewrite !(patch_timeslots_as_admin r id _ e2) by done. cbn [fst snd].
  cbn [availabilityTimeSlots set_availabilityTimeSlots rows serial av_isAvailable].
  split; [|split].
  - set (wh := fun s => Int (s_id s) = Js.parseInt id).
    set (set1 := Storage.setAvailabilityTimeSlot (Some b) (now e1)).
    destruct (filter wh (updateRow wh set1 <$> rows (availabilityTimeSlots st)))
      as [|s l] eqn:Hf.
    + exfalso. apply (filter_nil_not_elem_of _ _ (updateRow wh set1 s0) Hf).
      * unfold updateRow. by rewrite decide_True.
      * by apply list_elem_of_fmap_2.
    + simpl. by eexists.
  - unfold set_availabilityTimeSlots. simpl. f_equal. f_equal.
    by apply updateRow_twice.
  - unfold set_availabilityTimeSlots. simpl. f_equal. f_equal.
    rewrite !(updateRow_twice _ _ _ (Storage.setAvailabilityTimeSlot (Some b) (now e2)));
      done.
Qed.

(** *** What a request does to the store *)

Lemma offline_unchanged (q : Request) env st :
  online env = false -> (registerRoutes Date_parse q env st).1.2 = st.
Proof.
  intros Hoff. unfold registerRoutes, requireAdmin.
  destruct (route q); try destruct (isAdminSession q st); try reflexivity;
    unfold get_reviews, post_reviews, get_admin_stats, get_reviews_pending,
      patch_reviews, get_availability, post_availability, patch_availability,
      post_availability_timeslots, patch_availability_timeslots,
      get_galleries_access, tryCatch, await,
      Storage.getApprovedReviews, Storage.createReview, Storage.getAdminStats,
      Storage.getPendingReviews, Storage.updateReview, Storage.getAvailabilityDates,
      Storage.createAvailabilityDate, Storage.updateAvailabilityDate,
      Storage.createAvailabilityTimeSlot, Storage.updateAvailabilityTimeSlot,
      Storage.getGalleryByAccessCode, await, newDate, db_select, db_update, db_insert;
    rewrite ?Hoff; reflexivity.
Qed.

Lemma request_step (q : Request) env st :
  storeStep q env st (registerRoutes Date_parse q env st).1.2.
Proof.
  destruct (online env) eqn:Hon; [|apply step_same; by apply offline_unchanged].
  unfold registerRoutes, requireAdmin.
  destruct (route q) as [|body| | |id body| |body|id body|id body|id body|code] eqn:Hroute;
    try (destruct (isAdminSession q st) eqn:Hadm; [|by apply step_same]).
  - rewrite get_reviews_online by done. by apply step_same.
  - rewrite post_reviews_online by done.
    destruct (Storage.reviewValues _ _ _) as [rv|]; [|by apply step_same].
    by eapply step_review_added.
  - apply step_same.
    unfold get_admin_stats, tryCatch, await, Storage.getAdminStats, await, db_select.
    by rewrite Hon.
  - apply step_same.
    unfold get_reviews_pending, tryCatch, await, Storage.getPendingReviews, db_select.
    by rewrite Hon.
  - destruct (Js.parseInt id) as [|z] eqn:Hid.
    { rewrite patch_reviews_NaN by done. by apply step_same. }
    eapply step_reviews_updated; [done..|].
    unfold patch_reviews, tryCatch, await.
    rewrite updateReview_online; [|done|by rewrite Hid]. rewrite Hid.
    by destruct (head _).
  - rewrite get_availability_online by done. by apply step_same.
  - rewrite post_availability_online by done.
    destruct (newDateOf _ _); [by eapply step_dates | by apply step_same].
  - destruct (Js.parseInt id) as [|z] eqn:Hid.
    { rewrite patch_availability_NaN by done. by apply step_same. }
    eapply step_dates.
    unfold patch_availability, tryCatch, await.
    rewrite updateAvailabilityDate_online; [|done|by rewrite Hid]. by rewrite Hid.
  - rewrite post_availability_timeslots_online by done.
    destruct (Js.parseInt id), (tp_startTime body), (tp_endTime body);
      first [by apply step_same | by eapply step_slots].
  - destruct (Js.parseInt id) as [|z] eqn:Hid.
    { rewrite patch_availability_timeslots_NaN by done. by apply step_same. }
    eapply step_slots.
    rewrite patch_availability_timeslots_online; [|done|by rewrite Hid]. by rewrite Hid.
  - rewrite get_galleries_access_online by done.
    destruct (head _); by apply step_same.
Qed.

(** *** Moderation of reviews *)

Lemma isAdminSession_ext (q : Request) st st' :
  sessions st' = sessions st -> users st' = users st ->
  isAdminSession q st' = isAdminSession q st.
Proof. intros Hs Hu. unfold isAdminSession. by rewrite Hs, Hu. Qed.

Lemma storeStep_gate q env st st' :
  storeStep q env st st' -> sessions st' = sessions st /\ users st' = users st.
Proof. by intros [-> | ? ? ? ? -> | ? ? ? ? -> | ? -> | ? ->]. Qed.

(** A request that is not an admin's setting of the status of review [i]
    leaves a pending review [i] pending, where it is stored. *)
Lemma storeStep_pending i k q env st0 st st' :
  sessions st = sessions st0 -> users st = users st0 ->
  setsStatusOf i st0 q = false ->
  storeStep q env st st' ->
  pendingAt i k st -> pendingAt i k st'.
Proof.
  intros Hs Hu Hno Hstep (x & Hk & Hid & Hpending).
  destruct Hstep as [-> | body rv n Hr -> | id body Hr Hadm -> | t -> | t ->];
    try by exists x.
  - exists x. simpl. rewrite lookup_app_l; [done | by eapply lookup_lt_Some].
  - unfold pendingAt. simpl. rewrite list_lookup_fmap, Hk. simpl.
    eexists. split; [done|]. unfold updateRow.
    destruct (decide _) as [Hmatch|]; [|done].
    simpl. split; [done|].
    unfold setsStatusOf in Hno. rewrite Hr in Hno.
    rewrite <- (isAdminSession_ext q st0 st), Hadm in Hno by done.
    rewrite bool_decide_true in Hno by congruence. simpl in Hno.
    apply bool_decide_eq_false in Hno.
    destruct (rp_status body); [by destruct Hno|done].
Qed.

Lemma serve_pending i k st0 (trace : list (Env * Request)) :
  Forall (fun step => setsStatusOf i st0 step.2 = false) trace ->
  forall st,
    sessions st = sessions st0 -> users st = users st0 ->
    pendingAt i k st -> pendingAt i k (serve Date_parse trace st).
Proof.
  induction 1 as [|[env q] trace Hq _ IH]; intros st Hs Hu Hp; [done|].
  simpl. pose proof (request_step q env st) as Hstep.
  destruct (storeStep_gate _ _ _ _ Hstep) as [Hs' Hu'].
  apply IH; [congruence | congruence |].
  by apply (storeStep_pending i k q env st0 st).
Qed.

(** C3, as amended. A review [POST /api/reviews] creates from a body that
    names no status is pending, and stays pending through every sequence
    of requests in which no admin sets its status by
    [PATCH /api/reviews/:id]; a body with an author and a content does
    create one.  [GET /api/reviews] returns exactly the approved reviews,
    so never a pending or a rejected one. *)
Theorem submitted_review_stays_pending (r : Request) (body : InsertReview)
    (env : Env) (st : Store) :
  route r = POST_reviews body ->
  ir_status body = None ->
  let '(res, st1, _) := registerRoutes Date_parse r env st in
  (forall author content,
     ir_author body = Some author -> ir_content body = Some content ->
     online env = true ->
     exists review, res = {| status := 201; body := JReview review |})
  /\ (forall review,
        res = {| status := 201; body := JReview review |} ->
        r_status review = "pending"
        /\ forall trace,
             Forall (fun step => setsStatusOf (r_id review) st step.2 = false) trace ->
             pendingAt (r_id review) (length (rows (reviews st)))
               (serve Date_parse trace st1))
  /\ (forall (q : Request) env' st',
        route q = GET_reviews -> online env' = true ->
        exists listed ops,
          registerRoutes Date_parse q env' st'
          = ({| status := 200; body := JReviews listed |}, st', ops)
          /\ listed = filter (fun x => r_status x = "approved") (rows (reviews st'))
          /\ Forall (fun x => r_status x <> "pending" /\ r_status x <> "rejected") listed).
Proof.
  intros Hroute Hstatus. unfold registerRoutes at 1. rewrite Hroute.
  destruct (post_reviews body env st) as [[res st1] ops] eqn:Hpost.
  split; [|split].
  - intros author content Hauthor Hcontent Hon.
    rewrite post_reviews_online in Hpost by done.
    unfold Storage.reviewValues in Hpost. rewrite Hauthor, Hcontent in Hpost.
    simpl in Hpost. injection Hpost as <- _ _. by eexists.
  - intros review ->. destruct (online env) eqn:Hon.
    + rewrite post_reviews_online in Hpost by done.
      destruct (Storage.reviewValues _ _ _) as [rv|] eqn:Hvalues; [|done].
      injection Hpost as <- <- _.
      assert (r_status rv = "pending") as Hpending.
      { unfold Storage.reviewValues in Hvalues.
        destruct (ir_author body), (ir_content body); simplify_eq/=.
        by rewrite Hstatus. }
      split; [done|]. intros trace Htrace.
      apply (serve_pending _ _ st); [done..|].
      exists rv. simpl. split; [by apply list_lookup_middle | done].
    + exfalso. revert Hpost.
      unfold post_reviews, tryCatch, await, Storage.createReview, await, db_insert.
      by rewrite Hon.
  - intros q env' st' Hq Hon'. unfold registerRoutes. rewrite Hq.
    rewrite get_reviews_online by done.
    eexists _, _. split; [reflexivity|]. split; [done|].
    apply Forall_forall. intros x [Happroved _]%list_elem_of_filter.
    by rewrite Happroved.
Qed.

End Properties.

(** ** The properties on the example store *)

Lemma admin_routes_gated_witness :
  let q := anonymous (POST_availability
                        {| ap_date := Some (DateString "2025-06-01");
                           ap_isAvailable := None |}) in
  adminOnly (route q) = true
  /\ isAdminSession q demoStore = false
  /\ registerRoutes isoDate q (at_ june1) demoStore
     = (res_status_json 401 (JError "Unauthorized"), demoStore, []).
Proof.
  split; [reflexivity|]. split; [reflexivity|].
  apply admin_routes_gated; reflexivity.
Defined.

Lemma patch_review_not_found_witness :
  Js.parseInt "99" = Int 99
  /\ int4 99
  /\ (forall rv, rv ∈ rows (reviews demoStore) -> r_id rv <> 99)
  /\ registerRoutes isoDate (asAdmin (PATCH_reviews "99" approve)) (at_ june1) demoStore
     = (res_status_json 404 (JError "Recensione non trovata"), demoStore,
        [Update reviews_t]).
Proof.
  assert (forall rv, rv ∈ rows (reviews demoStore) -> r_id rv <> 99)
    as Hno by (apply Forall_forall; by_evaluation).
  assert (int4 99) as Hrange by (unfold int4; lia).
  split; [reflexivity|]. split; [exact Hrange|]. split; [exact Hno|].
  apply (patch_review_not_found isoDate (asAdmin (PATCH_reviews "99" approve)) "99" 99
           approve (at_ june1) demoStore);
    [reflexivity | reflexivity | reflexivity | reflexivity | exact Hrange | exact Hno].
Defined.

Lemma patch_review_nan_id_witness :
  Js.parseInt "abc" = NaN
  /\ registerRoutes isoDate (asAdmin (PATCH_reviews "abc" approve)) (at_ june1) demoStore
     = (res_status_json 500 (JError "Errore nell'aggiornamento della recensione"),
        demoStore, [])
  /\ status (registerRoutes isoDate (asAdmin (PATCH_reviews "99" approve)) (at_ june1)
               demoStore).1.1 = 404.
Proof.
  split; [reflexivity|].
  destruct (patch_review_nan_id isoDate (asAdmin (PATCH_reviews "abc" approve)) "abc"
              approve (at_ june1) demoStore eq_refl eq_refl eq_refl) as [Hnan Hother].
  split; [exact Hnan|].
  apply (Hother "99" 99); [reflexivity | unfold int4; lia | | reflexivity].
  apply Forall_forall. by_evaluation.
Defined.

Lemma patch_availability_not_found_witness :
  Js.parseInt "77" = Int 77
  /\ int4 77
  /\ (forall d, d ∈ rows (availabilityDates demoStore) -> d_id d <> 77)
  /\ exists ops,
       registerRoutes isoDate (asAdmin (PATCH_availability "77" (setAvailable false)))
         (at_ june1) demoStore
       = ({| status := 200; body := JUndefined |}, demoStore, ops).
Proof.
  assert (forall d, d ∈ rows (availabilityDates demoStore) -> d_id d <> 77)
    as Hno by (apply Forall_forall; by_evaluation).
  assert (int4 77) as Hrange by (unfold int4; lia).
  split; [reflexivity|]. split; [exact Hrange|]. split; [exact Hno|].
  apply (patch_availability_not_found isoDate
           (asAdmin (PATCH_availability "77" (setAvailable false))) "77" 77
           (setAvailable false) (at_ june1) demoStore);
    [reflexivity | reflexivity | reflexivity | exact Hrange
    | left; split; [reflexivity | exact Hno]].
Defined.

Lemma availability_window_witness :
  online (at_ june1) = true
  /\ threeMonthsAfter june1 = june1 + 92 * day
  /\ exists dates ops,
       registerRoutes isoDate (anonymous GET_availability) (at_ june1) demoStore
       = ({| status := 200; body := JDates dates |}, demoStore, ops)
       /\ (fun dw => (d_id (dw_date dw), d_date (dw_date dw), s_id <$> timeSlots dw))
          <$> dates
          = [ (3, june1 + 2 * day, [3; 1]); (1, june1 + 40 * day, [2]) ]
       /\ dw_date <$> dates
          ≡ₚ filter (fun d => june1 <= d_date d <= threeMonthsAfter june1)
               (rows (availabilityDates demoStore))
       /\ StronglySorted Storage.byDate (dw_date <$> dates)
       /\ Forall (fun dw =>
                    timeSlots dw
                    ≡ₚ filter (fun s => s_dateId s = d_id (dw_date dw))
                         (rows (availabilityTimeSlots demoStore))
                    /\ StronglySorted Storage.byStartTime (timeSlots dw)) dates
       /\ june1 + 89 * Js.msPerDay <= threeMonthsAfter june1 <= june1 + 92 * Js.msPerDay.
Proof.
  split; [reflexivity|]. split; [vm_compute; reflexivity|].
  destruct (availability_window isoDate (anonymous GET_availability) (at_ june1) demoStore
              eq_refl eq_refl) as (dates & ops & Hres & Hrest).
  exists dates, ops. split; [exact Hres|]. split; [|exact Hrest].
  assert (match body (registerRoutes isoDate (anonymous GET_availability) (at_ june1)
                        demoStore).1.1 with
          | JDates l =>
              (fun dw => (d_id (dw_date dw), d_date (dw_date dw), s_id <$> timeSlots dw))
              <$> l
          | _ => []
          end
          = [ (3, june1 + 2 * day, [3; 1]); (1, june1 + 40 * day, [2]) ]) as Hrun
    by (vm_compute; reflexivity).
  rewrite Hres in Hrun. exact Hrun.
Defined.

Lemma gallery_by_access_code_witness :
  exists g ops,
    g ∈ rows (galleries demoStore) /\ g_accessCode g = "nozze"
    /\ registerRoutes isoDate (anonymous (GET_galleries_access "nozze")) (at_ june1)
         demoStore
       = ({| status := 200;
             body := JGallery (g_id g) "nozze"
                       (filter (fun p => p_galleryId p = g_id g)
                          (rows (photos demoStore))) |},
          demoStore, ops).
Proof.
  apply (gallery_by_access_code isoDate (anonymous (GET_galleries_access "nozze")) "nozze"
           (at_ june1) demoStore eq_refl eq_refl).
  exists {| g_id := 1; g_accessCode := "nozze" |}.
  split.
  - apply list_elem_of_here.
  - reflexivity.
Defined.

Lemma created_rows_availability_witness :
  let r := asAdmin (POST_availability
                      {| ap_date := Some (DateString "2025-06-01");
                         ap_isAvailable := Some false |}) in
  isAdminSession r demoStore = true
  /\ exists d,
       (registerRoutes isoDate r (at_ june1) demoStore).1.1
       = {| status := 201; body := JDate d |}
       /\ d_isAvailable d = true.
Proof.
  intros r. split; [reflexivity|].
  destruct (created_rows_availability isoDate r (at_ june1) demoStore eq_refl eq_refl)
    as [Hdate _].
  specialize (Hdate _ eq_refl).
  destruct (registerRoutes isoDate r (at_ june1) demoStore) as [[res st'] ops].
  destruct Hdate as [Hall Hcreated].
  destruct (Hcreated june1 eq_refl) as (d & Hd & _ & ->).
  exists d. split; [reflexivity|].
  rewrite Hd in Hall. exact (proj1 (Forall_singleton _ _) Hall).
Defined.

Lemma patch_timeslot_twice_witness :
  let r := asAdmin (PATCH_availability_timeslots "3" (setAvailable true)) in
  let once := registerRoutes isoDate r (at_ 1000) demoStore in
  let twice := registerRoutes isoDate r (at_ 2000) once.1.2 in
  (exists s, twice.1.1 = {| status := 200; body := JSlot s |} /\ s_isAvailable s = true)
  /\ twice.1.2 = (registerRoutes isoDate r (at_ 2000) demoStore).1.2
  /\ twice.1.2
     = set_availabilityTimeSlots
         {| rows := updateRow (fun s => Int (s_id s) = Js.parseInt "3")
                      (Storage.setAvailabilityTimeSlot None 2000)
                      <$> rows (availabilityTimeSlots once.1.2);
            serial := serial (availabilityTimeSlots once.1.2) |} once.1.2.
Proof.
  apply (patch_timeslot_twice isoDate
           (asAdmin (PATCH_availability_timeslots "3" (setAvailable true))) "3" true
           (at_ 1000) (at_ 2000) demoStore); try reflexivity.
  eexists. split.
  - do 2 apply list_elem_of_further. apply list_elem_of_here.
  - reflexivity.
Defined.

Lemma submitted_status_is_kept_witness :
  exists review st' ops,
    registerRoutes isoDate (anonymous (POST_reviews (reviewOf "Dario" "Top" (Some "approved"))))
      (at_ june1) demoStore
    = ({| status := 201; body := JReview review |}, st', ops)
    /\ r_status review = "approved"
    /\ ("approved" = "approved" ->
        exists listed ops',
          registerRoutes isoDate (anonymous GET_reviews) (at_ (june1 + 1)) st'
          = ({| status := 200; body := JReviews listed |}, st', ops')
          /\ review ∈ listed).
Proof.
  apply (submitted_status_is_kept isoDate
           (anonymous (POST_reviews (reviewOf "Dario" "Top" (Some "approved"))))
           (anonymous GET_reviews) (reviewOf "Dario" "Top" (Some "approved"))
           "Dario" "Top" "approved" (at_ june1) (at_ (june1 + 1)) demoStore);
    reflexivity.
Defined.

(** The new review is stored fourth; other reviews are moderated and
    requests without an admin session try to moderate it, and it is still
    pending. *)
Lemma submitted_review_stays_pending_witness :
  let r := anonymous (POST_reviews (reviewOf "Dario" "Grazie" None)) in
  let st1 := (registerRoutes isoDate r (at_ june1) demoStore).1.2 in
  pendingAt 4 3
    (serve isoDate
       [ (at_ (june1 + 1), asAdmin (PATCH_reviews "2" approve));
         (at_ (june1 + 2), anonymous (PATCH_reviews "4" approve));
         (at_ (june1 + 3), anonymous (POST_reviews (reviewOf "Elena" "Brava" None))) ]
       st1).
Proof.
  intros r st1.
  pose proof (submitted_review_stays_pending isoDate r (reviewOf "Dario" "Grazie" None)
                (at_ june1) demoStore eq_refl eq_refl) as Hthm.
  subst st1.
  destruct (registerRoutes isoDate r (at_ june1) demoStore) as [[res st1] ops] eqn:Hrun.
  destruct Hthm as (Hcreated & Hpending & _).
  destruct (Hcreated "Dario" "Grazie" eq_refl eq_refl eq_refl) as [review ->].
  assert (r_id review = 4) as Hid.
  { apply (f_equal (fun x => x.1.1)) in Hrun. vm_compute in Hrun. by injection Hrun as <-. }
  destruct (Hpending review eq_refl) as [_ Htrace].
  rewrite Hid in Htrace. apply Htrace. by_evaluation.
Defined.

(** A date is created, a time slot is created under it, and the window
    that contains the date shows it with that slot. *)
Example calendar_end_to_end :
  let t := june1 - day in
  let date := {| d_id := 1; d_date := june1; d_isAvailable := true;
                 d_createdAt := t; d_updatedAt := t |} in
  let slot := {| s_id := 1; s_dateId := 1; s_startTime := "09:00"; s_endTime := "10:00";
                 s_isAvailable := true; s_createdAt := t + 1; s_updatedAt := t + 1 |} in
  let r1 := registerRoutes isoDate
              (asAdmin (POST_availability
                          {| ap_date := Some (DateString "2025-06-01");
                             ap_isAvailable := None |}))
              (at_ t) emptyStore in
  let r2 := registerRoutes isoDate
              (asAdmin (POST_availability_timeslots "1"
                          {| tp_startTime := Some "09:00"; tp_endTime := Some "10:00";
                             tp_isAvailable := None |}))
              (at_ (t + 1)) r1.1.2 in
  let r3 := registerRoutes isoDate (anonymous GET_availability) (at_ (t + 2)) r2.1.2 in
  r1.1.1 = {| status := 201; body := JDate date |}
  /\ r2.1.1 = {| status := 201; body := JSlot slot |}
  /\ r3.1.1 = {| status := 200;
                 body := JDates [ {| dw_date := date; timeSlots := [slot] |} ] |}.
Proof. vm_compute. by repeat split. Qed.

(** A store out of reach turns into 500 on a public route, and a request
    without a date into 500 on the admin route that creates one. *)
Example store_errors :
  (registerRoutes isoDate (anonymous GET_reviews) {| now := june1; online := false |}
     demoStore).1.1
  = {| status := 500; body := JError "Errore nel recupero delle recensioni" |}
  /\ (registerRoutes isoDate
        (asAdmin (POST_availability {| ap_date := None; ap_isAvailable := Some true |}))
        (at_ june1) demoStore).1.1
     = {| status := 500; body := JError "Errore nella creazione della disponibilità" |}.
Proof. vm_compute. by split. Qed.

(** An id that is no number turns into 500 on the routes that update by
    id and on the one that creates a time slot, with nothing changed. *)
Example non_numeric_ids :
  registerRoutes isoDate (asAdmin (PATCH_availability "abc" (setAvailable false)))
    (at_ june1) demoStore
  = ({| status := 500; body := JError "Errore nell'aggiornamento della disponibilità" |},
     demoStore, [])
  /\ registerRoutes isoDate (asAdmin (PATCH_availability_timeslots "x1" (setAvailable false)))
       (at_ june1) demoStore
     = ({| status := 500; body := JError "Errore nell'aggiornamento dello slot orario" |},
        demoStore, [])
  /\ registerRoutes isoDate (asAdmin (POST_availability_timeslots "" morning))
       (at_ june1) demoStore
     = ({| status := 500; body := JError "Errore nella creazione dello slot orario" |},
        demoStore, []).
Proof. by repeat split. Qed.

(** *** Where the statements fail *)

(** C3. A body that names a status gets a review with that status: the
    review is approved from the start. *)
Lemma named_status_not_pending : ~ submittedReviewsArePending.
Proof.
  intros Hclaim.
  specialize (Hclaim isoDate (anonymous (POST_reviews (reviewOf "Dario" "Top" (Some "approved"))))
                (reviewOf "Dario" "Top" (Some "approved")) (at_ june1) demoStore).
  by specialize (Hclaim _ _ _ eq_refl eq_refl).
Qed.

(** C10. An admin [PATCH /api/reviews/abc] with the store in reach is
    answered 500, not 404. *)
Lemma nan_id_is_server_error : ~ nanIdIsNotFound.
Proof.
  intros Hclaim.
  specialize (Hclaim isoDate (asAdmin (PATCH_reviews "abc" approve)) "abc" approve
                (at_ june1) demoStore eq_refl eq_refl eq_refl eq_refl).
  vm_compute in Hclaim. by destruct Hclaim as [[=] _].
Qed.

(** C8. The second of two updates a second apart writes its own time to
    [updatedAt]: the store differs from the one the first update left. *)
Lemma second_patch_changes_store : ~ patchTimeslotTwiceSameStore.
Proof.
  intros Hclaim.
  destruct (Hclaim isoDate (asAdmin (PATCH_availability_timeslots "3" (setAvailable true)))
              "3" true (at_ 1000) (at_ 2000) demoStore) as [_ Hsame];
    try reflexivity.
  - done.
  - eexists. split.
    + do 2 apply list_elem_of_further. apply list_elem_of_here.
    + reflexivity.
  - apply (f_equal (fun st => s_updatedAt <$> rows (availabilityTimeSlots st))) in Hsame.
    vm_compute in Hsame. discriminate Hsame.
Qed.

(** ** Further properties of the router *)

Lemma get_reviews_pending_online env st :
  online env = true ->
  get_reviews_pending env st
  = (res_json (JReviews (filter (fun r => r_status r = "pending") (rows (reviews st)))),
     st, [Select reviews_t]).
Proof.
  intros Hon. unfold get_reviews_pending, tryCatch, await, Storage.getPendingReviews.
  by rewrite db_select_online.
Qed.

Lemma get_admin_stats_online env st :
  online env = true ->
  get_admin_stats env st
  = (res_json
       (JStats
          {| faqCount := Z.of_nat (length (rows (faqs st)));
             galleryCount := Z.of_nat (length (rows (galleries st)));
             pendingReviewsCount :=
               Z.of_nat (length (filter (fun r => r_status r = "pending")
                                   (rows (reviews st)))) |}),
     st, [Select faqs_t; Select galleries_t; Select reviews_t]).
Proof.
  intros Hon. unfold get_admin_stats, tryCatch, await, Storage.getAdminStats, await.
  by rewrite !db_select_online.
Qed.

Lemma patch_reviews_online id body env st :
  online env = true ->
  isInteger (Js.parseInt id) = true ->
  patch_reviews id body env st
  = (match head (filter (fun r => Int (r_id r) = Js.parseInt id) (rows (reviews st))) with
     | Some r =>
         res_json (JReview (Storage.setReview
                              {| ru_status := rp_status body;
                                 ru_modifiedContent := rp_modifiedContent body |}
                              (now env) r))
     | None => res_status_json 404 (JError "Recensione non trovata")
     end,
     set_reviews
       {| rows := updateRow (fun r => Int (r_id r) = Js.parseInt id)
                    (Storage.setReview
                       {| ru_status := rp_status body;
                          ru_modifiedContent := rp_modifiedContent body |} (now env))
                    <$> rows (reviews st);
          serial := serial (reviews st) |} st,
     [Update reviews_t]).
Proof.
  intros Hon Hint. unfold patch_reviews, tryCatch, await.
  rewrite updateReview_online by done.
  by destruct (filter _ _).
Qed.

Lemma patch_availability_online id body env st :
  online env = true ->
  isInteger (Js.parseInt id) = true ->
  patch_availability id body env st
  = (res_json
       (orUndefined JDate
          (head (Storage.setAvailabilityDate (av_isAvailable body) (now env)
                   <$> filter (fun d => Int (d_id d) = Js.parseInt id)
                         (rows (availabilityDates st))))),
     set_availabilityDates
       {| rows := updateRow (fun d => Int (d_id d) = Js.parseInt id)
                    (Storage.setAvailabilityDate (av_isAvailable body) (now env))
                    <$> rows (availabilityDates st);
          serial := serial (availabilityDates st) |} st,
     [Update availabilityDates_t]).
Proof.
  intros Hon Hint. unfold patch_availability, tryCatch, await.
  by rewrite updateAvailabilityDate_online.
Qed.

Section RouterProperties.
Context (Date_parse : string -> option Z).

(** With the store out of reach every handler ends in its [catch]. *)
Lemma offline_response (r : Request) env st :
  online env = false ->
  reachesHandler r st = true ->
  exists msg,
    registerRoutes Date_parse r env st
    = ({| status := 500; body := JError msg |}, st, []).
Proof.
  intros Hoff. unfold reachesHandler, registerRoutes, requireAdmin.
  destruct (route r); simpl; intros Hgate; rewrite ?Hgate; eexists;
    unfold get_reviews, post_reviews, get_admin_stats, get_reviews_pending,
      patch_reviews, get_availability, post_availability, patch_availability,
      post_availability_timeslots, patch_availability_timeslots,
      get_galleries_access, tryCatch, await,
      Storage.getApprovedReviews, Storage.createReview, Storage.getAdminStats,
      Storage.getPendingReviews, Storage.updateReview, Storage.getAvailabilityDates,
      Storage.createAvailabilityDate, Storage.updateAvailabilityDate,
      Storage.createAvailabilityTimeSlot, Storage.updateAvailabilityTimeSlot,
      Storage.getGalleryByAccessCode, await, newDate, db_select, db_update, db_insert;
    rewrite ?Hoff; reflexivity.
Qed.

Lemma admin_gate_closed (r : Request) env st :
  adminOnly (route r) = true ->
  isAdminSession r st = false ->
  registerRoutes Date_parse r env st
  = (res_status_json 401 (JError "Unauthorized"), st, []).
Proof.
  intros Hadm Hsess. unfold registerRoutes, requireAdmin.
  destruct (route r); try discriminate Hadm; by rewrite Hsess.
Qed.

(** The status a request that reaches its handler gets with the store in
    reach. *)
Lemma online_status (r : Request) env st :
  online env = true ->
  reachesHandler r st = true ->
  let code := status (registerRoutes Date_parse r env st).1.1 in
  match method (route r) with
  | GET => code = 200 \/ code = 404
  | POST => code = 201 \/ code = 500
  | PATCH => code = 200 \/ code = 404 \/ code = 500
  end.
Proof.
  intros Hon. unfold reachesHandler, registerRoutes, requireAdmin.
  destruct (route r) as [|body| | |id body| |body|id body|id body|id body|code];
    simpl; intros Hgate; rewrite ?Hgate.
  - rewrite get_reviews_online by done. by left.
  - rewrite post_reviews_online by done.
    destruct (Storage.reviewValues _ _ _); simpl; auto.
  - rewrite get_admin_stats_online by done. by left.
  - rewrite get_reviews_pending_online by done. by left.
  - destruct (Js.parseInt id) as [|z] eqn:Hid.
    { rewrite patch_reviews_NaN by done. simpl. auto. }
    rewrite patch_reviews_online; [|done|by rewrite Hid]. destruct (head _); simpl; auto.
  - rewrite get_availability_online by done. by left.
  - rewrite post_availability_online by done.
    destruct (newDateOf _ _); simpl; auto.
  - destruct (Js.parseInt id) as [|z] eqn:Hid.
    { rewrite patch_availability_NaN by done. simpl. auto. }
    rewrite patch_availability_online; [|done|by rewrite Hid]. by left.
  - rewrite post_availability_timeslots_online by done.
    destruct (Js.parseInt id), (tp_startTime body), (tp_endTime body); simpl; auto.
  - destruct (Js.parseInt id) as [|z] eqn:Hid.
    { rewrite patch_availability_timeslots_NaN by done. simpl. auto. }
    rewrite patch_availability_timeslots_online; [|done|by rewrite Hid]. by left.
  - rewrite get_galleries_access_online by done. destruct (head _); simpl; auto.
Qed.

(** An id that is no number, on any route that takes one: the store
    rejects it. *)
Lemma nan_id_response (r : Request) mk id env st :
  idRoute mk ->
  route r = mk id ->
  reachesHandler r st = true ->
  Js.parseInt id = NaN ->
  exists msg,
    registerRoutes Date_parse r env st
    = ({| status := 500; body := JError msg |}, st, []).
Proof.
  intros Hmk Hroute Hgate Hnan. unfold reachesHandler in Hgate.
  unfold registerRoutes, requireAdmin. rewrite Hroute in *.
  destruct Hmk; simpl in Hgate; rewrite Hgate.
  - rewrite patch_reviews_NaN by done. by eexists.
  - rewrite patch_availability_NaN by done. by eexists.
  - destruct (online env) eqn:Hon.
    + rewrite post_availability_timeslots_online by done. rewrite Hnan. by eexists.
    + unfold post_availability_timeslots, tryCatch, await,
        Storage.createAvailabilityTimeSlot, await, db_insert.
      rewrite Hon. by eexists.
  - rewrite patch_availability_timeslots_NaN by done. by eexists.
Qed.

(** X1. A request is answered 401 exactly when its route is admin-only
    and its session is not an admin's: no handler answers 401 itself, and
    a public route is never refused. *)
Theorem unauthorized_iff (r : Request) (env : Env) (st : Store) :
  status (registerRoutes Date_parse r env st).1.1 = 401
  <-> adminOnly (route r) = true /\ isAdminSession r st = false.
Proof.
  split.
  - intros H401. destruct (reachesHandler r st) eqn:Hgate.
    + exfalso. destruct (online env) eqn:Hon.
      * pose proof (online_status r env st Hon Hgate) as Hcode. simpl in Hcode.
        rewrite H401 in Hcode. destruct (method (route r)); intuition discriminate.
      * destruct (offline_response r env st Hon Hgate) as [msg Hres].
        by rewrite Hres in H401.
    + unfold reachesHandler in Hgate. apply orb_false_iff in Hgate as [Hadm Hsess].
      split; [by apply negb_false_iff | done].
  - intros [Hadm Hsess]. by rewrite admin_gate_closed.
Qed.

(** X2. A request that reaches its handler while the store is out of
    reach is answered 500 with an error body, nothing having run and the
    store being as it was; a GET is answered 500 in no other case; and a
    request whose path id [parseInt] reads as NaN is answered 500 as well,
    the store rejecting the id, with nothing run and the store as it
    was. *)
Theorem server_error_iff_unreachable (r : Request) (env : Env) (st : Store) :
  reachesHandler r st = true ->
  (online env = false ->
   exists msg,
     registerRoutes Date_parse r env st
     = ({| status := 500; body := JError msg |}, st, []))
  /\ (method (route r) = GET ->
      status (registerRoutes Date_parse r env st).1.1 = 500 ->
      online env = false)
  /\ (forall mk id,
        idRoute mk -> route r = mk id -> Js.parseInt id = NaN ->
        exists msg,
          registerRoutes Date_parse r env st
          = ({| status := 500; body := JError msg |}, st, [])).
Proof.
  intros Hgate. split; [intros Hoff; by apply offline_response|]. split.
  - intros Hmethod H500. destruct (online env) eqn:Hon; [|done].
    pose proof (online_status r env st Hon Hgate) as Hcode. simpl in Hcode.
    rewrite H500, Hmethod in Hcode. by destruct Hcode.
  - intros mk id Hmk Hroute Hnan. by eapply nan_id_response.
Qed.

Lemma offline_store (q : Request) env st :
  online env = false -> (registerRoutes Date_parse q env st).1.2 = st.
Proof.
  intros Hoff. destruct (reachesHandler q st) eqn:Hgate.
  - destruct (offline_response q env st Hoff Hgate) as [msg ->]. done.
  - unfold reachesHandler in Hgate. apply orb_false_iff in Hgate as [Hadm Hsess].
    rewrite admin_gate_closed; [done | by apply negb_false_iff | done].
Qed.

(** X3. A GET request never changes the store, whoever sends it and
    whatever the clock and the state of the store. *)
Theorem get_is_read_only (r : Request) (env : Env) (st : Store) :
  method (route r) = GET ->
  (registerRoutes Date_parse r env st).1.2 = st.
Proof.
  intros Hget. destruct (online env) eqn:Hon; [|by apply offline_store].
  unfold registerRoutes, requireAdmin.
  destruct (route r); try discriminate Hget;
    try (destruct (isAdminSession r st); [|done]).
  - by rewrite get_reviews_online.
  - by rewrite get_admin_stats_online.
  - by rewrite get_reviews_pending_online.
  - by rewrite get_availability_online.
  - rewrite get_galleries_access_online by done. by destruct (head _).
Qed.

(** What one request leaves of the tables it has no statement for. *)
Lemma step_frame (q : Request) env st :
  let st' := (registerRoutes Date_parse q env st).1.2 in
  sessions st' = sessions st /\ users st' = users st /\ faqs st' = faqs st
  /\ galleries st' = galleries st /\ photos st' = photos st.
Proof.
  simpl. pose proof (request_step Date_parse q env st) as Hstep.
  by destruct Hstep as [-> | ? ? ? ? -> | ? ? ? ? -> | ? -> | ? ->].
Qed.

(** X4. No sequence of requests to these routes changes the sessions,
    the users, the FAQs, the galleries or the photos; a session that is an
    admin's stays one, and one that is not does not become one. *)
Theorem serve_frame (trace : list (Env * Request)) (st : Store) :
  let st' := serve Date_parse trace st in
  sessions st' = sessions st /\ users st' = users st /\ faqs st' = faqs st
  /\ galleries st' = galleries st /\ photos st' = photos st
  /\ forall q, isAdminSession q st' = isAdminSession q st.
Proof.
  simpl. revert st. induction trace as [|[env q] trace IH]; intros st; [done|].
  simpl. destruct (IH (registerRoutes Date_parse q env st).1.2)
    as (Hs & Hu & Hf & Hg & Hp & _).
  destruct (step_frame q env st) as (Hs' & Hu' & Hf' & Hg' & Hp').
  assert (sessions (serve Date_parse trace (registerRoutes Date_parse q env st).1.2)
          = sessions st) as Hsess by congruence.
  assert (users (serve Date_parse trace (registerRoutes Date_parse q env st).1.2)
          = users st) as Husers by congruence.
  repeat split; try congruence.
  intros q'. unfold isAdminSession. by rewrite Hsess, Husers.
Qed.

(** What a request leaves of a stored review. *)
Lemma step_keeps_review (q : Request) env st x :
  x ∈ rows (reviews st) ->
  exists x',
    x' ∈ rows (reviews (registerRoutes Date_parse q env st).1.2)
    /\ r_id x' = r_id x /\ r_author x' = r_author x
    /\ r_content x' = r_content x /\ r_createdAt x' = r_createdAt x.
Proof.
  intros Hx. pose proof (request_step Date_parse q env st) as Hstep.
  destruct Hstep as [-> | body rv n Hr -> | id body Hr Hadm -> | t -> | t ->];
    try by exists x.
  - exists x. simpl. split; [|done]. apply elem_of_app. by left.
  - simpl. eexists. split; [by apply list_elem_of_fmap_2|].
    unfold updateRow. by destruct (decide _).
Qed.

Lemma step_keeps_count (q : Request) env st :
  (length (rows (reviews st))
   <= length (rows (reviews (registerRoutes Date_parse q env st).1.2)))%nat.
Proof.
  pose proof (request_step Date_parse q env st) as Hstep.
  destruct Hstep as [-> | body rv n Hr -> | id body Hr Hadm -> | t -> | t ->];
    simpl; try done.
  - rewrite length_app. lia.
  - by rewrite length_fmap.
Qed.

(** X5. Reviews are never deleted or rewritten: after every sequence of
    requests there is, for a review that was stored, a stored review with
    its id, its author, its content and its creation time, and the table
    holds no fewer reviews than it did; only the status, the modified
    content and the update time of a review can change. *)
Theorem reviews_are_kept (trace : list (Env * Request)) (st : Store) :
  (forall x, x ∈ rows (reviews st) ->
     exists x',
       x' ∈ rows (reviews (serve Date_parse trace st))
       /\ r_id x' = r_id x /\ r_author x' = r_author x
       /\ r_content x' = r_content x /\ r_createdAt x' = r_createdAt x)
  /\ (length (rows (reviews st))
      <= length (rows (reviews (serve Date_parse trace st))))%nat.
Proof.
  revert st. induction trace as [|[env q] trace IH]; intros st.
  - split; [|done]. intros x Hx. by exists x.
  - simpl. destruct (IH (registerRoutes Date_parse q env st).1.2) as [IHrow IHlen]. split.
    + intros x Hx.
      destruct (step_keeps_review q env st x Hx) as (x1 & Hx1 & Hi & Ha & Hc & Ht).
      destruct (IHrow _ Hx1) as (x' & Hx' & Hi' & Ha' & Hc' & Ht').
      exists x'. repeat split; congruence.
    + pose proof (step_keeps_count q env st). lia.
Qed.

(** *** Moderating a review *)

Lemma patch_reviews_as_admin (r : Request) id body env st :
  route r = PATCH_reviews id body ->
  isAdminSession r st = true ->
  online env = true ->
  isInteger (Js.parseInt id) = true ->
  registerRoutes Date_parse r env st = patch_reviews id body env st
  /\ (registerRoutes Date_parse r env st).1.2
     = set_reviews
         {| rows := updateRow (fun r => Int (r_id r) = Js.parseInt id)
                      (Storage.setReview
                         {| ru_status := rp_status body;
                            ru_modifiedContent := rp_modifiedContent body |} (now env))
                      <$> rows (reviews st);
            serial := serial (reviews st) |} st.
Proof.
  intros Hroute Hadm Hon Hint. unfold registerRoutes, requireAdmin. rewrite Hroute, Hadm.
  split; [done|]. by rewrite patch_reviews_online.
Qed.

(** X6. An admin [PATCH /api/reviews/:id] on the id of a stored review,
    with a status in the body, is answered 200 with a review of that id;
    every review with that id then has the status of the body, the
    modified content of the body if it has one and its own otherwise, and
    the time of the request as update time; every other review is as it
    was. *)
Theorem patch_review_found (r : Request) (id : string) (body : ReviewPatchBody)
    (s : string) (env : Env) (st : Store) :
  route r = PATCH_reviews id body ->
  isAdminSession r st = true ->
  online env = true ->
  rp_status body = Some s ->
  (exists x, x ∈ rows (reviews st) /\ Int (r_id x) = Js.parseInt id) ->
  exists rv st' ops,
    registerRoutes Date_parse r env st = ({| status := 200; body := JReview rv |}, st', ops)
    /\ Int (r_id rv) = Js.parseInt id
    /\ r_status rv = s
    /\ forall k x,
         rows (reviews st) !! k = Some x ->
         exists x',
           rows (reviews st') !! k = Some x'
           /\ (Int (r_id x) <> Js.parseInt id -> x' = x)
           /\ (Int (r_id x) = Js.parseInt id ->
               r_status x' = s
               /\ r_updatedAt x' = now env
               /\ r_modifiedContent x'
                  = match rp_modifiedContent body with
                    | Some m => Some m
                    | None => r_modifiedContent x
                    end).
Proof.
  intros Hroute Hadm Hon Hs (x0 & Hin & Hid).
  assert (isInteger (Js.parseInt id) = true) as Hint by (by rewrite <- Hid).
  destruct (patch_reviews_as_admin r id body env st Hroute Hadm Hon Hint) as [-> _].
  rewrite patch_reviews_online by done.
  destruct (filter _ _) as [|rv l] eqn:Hf.
  { by destruct (filter_nil_not_elem_of _ _ x0 Hf Hid). }
  assert (rv ∈ filter (fun r => Int (r_id r) = Js.parseInt id) (rows (reviews st)))
    as [Hrv _]%list_elem_of_filter by (rewrite Hf; by left).
  simpl. eexists _, _, _. split; [reflexivity|].
  split; [done|]. split; [simpl; by rewrite Hs|].
  intros k x Hk. simpl. rewrite list_lookup_fmap, Hk. simpl.
  eexists. split; [done|]. unfold updateRow.
  destruct (decide _) as [Hm|Hm]; split; try done.
  intros _. simpl. by rewrite Hs.
Qed.

(** X7. After an admin has set the status of the reviews with some id,
    [GET /api/reviews] lists such a review exactly when the status set is
    [approved], and [GET /api/reviews/pending] lists it exactly when the
    status set is [pending]. *)
Theorem moderated_review_listing (r qa qp : Request) (id : string)
    (body : ReviewPatchBody) (s : string) (env ea ep : Env) (st : Store) :
  route r = PATCH_reviews id body ->
  isAdminSession r st = true ->
  online env = true ->
  rp_status body = Some s ->
  route qa = GET_reviews -> online ea = true ->
  route qp = GET_reviews_pending -> isAdminSession qp st = true -> online ep = true ->
  let st' := (registerRoutes Date_parse r env st).1.2 in
  exists approved pending,
    (registerRoutes Date_parse qa ea st').1.1 = {| status := 200; body := JReviews approved |}
    /\ (registerRoutes Date_parse qp ep st').1.1
       = {| status := 200; body := JReviews pending |}
    /\ forall x, x ∈ rows (reviews st') -> Int (r_id x) = Js.parseInt id ->
         (x ∈ approved <-> s = "approved") /\ (x ∈ pending <-> s = "pending").
Proof.
  intros Hroute Hadm Hon Hs Hqa Hona Hqp Hadmp Honp. simpl.
  destruct (Js.parseInt id) as [|z] eqn:Hz.
  { assert ((registerRoutes Date_parse r env st).1.2 = st) as ->.
    { unfold registerRoutes, requireAdmin. rewrite Hroute, Hadm.
      by rewrite patch_reviews_NaN. }
    unfold registerRoutes, requireAdmin. rewrite Hqa, Hqp.
    rewrite Hadmp, get_reviews_online, get_reviews_pending_online by done.
    eexists _, _. split; [reflexivity|]. split; [reflexivity|]. by intros x _ [=]. }
  rewrite <- Hz.
  assert (isInteger (Js.parseInt id) = true) as Hint by (by rewrite Hz).
  destruct (patch_reviews_as_admin r id body env st Hroute Hadm Hon Hint) as [_ ->].
  unfold registerRoutes, requireAdmin. rewrite Hqa, Hqp.
  change (isAdminSession qp (set_reviews ?t st)) with (isAdminSession qp st).
  rewrite Hadmp, get_reviews_online, get_reviews_pending_online by done.
  eexists _, _. split; [reflexivity|]. split; [reflexivity|].
  simpl. intros x Hx Hid.
  assert (r_status x = s) as Hstatus.
  { apply list_elem_of_fmap in Hx as (y & -> & Hy). unfold updateRow in *.
    destruct (decide _) as [Hm|Hm]; [simpl; by rewrite Hs | done]. }
  rewrite !list_elem_of_filter, Hstatus.
  split; (split; [by intros [? _] | by intros ->]).
Qed.

(** X8. The statistics count what the tables hold: the number of pending
    reviews is the length of the list [GET /api/reviews/pending] returns,
    and the other two are the numbers of FAQs and of galleries. *)
Theorem stats_count_rows (qs qp : Request) (es ep : Env) (st : Store) :
  route qs = GET_admin_stats -> isAdminSession qs st = true -> online es = true ->
  route qp = GET_reviews_pending -> isAdminSession qp st = true -> online ep = true ->
  exists stats pending,
    (registerRoutes Date_parse qs es st).1.1 = {| status := 200; body := JStats stats |}
    /\ (registerRoutes Date_parse qp ep st).1.1
       = {| status := 200; body := JReviews pending |}
    /\ pendingReviewsCount stats = Z.of_nat (length pending)
    /\ faqCount stats = Z.of_nat (length (rows (faqs st)))
    /\ galleryCount stats = Z.of_nat (length (rows (galleries st))).
Proof.
  intros Hqs Hadms Hons Hqp Hadmp Honp.
  unfold registerRoutes, requireAdmin. rewrite Hqs, Hqp, Hadms, Hadmp.
  rewrite get_admin_stats_online, get_reviews_pending_online by done.
  by eexists _, _.
Qed.

(** *** The availability calendar *)

(** X9. [GET /api/availability] runs one query for the dates of the
    window and then one query for the time slots of each date it returns,
    and nothing else. *)
Theorem availability_queries (r : Request) (env : Env) (st : Store) :
  route r = GET_availability ->
  online env = true ->
  exists dates,
    registerRoutes Date_parse r env st
    = ({| status := 200; body := JDates dates |}, st,
       Select availabilityDates_t
         :: replicate (length dates) (Select availabilityTimeSlots_t)).
Proof.
  intros Hroute Hon. unfold registerRoutes. rewrite Hroute.
  rewrite get_availability_online by done.
  eexists. unfold res_json. do 2 f_equal.
  rewrite length_fmap. by apply const_fmap.
Qed.

(** The entry of a stored date of the window in the answer. *)
Lemma window_entry env st d :
  d ∈ rows (availabilityDates st) ->
  now env <= d_date d <= threeMonthsAfter (now env) ->
  withSlots st d
  ∈ withSlots st
      <$> merge_sort Storage.byDate
            (filter (fun d => now env <= d_date d /\ d_date d <= threeMonthsAfter (now env))
               (rows (availabilityDates st))).
Proof.
  intros Hin Hwindow. apply list_elem_of_fmap_2.
  rewrite merge_sort_Permutation. by apply list_elem_of_filter.
Qed.

(** X10. A time slot an admin has created under a date id is shown by
    [GET /api/availability] with every stored date of that id that lies
    in the window. *)
Theorem created_slot_is_listed (r q : Request) (id : string) (body : TimeSlotPostBody)
    (dateId : Z) (startTime endTime : string) (env env' : Env) (st : Store)
    (d : AvailabilityDate) :
  route r = POST_availability_timeslots id body ->
  isAdminSession r st = true ->
  online env = true ->
  Js.parseInt id = Int dateId ->
  tp_startTime body = Some startTime ->
  tp_endTime body = Some endTime ->
  route q = GET_availability ->
  online env' = true ->
  d ∈ rows (availabilityDates st) ->
  d_id d = dateId ->
  now env' <= d_date d <= threeMonthsAfter (now env') ->
  exists s st' dates,
    (registerRoutes Date_parse r env st).1
    = ({| status := 201; body := JSlot s |}, st')
    /\ (registerRoutes Date_parse q env' st').1.1
       = {| status := 200; body := JDates dates |}
    /\ exists dw, dw ∈ dates /\ dw_date dw = d /\ s ∈ timeSlots dw.
Proof.
  intros Hroute Hadm Hon Hid Hstart Hend Hq Hon' Hin Hd Hwindow.
  unfold registerRoutes, requireAdmin. rewrite Hroute, Hadm, Hq.
  rewrite post_availability_timeslots_online by done.
  rewrite Hid, Hstart, Hend. cbv zeta. cbn [fst].
  eexists _, _, _. split; [reflexivity|].
  rewrite get_availability_online by done.
  split; [reflexivity|].
  eexists. split; [by apply window_entry|]. split; [done|].
  simpl. rewrite merge_sort_Permutation. apply list_elem_of_filter.
  split; [done|]. apply elem_of_app. right. by left.
Qed.

(** X11. A date an admin has created is shown by a later
    [GET /api/availability] exactly when it lies in the window of that
    request. *)
Theorem created_date_is_listed (r q : Request) (body : AvailabilityPostBody) (t : Z)
    (env env' : Env) (st : Store) :
  route r = POST_availability body ->
  isAdminSession r st = true ->
  online env = true ->
  newDateOf Date_parse (ap_date body) = Some t ->
  route q = GET_availability ->
  online env' = true ->
  exists d st' dates,
    (registerRoutes Date_parse r env st).1
    = ({| status := 201; body := JDate d |}, st')
    /\ d_date d = t
    /\ (registerRoutes Date_parse q env' st').1.1
       = {| status := 200; body := JDates dates |}
    /\ (d ∈ dw_date <$> dates <-> now env' <= t <= threeMonthsAfter (now env')).
Proof.
  intros Hroute Hadm Hon Ht Hq Hon'.
  unfold registerRoutes, requireAdmin. rewrite Hroute, Hadm, Hq.
  rewrite post_availability_online by done. rewrite Ht. cbv zeta. cbn [fst].
  eexists _, _, _. split; [reflexivity|]. split; [done|].
  rewrite get_availability_online by done.
  split; [reflexivity|].
  rewrite <- list_fmap_compose.
  rewrite (list_fmap_ext (dw_date ∘ withSlots _) id _) by done.
  rewrite list_fmap_id, merge_sort_Permutation, list_elem_of_filter. simpl.
  split; [by intros [? _]|]. intros Hwindow. split; [done|].
  apply elem_of_app. right. by left.
Qed.

(** X12. After an admin [PATCH /api/availability/:id] with a flag in the
    body, every date of that id [GET /api/availability] shows carries the
    flag, and the dates of other ids are shown as stored before. *)
Theorem patched_date_is_listed (r q : Request) (id : string) (b : bool)
    (env env' : Env) (st : Store) :
  route r = PATCH_availability id {| av_isAvailable := Some b |} ->
  isAdminSession r st = true ->
  online env = true ->
  route q = GET_availability ->
  online env' = true ->
  let st' := (registerRoutes Date_parse r env st).1.2 in
  exists dates,
    (registerRoutes Date_parse q env' st').1.1 = {| status := 200; body := JDates dates |}
    /\ forall dw, dw ∈ dates ->
         if decide (Int (d_id (dw_date dw)) = Js.parseInt id)
         then d_isAvailable (dw_date dw) = b
         else dw_date dw ∈ rows (availabilityDates st).
Proof.
  intros Hroute Hadm Hon Hq Hon'. simpl.
  unfold registerRoutes, requireAdmin. rewrite Hroute, Hadm, Hq.
  destruct (Js.parseInt id) as [|z] eqn:Hz.
  { rewrite patch_availability_NaN by done. cbn [fst snd].
    rewrite get_availability_online by done.
    eexists. split; [reflexivity|].
    intros dw (d & -> & Hd)%list_elem_of_fmap. simpl.
    rewrite merge_sort_Permutation in Hd.
    by apply list_elem_of_filter in Hd as [_ Hd]. }
  rewrite <- Hz.
  rewrite patch_availability_online; [|done|by rewrite Hz]. cbn [fst snd].
  rewrite get_availability_online by done.
  eexists. split; [reflexivity|].
  intros dw (d & -> & Hd)%list_elem_of_fmap. simpl.
  rewrite merge_sort_Permutation in Hd.
  apply list_elem_of_filter in Hd as [_ Hd]. simpl in Hd.
  apply list_elem_of_fmap in Hd as (d0 & -> & Hd0). unfold updateRow.
  destruct (decide (Int (d_id d0) = Js.parseInt id)) as [Hm|Hm]; simpl.
  - by rewrite decide_True.
  - by rewrite decide_False.
Qed.

(** X20. The window of [GET /api/availability] spans between 89 and 92
    days from the clock: a stored date up to 89 days ahead is always
    listed, and a date more than 92 days ahead never is. *)
Theorem window_spans_three_months (r : Request) (env : Env) (st : Store)
    (d : AvailabilityDate) :
  route r = GET_availability ->
  online env = true ->
  d ∈ rows (availabilityDates st) ->
  exists dates,
    (registerRoutes Date_parse r env st).1.1 = {| status := 200; body := JDates dates |}
    /\ (now env <= d_date d <= now env + 89 * Js.msPerDay -> d ∈ dw_date <$> dates)
    /\ (d ∈ dw_date <$> dates -> now env <= d_date d <= now env + 92 * Js.msPerDay).
Proof.
  intros Hroute Hon Hin. unfold registerRoutes. rewrite Hroute.
  rewrite get_availability_online by done.
  eexists. split; [reflexivity|].
  rewrite <- list_fmap_compose.
  rewrite (list_fmap_ext (dw_date ∘ withSlots _) id _) by done.
  rewrite list_fmap_id, merge_sort_Permutation, list_elem_of_filter.
  pose proof (window_length (now env)) as Hlen.
  split; [intros Hnear; split; [lia | done] | intros [Hwindow _]; lia].
Qed.

(** *** Ids in the path *)

Lemma digit_value (c : ascii) :
  isDecimalDigit c = true ->
  Js.digitValue c = Some (Z.of_N (N_of_ascii c) - 48)
  /\ 0 <= Z.of_N (N_of_ascii c) - 48 < 10.
Proof.
  unfold isDecimalDigit, Js.digitValue. cbv zeta. intros H. rewrite H.
  split; [done|]. apply andb_prop in H. lia.
Qed.

(** A character that is no decimal digit ends the digits of radix 10. *)
Lemma digitsPrefix_stop (t : string) (v : Z) :
  endsNumber t = true -> Js.digitsPrefix 10 t (Some v) = Some v.
Proof.
  destruct t as [|c t]; [done|]. cbn [endsNumber Js.digitsPrefix].
  intros Hc%negb_true_iff.
  unfold Js.digitValue, isDecimalDigit in *. cbv zeta in *. rewrite Hc.
  set (n := Z.of_N (N_of_ascii c)) in *.
  destruct ((97 <=? n) && (n <=? 122)) eqn:Hlower.
  { apply andb_prop in Hlower. by rewrite (proj2 (Z.ltb_ge (n - 87) 10)) by lia. }
  destruct ((65 <=? n) && (n <=? 90)) eqn:Hupper; [|done].
  apply andb_prop in Hupper. by rewrite (proj2 (Z.ltb_ge (n - 55) 10)) by lia.
Qed.

Lemma digitsPrefix_decimal (ds t : string) (acc : option Z) :
  allDecimal ds = true ->
  ds <> EmptyString ->
  endsNumber t = true ->
  Js.digitsPrefix 10 (ds ++ t)%string acc = Some (decimalValue (default 0 acc) ds).
Proof.
  revert acc. induction ds as [|c ds IH]; intros acc Hall Hne Ht; [done|].
  cbn [allDecimal] in Hall. apply andb_prop in Hall as [Hc Hds].
  destruct (digit_value c Hc) as [Hv Hrange].
  change (String c ds +:+ t) with (String c (ds +:+ t)).
  cbn [Js.digitsPrefix decimalValue]. rewrite Hv.
  rewrite (proj2 (Z.ltb_lt _ 10)) by lia.
  destruct ds as [|c' ds'].
  - change ("" +:+ t) with t. cbn [decimalValue]. by apply digitsPrefix_stop.
  - by rewrite IH.
Qed.

(** A decimal digit is neither a sign nor an [x], and starts no white
    space. *)
Lemma digit_is_plain (c : ascii) :
  isDecimalDigit c = true ->
  (forall rest, Js.trimStart (String c rest) = String c rest)
  /\ c <> "-"%char /\ c <> "+"%char /\ c <> "x"%char /\ c <> "X"%char.
Proof.
  intros Hc.
  destruct c as [[] [] [] [] [] [] [] []]; try discriminate Hc;
    (split; [|done]); intros [|c2 [|c3 rest]]; reflexivity.
Qed.

Lemma decimalValue_nonneg (ds : string) (acc : Z) :
  allDecimal ds = true -> 0 <= acc -> 0 <= decimalValue acc ds.
Proof.
  revert acc. induction ds as [|c ds IH]; intros acc Hall Hacc; [done|].
  cbn [allDecimal] in Hall. apply andb_prop in Hall as [Hc Hds].
  destruct (digit_value c Hc) as [_ Hrange].
  cbn [decimalValue]. apply IH; [done | lia].
Qed.

(** Up to [2^53] the Number value of a natural number is the number. *)
Lemma toNumber_exact (n : Z) : 0 <= n < 2 ^ 53 -> Js.toNumber n = Int n.
Proof.
  intros Hn. unfold Js.toNumber, Js.roundToDouble. cbv zeta.
  rewrite Z.abs_eq by lia.
  rewrite (proj2 (Z.ltb_lt n (2 ^ 53))) by lia.
  assert (2 ^ 53 < 2 ^ 1024) by (apply Z.pow_lt_mono_r; lia).
  rewrite (proj2 (Z.ltb_lt n (2 ^ 1024))) by lia.
  f_equal. destruct (Z.eq_dec n 0) as [->|]; [done|].
  rewrite Z.sgn_pos by lia. lia.
Qed.

Lemma parseInt_decimal (ds t : string) :
  allDecimal ds = true ->
  ds <> EmptyString ->
  endsNumber t = true ->
  (ds = "0" -> startsWithX t = false) ->
  Js.parseInt (ds +:+ t) = Js.toNumber (decimalValue 0 ds).
Proof.
  intros Hall Hne Ht Hx.
  pose proof (digitsPrefix_decimal ds t None Hall Hne Ht) as Hdigits.
  destruct ds as [|c ds]; [done|].
  cbn [allDecimal] in Hall. apply andb_prop in Hall as [Hc Hds].
  destruct (digit_is_plain c Hc) as (Hws & Hminus & Hplus & _).
  change (String c ds +:+ t) with (String c (ds +:+ t)) in *.
  unfold Js.parseInt. rewrite Hws. cbv zeta.
  assert (match String c (ds +:+ t) with
          | String "-"%char rest => (-1, rest)
          | String "+"%char rest => (1, rest)
          | _ => (1, String c (ds +:+ t))
          end = (1, String c (ds +:+ t))) as ->.
  { destruct c as [[] [] [] [] [] [] [] []]; try done. }
  assert (match String c (ds +:+ t) with
          | String "0"%char (String "x"%char rest) => (16, rest)
          | String "0"%char (String "X"%char rest) => (16, rest)
          | _ => (10, String c (ds +:+ t))
          end = (10, String c (ds +:+ t))) as ->.
  { destruct (ds +:+ t) as [|c2 rest] eqn:Hrest; [by destruct c as [[] [] [] [] [] [] [] []]|].
    assert (c = "0"%char -> c2 <> "x"%char /\ c2 <> "X"%char) as Hc2.
    { intros ->. destruct ds as [|c' ds'].
      - change ("" +:+ t) with t in Hrest. subst t. specialize (Hx eq_refl).
        cbn [startsWithX] in Hx. apply bool_decide_eq_false in Hx. tauto.
      - change (String c' ds' +:+ t) with (String c' (ds' +:+ t)) in Hrest.
        injection Hrest as <- _. cbn [allDecimal] in Hds.
        apply andb_prop in Hds as [Hc' _].
        destruct (digit_is_plain c' Hc') as (_ & _ & _ & ? & ?). done. }
    destruct (decide (c = "0"%char)) as [->|Hc0].
    - destruct (Hc2 eq_refl) as [Hx1 Hx2].
      destruct c2 as [[] [] [] [] [] [] [] []]; done.
    - destruct c as [[] [] [] [] [] [] [] []]; done. }
  rewrite Hdigits. by rewrite Z.mul_1_l.
Qed.

Lemma append_empty (s : string) : s +:+ "" = s.
Proof.
  induction s as [|c s IH]; [done|].
  change (String c s +:+ "") with (String c (s +:+ "")). by rewrite IH.
Qed.

(** The routes read their id through [parseInt] only. *)
Lemma same_number_same_answer (mk : string -> Route) (id1 id2 : string)
    (c : option string) env st :
  idRoute mk ->
  Js.parseInt id1 = Js.parseInt id2 ->
  registerRoutes Date_parse {| cookie := c; route := mk id1 |} env st
  = registerRoutes Date_parse {| cookie := c; route := mk id2 |} env st.
Proof.
  intros Hmk Hsame. unfold registerRoutes, requireAdmin, isAdminSession.
  destruct Hmk; cbn [route cookie];
    unfold patch_reviews, patch_availability, post_availability_timeslots,
      patch_availability_timeslots;
    by rewrite Hsame.
Qed.

(** X21. An id that is a decimal number followed by anything that does
    not start with a digit is read as the number alone is ([0x], which
    announces a hexadecimal number, apart), and a number below [2^53] is
    read exactly: the routes that take an id answer [12abc] as they answer
    [12]. *)
Theorem id_suffix_is_ignored (mk : string -> Route) (ds t : string)
    (c : option string) (env : Env) (st : Store) :
  idRoute mk ->
  allDecimal ds = true ->
  ds <> "" ->
  endsNumber t = true ->
  (ds = "0" -> startsWithX t = false) ->
  Js.parseInt (ds +:+ t) = Js.parseInt ds
  /\ (decimalValue 0 ds < 2 ^ 53 -> Js.parseInt (ds +:+ t) = Int (decimalValue 0 ds))
  /\ registerRoutes Date_parse {| cookie := c; route := mk (ds +:+ t) |} env st
     = registerRoutes Date_parse {| cookie := c; route := mk ds |} env st.
Proof.
  intros Hmk Hall Hne Ht Hx.
  pose proof (parseInt_decimal ds t Hall Hne Ht Hx) as Hparse.
  pose proof (parseInt_decimal ds "" Hall Hne eq_refl (fun _ => eq_refl)) as Hplain.
  rewrite append_empty in Hplain.
  split; [congruence|]. split.
  - intros Hsmall. rewrite Hparse. apply toNumber_exact.
    split; [by apply decimalValue_nonneg | done].
  - apply same_number_same_answer; [done | congruence].
Qed.

End RouterProperties.

(** ** Properties of the users, FAQs and admin log methods *)

#[global] Instance byFaqOrder_total : Total Content.byFaqOrder.
Proof. intros a b. unfold Content.byFaqOrder. lia. Qed.
#[global] Instance byFaqOrder_trans : Transitive Content.byFaqOrder.
Proof. intros a b c. unfold Content.byFaqOrder. lia. Qed.
#[global] Instance byCategoryOrder_total : Total Content.byCategoryOrder.
Proof. intros a b. unfold Content.byCategoryOrder. lia. Qed.
#[global] Instance byCategoryOrder_trans : Transitive Content.byCategoryOrder.
Proof. intros a b c. unfold Content.byCategoryOrder. lia. Qed.
#[global] Instance byCreatedAt_total : Total Content.byCreatedAt.
Proof. intros a b. unfold Content.byCreatedAt. lia. Qed.
#[global] Instance byCreatedAt_trans : Transitive Content.byCreatedAt.
Proof. intros a b c. unfold Content.byCreatedAt. lia. Qed.

Lemma q_select_online {R B} (from : Database -> Table R) params (q : list R -> B) env db :
  online env = true ->
  accepted params = true ->
  q_select from params q env db = (Resolved (q (rows (from db))), db).
Proof. intros Hon Hok. unfold q_select. by rewrite Hon, Hok. Qed.

(** The parameter a truthy number adds is an integer. *)
Lemma accepted_whereParam n : accepted (whereParam n) = true.
Proof. unfold whereParam. by destruct n as [[|z]|]; simpl; try destruct (negb _). Qed.

Lemma filter_by_key {R} (key : R -> Z) (z : Z) (l : list R) :
  filter (fun r => Some (Int (key r)) = Some (Int z)) l = filter (fun r => key r = z) l.
Proof. apply list_filter_iff. intros r. split; [by intros [= ->] | by intros ->]. Qed.

Lemma getFaqs_online c env db :
  online env = true ->
  Content.getFaqs c env db
  = (Resolved (merge_sort Content.byFaqOrder
                 (if truthy c
                  then filter (fun f => Some (Int (f_categoryId f)) = c)
                         (rows (Content.faqsOf db))
                  else rows (Content.faqsOf db))),
     db).
Proof.
  intros Hon. unfold Content.getFaqs.
  by rewrite q_select_online by (done || apply accepted_whereParam).
Qed.

(** X13. [getFaqs] returns the FAQs in ascending [order]: those of the
    category asked for when its id is a number other than 0, and all of
    them when it is left out, 0 or NaN, so category 0 cannot be asked
    for. *)
Theorem getFaqs_listing (categoryId : option JsNumber) (env : Env) (db : Database) :
  online env = true ->
  exists listed,
    Content.getFaqs categoryId env db = (Resolved listed, db)
    /\ StronglySorted Content.byFaqOrder listed
    /\ listed
       ≡ₚ match categoryId with
          | Some (Int z) =>
              if decide (z = 0) then rows (Content.faqsOf db)
              else filter (fun f => f_categoryId f = z) (rows (Content.faqsOf db))
          | Some NaN | None => rows (Content.faqsOf db)
          end.
Proof.
  intros Hon. rewrite getFaqs_online by done.
  eexists. split; [reflexivity|].
  split; [apply StronglySorted_merge_sort; apply _|].
  rewrite merge_sort_Permutation.
  destruct categoryId as [[|z]|]; simpl; try done.
  destruct (decide (z = 0)) as [->|Hz]; [done|].
  rewrite (proj2 (Z.eqb_neq z 0) Hz). simpl. by rewrite filter_by_key.
Qed.

(** X14. [getAdminLogs] returns the log entries in ascending creation
    time: those of the admin asked for when the id is a number other than
    0, and all of them when it is left out, 0 or NaN. *)
Theorem getAdminLogs_listing (adminId : option JsNumber) (env : Env) (db : Database) :
  online env = true ->
  exists listed,
    Content.getAdminLogs adminId env db = (Resolved listed, db)
    /\ StronglySorted Content.byCreatedAt listed
    /\ listed
       ≡ₚ match adminId with
          | Some (Int z) =>
              if decide (z = 0) then rows (adminLogs db)
              else filter (fun a => l_adminId a = z) (rows (adminLogs db))
          | Some NaN | None => rows (adminLogs db)
          end.
Proof.
  intros Hon. unfold Content.getAdminLogs.
  rewrite q_select_online by (done || apply accepted_whereParam).
  eexists. split; [reflexivity|].
  split; [apply StronglySorted_merge_sort; apply _|].
  rewrite merge_sort_Permutation.
  destruct adminId as [[|z]|]; simpl; try done.
  destruct (decide (z = 0)) as [->|Hz]; [done|].
  rewrite (proj2 (Z.eqb_neq z 0) Hz). simpl. by rewrite filter_by_key.
Qed.

Lemma q_insert_online {R} (from : Database -> Table R) into values env db :
  online env = true ->
  q_insert from into values env db
  = (Resolved [values (now env) (serial (from db))],
     into {| rows := (rows (from db) ++ [values (now env) (serial (from db))])%list;
             serial := serial (from db) + 1 |} db).
Proof. intros Hon. unfold q_insert. by rewrite Hon. Qed.

Lemma q_delete_online {R} (from : Database -> Table R) into params
    (wh : R -> Prop) `{!forall r, Decision (wh r)} env db :
  online env = true ->
  accepted params = true ->
  q_delete from into params wh env db
  = (Resolved tt,
     into {| rows := filter (fun r => ~ wh r) (rows (from db)); serial := serial (from db) |}
       db).
Proof. intros Hon Hok. unfold q_delete. by rewrite Hon, Hok. Qed.

(** A delete that resolves was in reach of the store and had parameters
    the store accepts. *)
Lemma q_delete_resolved {R} (from : Database -> Table R) into params
    (wh : R -> Prop) `{!forall r, Decision (wh r)} env db u db' :
  q_delete from into params wh env db = (Resolved u, db') ->
  online env = true /\ accepted params = true.
Proof. unfold q_delete. by destruct (online env), (accepted params). Qed.

Lemma intoFaqs_same db : Content.intoFaqs (Content.faqsOf db) db = db.
Proof. by destruct db as [[] ? ?]. Qed.

Lemma filter_all {R} (P : R -> Prop) `{!forall r, Decision (P r)} (l : list R) :
  (forall r, r ∈ l -> P r) -> filter P l = l.
Proof.
  induction l as [|x l IH]; intros Hall; [done|].
  rewrite filter_cons_True by (apply Hall; by left).
  rewrite IH; [done|]. intros r Hr. apply Hall. by right.
Qed.

(** X15. A category [createFaqCategory] has created has the name and the
    order given, and the list [getFaqCategories] returns next holds it
    along with the categories there were, in ascending [order]. *)
Theorem created_category_is_listed (category : InsertFaqCategory) (env env' : Env)
    (db db' : Database) (c : FaqCategory) :
  Content.createFaqCategory category env db = (Resolved (Some c), db') ->
  online env' = true ->
  c_name c = ic_name category
  /\ c_order c = ic_order category
  /\ exists listed,
       Content.getFaqCategories env' db' = (Resolved listed, db')
       /\ listed ≡ₚ c :: rows (faqCategories db)
       /\ StronglySorted Content.byCategoryOrder listed.
Proof.
  unfold Content.createFaqCategory, q_await, q_insert, q_resolve.
  destruct (online env); [|done]. simpl. intros [= <- <-] Hon'.
  split; [done|]. split; [done|].
  unfold Content.getFaqCategories. rewrite q_select_online by done.
  eexists. split; [reflexivity|]. simpl. split.
  - rewrite merge_sort_Permutation. by rewrite Permutation_app_comm.
  - apply StronglySorted_merge_sort; apply _.
Qed.

(** X16. A FAQ [createFaq] has created has the values given and is in
    the list [getFaqs] returns for its category; [GET /api/admin/stats]
    counts one FAQ more than before, the other counts being the same. *)
Theorem created_faq_is_counted (Date_parse : string -> option Z) (faq : InsertFaq)
    (q : Request) (env e1 e2 : Env) (db db' : Database) (f : Faq) :
  Content.createFaq faq env db = (Resolved (Some f), db') ->
  online e1 = true ->
  route q = GET_admin_stats ->
  isAdminSession q (core db) = true ->
  online e2 = true ->
  f_categoryId f = if_categoryId faq
  /\ f_question f = if_question faq
  /\ f_answer f = if_answer faq
  /\ f_order f = if_order faq
  /\ exists listed stats stats',
       Content.getFaqs (Some (Int (if_categoryId faq))) e1 db' = (Resolved listed, db')
       /\ f ∈ listed
       /\ (registerRoutes Date_parse q e2 (core db)).1.1
          = {| status := 200; body := JStats stats |}
       /\ (registerRoutes Date_parse q e2 (core db')).1.1
          = {| status := 200; body := JStats stats' |}
       /\ faqCount stats' = faqCount stats + 1
       /\ galleryCount stats' = galleryCount stats
       /\ pendingReviewsCount stats' = pendingReviewsCount stats.
Proof.
  unfold Content.createFaq, q_await, q_insert, q_resolve.
  destruct (online env); [|done]. simpl. intros [= <- <-] Hon1 Hq Hadm Hon2.
  do 4 (split; [done|]).
  eexists _, _, _. rewrite getFaqs_online by done. split; [reflexivity|]. split.
  - rewrite merge_sort_Permutation. simpl.
    destruct (negb _); [apply list_elem_of_filter; split; [done|]|];
      apply elem_of_app; right; by left.
  - unfold registerRoutes, requireAdmin. rewrite Hq.
    change (isAdminSession q (core (Content.intoFaqs ?t db))) with (isAdminSession q (core db)).
    rewrite Hadm, !get_admin_stats_online by done.
    split; [reflexivity|]. split; [reflexivity|]. simpl.
    rewrite length_app. unfold Content.faqsOf. simpl. split; [lia | done].
Qed.

(** X17. With the store in reach [deleteFaq] goes through for every id of
    the store's integer range, and is rejected, nothing being changed, for
    an id that is NaN.  Whenever it goes through, the list [getFaqs]
    returns next holds exactly the FAQs there were whose id is another, in
    ascending [order]; the categories and the admin log are untouched, and
    deleting an id no FAQ has changes nothing. *)
Theorem deleted_faq_is_gone (id : JsNumber) (env env' : Env) (db : Database) :
  online env = true ->
  online env' = true ->
  (forall z, id = Int z -> int4 z ->
     exists db', Content.deleteFaq id env db = (Resolved tt, db'))
  /\ (id = NaN -> exists e, Content.deleteFaq id env db = (Rejected e, db))
  /\ forall db',
       Content.deleteFaq id env db = (Resolved tt, db') ->
       exists listed,
         Content.getFaqs None env' db' = (Resolved listed, db')
         /\ (forall f, f ∈ listed <-> f ∈ rows (Content.faqsOf db) /\ Int (f_id f) <> id)
         /\ StronglySorted Content.byFaqOrder listed
         /\ faqCategories db' = faqCategories db
         /\ adminLogs db' = adminLogs db
         /\ ((forall f, f ∈ rows (Content.faqsOf db) -> Int (f_id f) <> id) -> db' = db).
Proof.
  intros Hon Hon'. unfold Content.deleteFaq, q_await. split; [|split].
  - intros z -> _. rewrite q_delete_online by done. by eexists.
  - intros ->. unfold q_delete. rewrite Hon. simpl. by eexists.
  - destruct id as [|z].
    { unfold q_delete. rewrite Hon. simpl. by intros db' [=]. }
    rewrite q_delete_online by done. unfold q_resolve. intros db' [= <-].
    rewrite getFaqs_online by done. eexists. split; [reflexivity|]. simpl.
    split; [|split; [|split; [done|split; [done|]]]].
    + intros f. rewrite merge_sort_Permutation, list_elem_of_filter. tauto.
    + apply StronglySorted_merge_sort; apply _.
    + intros Hno. rewrite (filter_all _ _ Hno), table_eta. apply intoFaqs_same.
Qed.

Lemma q_update_online {R} (from : Database -> Table R) into params
    (wh : R -> Prop) `{!forall r, Decision (wh r)} (f : R -> R) env db :
  online env = true ->
  accepted params = true ->
  q_update from into params wh (Some f) env db
  = (Resolved (f <$> filter wh (rows (from db))),
     into {| rows := updateRow wh f <$> rows (from db); serial := serial (from db) |} db).
Proof. intros Hon Hok. unfold q_update. by rewrite Hon, Hok. Qed.

(** The update a partial FAQ that names a column stands for. *)
Lemma setFaq_named (faq : PartialFaq) (set : Faq -> Faq) (f : Faq) :
  Content.setFaq faq = Some set ->
  set f = {| f_id := default (f_id f) (pf_id faq);
             f_categoryId := default (f_categoryId f) (pf_categoryId faq);
             f_question := default (f_question f) (pf_question faq);
             f_answer := default (f_answer f) (pf_answer faq);
             f_order := default (f_order f) (pf_order faq) |}.
Proof.
  unfold Content.setFaq.
  destruct (pf_id faq), (pf_categoryId faq), (pf_question faq), (pf_answer faq),
    (pf_order faq); intros [= <-]; reflexivity.
Qed.

(** X18. [updateFaq] with an object that names at least one column: when
    the id is a number of the store's integer range that no FAQ has, the
    result is [undefined], not an error, and nothing has changed; when the
    id is NaN the store rejects the update and nothing has changed; and
    whenever the update goes through, in every FAQ of the id the named
    columns have the values given and the others theirs, every other FAQ
    is as it was, and the result is an updated FAQ if there is one. *)
Theorem updateFaq_partial (id : JsNumber) (faq : PartialFaq) (env : Env) (db : Database) :
  online env = true ->
  is_Some (Content.setFaq faq) ->
  (forall z, id = Int z -> int4 z ->
     (forall f, f ∈ rows (Content.faqsOf db) -> f_id f <> z) ->
     Content.updateFaq id faq env db = (Resolved None, db))
  /\ (id = NaN -> exists e, Content.updateFaq id faq env db = (Rejected e, db))
  /\ forall result db',
       Content.updateFaq id faq env db = (Resolved result, db') ->
       (forall k f,
          rows (Content.faqsOf db) !! k = Some f ->
          exists f',
            rows (Content.faqsOf db') !! k = Some f'
            /\ (Int (f_id f) <> id -> f' = f)
            /\ (Int (f_id f) = id ->
                f_id f' = default (f_id f) (pf_id faq)
                /\ f_categoryId f' = default (f_categoryId f) (pf_categoryId faq)
                /\ f_question f' = default (f_question f) (pf_question faq)
                /\ f_answer f' = default (f_answer f) (pf_answer faq)
                /\ f_order f' = default (f_order f) (pf_order faq)))
       /\ ((exists f, f ∈ rows (Content.faqsOf db) /\ Int (f_id f) = id) ->
           is_Some result).
Proof.
  intros Hon [set Hset]. unfold Content.updateFaq, q_await. rewrite Hset.
  split; [|split].
  - intros z -> _ Hno. rewrite q_update_online by done. unfold q_resolve.
    destruct (update_misses (fun f => Int (f_id f) = Int z) set (Content.faqsOf db))
      as [-> ->].
    { intros f Hin [= Heq]. by apply (Hno f). }
    by rewrite intoFaqs_same.
  - intros ->. unfold q_update. rewrite Hon. simpl. by eexists.
  - destruct id as [|z].
    { unfold q_update. rewrite Hon. simpl. by intros result db' [=]. }
    rewrite q_update_online by done. unfold q_resolve.
    intros result db' [= <- <-]. split.
    + intros k f Hk. simpl. rewrite list_lookup_fmap, Hk. simpl.
      eexists. split; [done|]. unfold updateRow.
      destruct (decide _) as [Hm|Hm]; split; try done.
      intros _. by rewrite (setFaq_named faq set f Hset).
    + intros (f & Hin & Hid).
      destruct (filter _ _) as [|f0 l] eqn:Hf; [|by eexists].
      by destruct (filter_nil_not_elem_of _ _ f Hf Hid).
Qed.

Lemma intoUsers_same db : Content.intoUsers (Content.usersOf db) db = db.
Proof. by destruct db as [[] ? ?]. Qed.

(** X19. [getUserByUsername] finds no user under a name no user has; once
    [createUser] has created a user under that name, it finds that user,
    with the name and the password given, and [getUser] finds a user
    under the id of the new one. *)
Theorem created_user_is_found (insertUser : InsertUser) (env e0 e1 : Env)
    (db db' : Database) (u : User) :
  Content.createUser insertUser env db = (Resolved (Some u), db') ->
  online e0 = true ->
  online e1 = true ->
  (forall v, v ∈ rows (Content.usersOf db) -> u_username v <> iu_username insertUser) ->
  Content.getUserByUsername (iu_username insertUser) e0 db = (Resolved None, db)
  /\ u_username u = iu_username insertUser
  /\ u_password u = iu_password insertUser
  /\ Content.getUserByUsername (iu_username insertUser) e1 db' = (Resolved (Some u), db')
  /\ exists v, Content.getUser (Int (u_id u)) e1 db' = (Resolved (Some v), db')
               /\ u_id v = u_id u.
Proof.
  unfold Content.createUser, q_await, q_insert, q_resolve.
  destruct (online env); [|done]. simpl. intros [= <- <-] Hon0 Hon1 Hfresh.
  unfold Content.getUserByUsername, Content.getUser, q_await.
  rewrite !q_select_online by done. unfold q_resolve.
  assert (filter (fun u => u_username u = iu_username insertUser)
            (rows (Content.usersOf db)) = []) as Hnone.
  { destruct (filter _ _) as [|v l] eqn:Hf; [done|]. exfalso.
    assert (v ∈ filter (fun u => u_username u = iu_username insertUser)
                  (rows (Content.usersOf db)))
      as [Hname Hv]%list_elem_of_filter by (rewrite Hf; by left).
    by apply (Hfresh v). }
  rewrite Hnone. split; [reflexivity|]. split; [done|]. split; [done|].
  unfold Content.usersOf in *. simpl.
  rewrite filter_app, Hnone. simpl.
  rewrite filter_cons_True by done. split; [done|].
  match goal with
  | |- context [head (filter ?P ?l)] => destruct (filter P l) as [|v l'] eqn:Hf
  end.
  - exfalso. eapply (filter_nil_not_elem_of _ _ _ Hf);
      [|apply elem_of_app; right; apply list_elem_of_here]. done.
  - exists v. split; [done|].
    assert (v ∈ v :: l') as Hv by apply list_elem_of_here.
    rewrite <- Hf in Hv. apply list_elem_of_filter in Hv as [Hv _]. by injection Hv.
Qed.

(** X22. An entry [createAdminLog] has created has the admin and the
    action given and is appended to the log, whose earlier entries stay as
    they are; [getAdminLogs] lists it for its admin. *)
Theorem logged_action_is_listed (log : InsertAdminLog) (env e1 : Env)
    (db db' : Database) (a : AdminLog) :
  Content.createAdminLog log env db = (Resolved (Some a), db') ->
  online e1 = true ->
  l_adminId a = il_adminId log
  /\ l_action a = il_action log
  /\ rows (adminLogs db') = (rows (adminLogs db) ++ [a])%list
  /\ exists listed,
       Content.getAdminLogs (Some (Int (il_adminId log))) e1 db' = (Resolved listed, db')
       /\ a ∈ listed.
Proof.
  unfold Content.createAdminLog, q_await, q_insert, q_resolve.
  destruct (online env); [|done]. simpl. intros [= <- <-] Hon1.
  do 3 (split; [done|]).
  unfold Content.getAdminLogs.
  rewrite q_select_online by (done || apply accepted_whereParam).
  eexists. split; [reflexivity|].
  rewrite merge_sort_Permutation. simpl.
  destruct (negb _); [apply list_elem_of_filter; split; [done|]|];
    apply elem_of_app; right; by left.
Qed.

(** X23. Whenever [deleteFaqCategory] goes through, the list
    [getFaqCategories] returns next holds exactly the categories there
    were whose id is another, in ascending [order]. *)
Theorem deleted_category_is_gone (id : JsNumber) (env env' : Env) (db db' : Database) :
  Content.deleteFaqCategory id env db = (Resolved tt, db') ->
  online env' = true ->
  exists listed,
    Content.getFaqCategories env' db' = (Resolved listed, db')
    /\ (forall c, c ∈ listed <-> c ∈ rows (faqCategories db) /\ Int (c_id c) <> id)
    /\ StronglySorted Content.byCategoryOrder listed.
Proof.
  unfold Content.deleteFaqCategory, q_await, q_delete, q_resolve.
  destruct (online env); [|done]. destruct (accepted [id]); [|done].
  intros [= <-] Hon'.
  unfold Content.getFaqCategories. rewrite q_select_online by done.
  eexists. split; [reflexivity|]. simpl. split.
  - intros c. rewrite merge_sort_Permutation, list_elem_of_filter. tauto.
  - apply StronglySorted_merge_sort; apply _.
Qed.

Lemma setFaqCategory_named (category : PartialFaqCategory)
    (set : FaqCategory -> FaqCategory) (c : FaqCategory) :
  Content.setFaqCategory category = Some set ->
  set c = {| c_id := default (c_id c) (pc_id category);
             c_name := default (c_name c) (pc_name category);
             c_order := default (c_order c) (pc_order category) |}.
Proof.
  unfold Content.setFaqCategory.
  destruct (pc_id category), (pc_name category), (pc_order category);
    intros [= <-]; reflexivity.
Qed.

(** X24. Whenever [updateFaqCategory] goes through, in every category of
    the id the named columns have the values given and the others theirs,
    and every other category is as it was; the result is [undefined]
    exactly when no category has the id. *)
Theorem updateFaqCategory_partial (id : JsNumber) (category : PartialFaqCategory)
    (env : Env) (db db' : Database) (result : option FaqCategory) :
  Content.updateFaqCategory id category env db = (Resolved result, db') ->
  (forall k c,
     rows (faqCategories db) !! k = Some c ->
     exists c',
       rows (faqCategories db') !! k = Some c'
       /\ (Int (c_id c) <> id -> c' = c)
       /\ (Int (c_id c) = id ->
           c_id c' = default (c_id c) (pc_id category)
           /\ c_name c' = default (c_name c) (pc_name category)
           /\ c_order c' = default (c_order c) (pc_order category)))
  /\ (result = None <-> forall c, c ∈ rows (faqCategories db) -> Int (c_id c) <> id).
Proof.
  unfold Content.updateFaqCategory, q_await, q_update, q_resolve.
  destruct (Content.setFaqCategory category) as [set|] eqn:Hset; [|done].
  destruct (online env); [|done]. destruct (accepted [id]); [|done].
  intros [= <- <-]. split.
  - intros k c Hk. simpl. rewrite list_lookup_fmap, Hk. simpl.
    eexists. split; [done|]. unfold updateRow.
    destruct (decide _) as [Hm|Hm]; split; try done.
    intros _. by rewrite (setFaqCategory_named category set c Hset).
  - split.
    + intros Hnone c Hin Hid.
      destruct (filter (fun c => Int (c_id c) = id) (rows (faqCategories db)))
        as [|c0 l] eqn:Hf; [|done].
      by destruct (filter_nil_not_elem_of _ _ c Hf Hid).
    + intros Hno.
      by destruct (update_misses (fun c => Int (c_id c) = id) set (faqCategories db) Hno)
        as [-> _].
Qed.

(** ** The further properties on the example store *)

Lemma server_error_iff_unreachable_witness :
  reachesHandler (asAdmin (PATCH_reviews "abc" approve)) demoStore = true
  /\ Js.parseInt "abc" = NaN
  /\ (exists msg,
        registerRoutes isoDate (asAdmin (PATCH_reviews "abc" approve))
          {| now := june1; online := false |} demoStore
        = ({| status := 500; body := JError msg |}, demoStore, []))
  /\ (exists msg,
        registerRoutes isoDate (asAdmin (PATCH_reviews "abc" approve)) (at_ june1) demoStore
        = ({| status := 500; body := JError msg |}, demoStore, [])).
Proof.
  split; [reflexivity|]. split; [reflexivity|]. split.
  - apply (server_error_iff_unreachable isoDate (asAdmin (PATCH_reviews "abc" approve))
             {| now := june1; online := false |} demoStore eq_refl).
    reflexivity.
  - apply (proj2 (proj2 (server_error_iff_unreachable isoDate
                           (asAdmin (PATCH_reviews "abc" approve)) (at_ june1) demoStore
                           eq_refl))
             (fun id => PATCH_reviews id approve) "abc");
      [apply id_patch_reviews | reflexivity | reflexivity].
Defined.

Lemma get_is_read_only_witness :
  (registerRoutes isoDate (asAdmin GET_admin_stats) (at_ june1) demoStore).1.2 = demoStore.
Proof. apply get_is_read_only. reflexivity. Defined.

Lemma reviews_are_kept_witness :
  exists x',
    x' ∈ rows (reviews (serve isoDate
                          [ (at_ june1, asAdmin (PATCH_reviews "2" approve));
                            (at_ (june1 + 1),
                             anonymous (POST_reviews (reviewOf "Elena" "Brava" None))) ]
                          demoStore))
    /\ r_id x' = 2 /\ r_author x' = "Bruno" /\ r_content x' = "Ok" /\ r_createdAt x' = 30.
Proof.
  apply (proj1 (reviews_are_kept isoDate _ demoStore)
           {| r_id := 2; r_author := "Bruno"; r_content := "Ok";
              r_modifiedContent := None; r_status := "pending";
              r_createdAt := 30; r_updatedAt := 30 |}).
  apply list_elem_of_further, list_elem_of_here.
Defined.

Lemma patch_review_found_witness :
  exists rv,
    (registerRoutes isoDate (asAdmin (PATCH_reviews "2" approve)) (at_ june1) demoStore).1.1
    = {| status := 200; body := JReview rv |}
    /\ r_status rv = "approved".
Proof.
  destruct (patch_review_found isoDate (asAdmin (PATCH_reviews "2" approve)) "2" approve
              "approved" (at_ june1) demoStore eq_refl eq_refl eq_refl eq_refl)
    as (rv & st' & ops & Hres & _ & Hstatus & _).
  - eexists. split.
    + apply list_elem_of_further, list_elem_of_here.
    + reflexivity.
  - exists rv. by rewrite Hres.
Defined.

Lemma moderated_review_listing_witness :
  let st' := (registerRoutes isoDate (asAdmin (PATCH_reviews "2" approve)) (at_ june1)
                demoStore).1.2 in
  exists approved pending,
    (registerRoutes isoDate (anonymous GET_reviews) (at_ (june1 + 1)) st').1.1
    = {| status := 200; body := JReviews approved |}
    /\ (registerRoutes isoDate (asAdmin GET_reviews_pending) (at_ (june1 + 2)) st').1.1
       = {| status := 200; body := JReviews pending |}
    /\ forall x, x ∈ rows (reviews st') -> Int (r_id x) = Js.parseInt "2" ->
         (x ∈ approved <-> "approved" = "approved") /\ (x ∈ pending <-> "approved" = "pending").
Proof.
  apply (moderated_review_listing isoDate (asAdmin (PATCH_reviews "2" approve))
           (anonymous GET_reviews) (asAdmin GET_reviews_pending) "2" approve "approved"
           (at_ june1) (at_ (june1 + 1)) (at_ (june1 + 2)) demoStore); reflexivity.
Defined.

Lemma stats_count_rows_witness :
  exists stats pending,
    (registerRoutes isoDate (asAdmin GET_admin_stats) (at_ june1) demoStore).1.1
    = {| status := 200; body := JStats stats |}
    /\ (registerRoutes isoDate (asAdmin GET_reviews_pending) (at_ june1) demoStore).1.1
       = {| status := 200; body := JReviews pending |}
    /\ pendingReviewsCount stats = Z.of_nat (length pending)
    /\ faqCount stats = Z.of_nat (length (rows (faqs demoStore)))
    /\ galleryCount stats = Z.of_nat (length (rows (galleries demoStore))).
Proof.
  apply (stats_count_rows isoDate (asAdmin GET_admin_stats) (asAdmin GET_reviews_pending)
           (at_ june1) (at_ june1) demoStore); reflexivity.
Defined.

Lemma availability_queries_witness :
  exists dates,
    registerRoutes isoDate (anonymous GET_availability) (at_ june1) demoStore
    = ({| status := 200; body := JDates dates |}, demoStore,
       Select availabilityDates_t
         :: replicate (length dates) (Select availabilityTimeSlots_t)).
Proof.
  apply (availability_queries isoDate (anonymous GET_availability) (at_ june1) demoStore);
    reflexivity.
Defined.

Lemma created_slot_is_listed_witness :
  exists s st' dates,
    (registerRoutes isoDate (asAdmin (POST_availability_timeslots "3" morning)) (at_ june1)
       demoStore).1
    = ({| status := 201; body := JSlot s |}, st')
    /\ (registerRoutes isoDate (anonymous GET_availability) (at_ (june1 + 1)) st').1.1
       = {| status := 200; body := JDates dates |}
    /\ exists dw, dw ∈ dates /\ d_id (dw_date dw) = 3 /\ s ∈ timeSlots dw.
Proof.
  destruct (created_slot_is_listed isoDate
              (asAdmin (POST_availability_timeslots "3" morning))
              (anonymous GET_availability) "3" morning 3 "08:00" "09:00"
              (at_ june1) (at_ (june1 + 1)) demoStore
              {| d_id := 3; d_date := june1 + 2 * day; d_isAvailable := false;
                 d_createdAt := 0; d_updatedAt := 0 |})
    as (s & st' & dates & Hpost & Hget & dw & Hdw & Hdate & Hs); try reflexivity.
  - do 2 apply list_elem_of_further. apply list_elem_of_here.
  - vm_compute. split; discriminate.
  - exists s, st', dates. split; [done|]. split; [done|].
    exists dw. split; [done|]. split; [by rewrite Hdate | done].
Defined.

Lemma created_date_is_listed_witness :
  exists d st' dates,
    (registerRoutes isoDate
       (asAdmin (POST_availability
                   {| ap_date := Some (DateString "2025-06-01"); ap_isAvailable := None |}))
       (at_ (june1 - day)) demoStore).1
    = ({| status := 201; body := JDate d |}, st')
    /\ d_date d = june1
    /\ (registerRoutes isoDate (anonymous GET_availability) (at_ (june1 - day + 1)) st').1.1
       = {| status := 200; body := JDates dates |}
    /\ (d ∈ dw_date <$> dates
        <-> june1 - day + 1 <= june1 <= threeMonthsAfter (june1 - day + 1)).
Proof.
  apply (created_date_is_listed isoDate
           (asAdmin (POST_availability
                       {| ap_date := Some (DateString "2025-06-01");
                          ap_isAvailable := None |}))
           (anonymous GET_availability)
           {| ap_date := Some (DateString "2025-06-01"); ap_isAvailable := None |}
           june1 (at_ (june1 - day)) (at_ (june1 - day + 1)) demoStore); reflexivity.
Defined.

Lemma patched_date_is_listed_witness :
  let st' := (registerRoutes isoDate (asAdmin (PATCH_availability "3" (setAvailable true)))
                (at_ june1) demoStore).1.2 in
  exists dates,
    (registerRoutes isoDate (anonymous GET_availability) (at_ (june1 + 1)) st').1.1
    = {| status := 200; body := JDates dates |}
    /\ forall dw, dw ∈ dates ->
         if decide (Int (d_id (dw_date dw)) = Js.parseInt "3")
         then d_isAvailable (dw_date dw) = true
         else dw_date dw ∈ rows (availabilityDates demoStore).
Proof.
  apply (patched_date_is_listed isoDate (asAdmin (PATCH_availability "3" (setAvailable true)))
           (anonymous GET_availability) "3" true (at_ june1) (at_ (june1 + 1)) demoStore);
    reflexivity.
Defined.

Lemma window_spans_three_months_witness :
  exists dates,
    (registerRoutes isoDate (anonymous GET_availability) (at_ june1) demoStore).1.1
    = {| status := 200; body := JDates dates |}
    /\ (june1 <= june1 + 40 * day <= june1 + 89 * Js.msPerDay ->
        {| d_id := 1; d_date := june1 + 40 * day; d_isAvailable := true;
           d_createdAt := 0; d_updatedAt := 0 |} ∈ dw_date <$> dates)
    /\ ({| d_id := 1; d_date := june1 + 40 * day; d_isAvailable := true;
           d_createdAt := 0; d_updatedAt := 0 |} ∈ dw_date <$> dates ->
        june1 <= june1 + 40 * day <= june1 + 92 * Js.msPerDay).
Proof.
  apply (window_spans_three_months isoDate (anonymous GET_availability) (at_ june1) demoStore
           {| d_id := 1; d_date := june1 + 40 * day; d_isAvailable := true;
              d_createdAt := 0; d_updatedAt := 0 |}); try reflexivity.
  apply list_elem_of_here.
Defined.

Lemma id_suffix_is_ignored_witness :
  Js.parseInt ("12" +:+ "abc") = Js.parseInt "12"
  /\ Js.parseInt ("12" +:+ "abc") = Int 12
  /\ registerRoutes isoDate
       {| cookie := Some "sid-admin"; route := PATCH_reviews ("12" +:+ "abc") approve |}
       (at_ june1) demoStore
     = registerRoutes isoDate
         {| cookie := Some "sid-admin"; route := PATCH_reviews "12" approve |}
         (at_ june1) demoStore.
Proof.
  destruct (id_suffix_is_ignored isoDate (fun id => PATCH_reviews id approve) "12" "abc"
              (Some "sid-admin") (at_ june1) demoStore)
    as (Hsame & Hexact & Hanswer);
    [apply id_patch_reviews | reflexivity | discriminate | reflexivity | discriminate |].
  split; [exact Hsame|]. split; [|exact Hanswer].
  apply Hexact. reflexivity.
Defined.

Lemma getFaqs_listing_witness :
  exists listed,
    Content.getFaqs (Some (Int 0)) (at_ june1) demoDb = (Resolved listed, demoDb)
    /\ StronglySorted Content.byFaqOrder listed
    /\ listed ≡ₚ rows (Content.faqsOf demoDb).
Proof. apply (getFaqs_listing (Some (Int 0)) (at_ june1) demoDb). reflexivity. Defined.

Lemma getAdminLogs_listing_witness :
  exists listed,
    Content.getAdminLogs (Some (Int 2)) (at_ june1) demoDb = (Resolved listed, demoDb)
    /\ StronglySorted Content.byCreatedAt listed
    /\ listed ≡ₚ filter (fun a => l_adminId a = 2) (rows (adminLogs demoDb)).
Proof. apply (getAdminLogs_listing (Some (Int 2)) (at_ june1) demoDb). reflexivity. Defined.

Lemma created_category_is_listed_witness :
  exists c db' listed,
    Content.createFaqCategory {| ic_name := "Eventi"; ic_order := 0 |} (at_ june1) demoDb
    = (Resolved (Some c), db')
    /\ c_name c = "Eventi"
    /\ Content.getFaqCategories (at_ (june1 + 1)) db' = (Resolved listed, db')
    /\ listed ≡ₚ c :: rows (faqCategories demoDb).
Proof.
  eexists _, _.
  destruct (created_category_is_listed {| ic_name := "Eventi"; ic_order := 0 |}
              (at_ june1) (at_ (june1 + 1)) demoDb _ _ eq_refl eq_refl)
    as (Hname & _ & listed & Hlisted & Hperm & _).
  exists listed. by repeat split.
Defined.

Lemma created_faq_is_counted_witness :
  exists f db' stats stats',
    Content.createFaq
      {| if_categoryId := 2; if_question := "Chi?"; if_answer := "Tiziano"; if_order := 5 |}
      (at_ june1) demoDb
    = (Resolved (Some f), db')
    /\ (registerRoutes isoDate (asAdmin GET_admin_stats) (at_ june1) (core demoDb)).1.1
       = {| status := 200; body := JStats stats |}
    /\ (registerRoutes isoDate (asAdmin GET_admin_stats) (at_ june1) (core db')).1.1
       = {| status := 200; body := JStats stats' |}
    /\ faqCount stats' = faqCount stats + 1.
Proof.
  eexists _, _.
  destruct (created_faq_is_counted isoDate
              {| if_categoryId := 2; if_question := "Chi?"; if_answer := "Tiziano";
                 if_order := 5 |}
              (asAdmin GET_admin_stats) (at_ june1) (at_ june1) (at_ june1) demoDb _ _
              eq_refl eq_refl eq_refl eq_refl eq_refl)
    as (_ & _ & _ & _ & listed & stats & stats' & _ & _ & Hs & Hs' & Hcount & _).
  exists stats, stats'. by repeat split.
Defined.

Lemma deleted_faq_is_gone_witness :
  exists db' listed,
    Content.deleteFaq (Int 2) (at_ june1) demoDb = (Resolved tt, db')
    /\ Content.getFaqs None (at_ (june1 + 1)) db' = (Resolved listed, db')
    /\ (forall f, f ∈ listed <-> f ∈ rows (Content.faqsOf demoDb) /\ Int (f_id f) <> Int 2).
Proof.
  destruct (deleted_faq_is_gone (Int 2) (at_ june1) (at_ (june1 + 1)) demoDb eq_refl eq_refl)
    as (Hgoes & _ & Hthen).
  destruct (Hgoes 2 eq_refl) as [db' Hdel]; [unfold int4; lia|].
  destruct (Hthen db' Hdel) as (listed & Hget & Hlisted & _).
  by exists db', listed.
Defined.

Lemma updateFaq_partial_witness :
  Content.updateFaq (Int 9)
    {| pf_id := None; pf_categoryId := None; pf_question := None;
       pf_answer := Some "Sempre"; pf_order := None |}
    (at_ june1) demoDb
  = (Resolved None, demoDb).
Proof.
  apply (proj1 (updateFaq_partial (Int 9)
                  {| pf_id := None; pf_categoryId := None; pf_question := None;
                     pf_answer := Some "Sempre"; pf_order := None |}
                  (at_ june1) demoDb eq_refl (ex_intro _ _ eq_refl)) 9 eq_refl).
  - unfold int4. lia.
  - apply Forall_forall. by_evaluation.
Defined.

Lemma created_user_is_found_witness :
  exists u db',
    Content.createUser {| iu_username := "marta"; iu_password := "hash2" |} (at_ june1) demoDb
    = (Resolved (Some u), db')
    /\ Content.getUserByUsername "marta" (at_ (june1 + 1)) db' = (Resolved (Some u), db').
Proof.
  eexists _, _. split; [reflexivity|].
  apply (created_user_is_found {| iu_username := "marta"; iu_password := "hash2" |}
           (at_ june1) (at_ june1) (at_ (june1 + 1)) demoDb _ _ eq_refl eq_refl eq_refl).
  apply Forall_forall. by_evaluation.
Defined.

Lemma logged_action_is_listed_witness :
  exists a db' listed,
    Content.createAdminLog {| il_adminId := 1; il_action := "delete faq" |} (at_ june1) demoDb
    = (Resolved (Some a), db')
    /\ Content.getAdminLogs (Some (Int 1)) (at_ (june1 + 1)) db' = (Resolved listed, db')
    /\ a ∈ listed.
Proof.
  eexists _, _.
  destruct (logged_action_is_listed {| il_adminId := 1; il_action := "delete faq" |}
              (at_ june1) (at_ (june1 + 1)) demoDb _ _ eq_refl eq_refl)
    as (_ & _ & _ & listed & Hlisted & Hin).
  by exists listed.
Defined.

Lemma deleted_category_is_gone_witness :
  exists db' listed,
    Content.deleteFaqCategory (Int 1) (at_ june1) demoDb = (Resolved tt, db')
    /\ Content.getFaqCategories (at_ (june1 + 1)) db' = (Resolved listed, db')
    /\ (forall c, c ∈ listed <-> c ∈ rows (faqCategories demoDb) /\ Int (c_id c) <> Int 1).
Proof.
  eexists.
  destruct (deleted_category_is_gone (Int 1) (at_ june1) (at_ (june1 + 1)) demoDb _
              eq_refl eq_refl)
    as (listed & Hget & Hlisted & _).
  by exists listed.
Defined.

Lemma updateFaqCategory_partial_witness :
  exists result db',
    Content.updateFaqCategory (Int 2)
      {| pc_id := None; pc_name := Some "Ritratti in studio"; pc_order := None |}
      (at_ june1) demoDb
    = (Resolved result, db')
    /\ (result = None
        <-> forall c, c ∈ rows (faqCategories demoDb) -> Int (c_id c) <> Int 2).
Proof.
  eexists _, _. split; [reflexivity|].
  apply (updateFaqCategory_partial (Int 2)
           {| pc_id := None; pc_name := Some "Ritratti in studio"; pc_order := None |}
           (at_ june1) demoDb _ _ eq_refl).
Defined.
